(** * glitch-squad / lab: the three YOLO training drivers

    A shallow embedding of [lab/train.py], [lab/train-gpu.py] and
    [lab/train-gpu-yolo12.py].  Each script is a straight-line driver around
    external collaborators: the process environment, the file system, the
    Roboflow client, the Ultralytics trainer and exporter.  The scripts are
    embedded as programs over an explicit signature of external calls.  A
    program is run against an arbitrary environment, which answers every
    call and may change state as it does so; the run yields the interleaved
    trace of everything printed and of every call made with its answer, the
    state the environment is left in, and the way the program ended (a
    value, or an exception that propagated).

    What the model leaves out: [print] and [os.getcwd] are taken not to
    raise, and [str.upper] and [repr] are exact on ASCII text. *)

From Stdlib Require Import ZArith QArith String Ascii List.
From stdpp Require Import base option list strings pretty gmap.

Local Open Scope Z_scope.
Local Open Scope string_scope.
Local Open Scope list_scope.

(** * The model of Python and of the outside world *)

(** ** Python values and strings *)

(** A Python [str] is modelled by the string of its UTF-8 bytes. *)

Definition nl : string := String "010"%char EmptyString.

(** [repr] needs the two quote characters and the backslash. *)
Definition squote : ascii := "039"%char.
Definition dquote : ascii := "034"%char.
Definition backslash : ascii := "092"%char.

(** [str.upper()], on the ASCII letters.  Bytes outside [a-z] are left as
    they are. *)
Definition upper_ascii (c : ascii) : ascii :=
  let n := nat_of_ascii c in
  if (Nat.leb 97 n && Nat.leb n 122)%bool then ascii_of_nat (n - 32)%nat else c.

Fixpoint upper (s : string) : string :=
  match s with
  | EmptyString => EmptyString
  | String c s' => String (upper_ascii c) (upper s')
  end.

(** [s.startswith(c)] and [s.endswith(c)] for a one-character [c]. *)
Definition startswith_char (s : string) (c : ascii) : bool :=
  match s with
  | String c' _ => if decide (c' = c) then true else false
  | EmptyString => false
  end.

Fixpoint endswith_char (s : string) (c : ascii) : bool :=
  match s with
  | EmptyString => false
  | String c' EmptyString => if decide (c' = c) then true else false
  | String _ s' => endswith_char s' c
  end.

(** [os.path.join(a, b)] of [posixpath]. *)
Definition os_path_join (a b : string) : string :=
  if startswith_char b "/" then b
  else if (if decide (a = "") then true else endswith_char a "/") then a +:+ b
  else a +:+ "/" +:+ b.

(** [repr] of a [str]: single quotes unless the string holds a single quote
    and no double quote; backslash, the chosen quote, newline, carriage
    return and tab are escaped, other ASCII control characters are written
    [\xNN].  Bytes above 127 are kept (printable non-ASCII text). *)
Fixpoint contains_char (s : string) (c : ascii) : bool :=
  match s with
  | EmptyString => false
  | String c' s' => if decide (c' = c) then true else contains_char s' c
  end.

Definition hex_digit (n : nat) : ascii :=
  if Nat.ltb n 10 then ascii_of_nat (48 + n) else ascii_of_nat (87 + n).

Definition repr_char (q : ascii) (c : ascii) : string :=
  let n := nat_of_ascii c in
  if decide (c = backslash) then String backslash (String backslash "")
  else if decide (c = q) then String backslash (String q "")
  else if decide (c = "010"%char) then String backslash "n"
  else if decide (c = "013"%char) then String backslash "r"
  else if decide (c = "009"%char) then String backslash "t"
  else if (Nat.ltb n 32 || Nat.eqb n 127)%bool then
    String backslash (String "x" (String (hex_digit (n / 16)) (String (hex_digit (n mod 16)) "")))
  else String c "".

Fixpoint repr_chars (q : ascii) (s : string) : string :=
  match s with
  | EmptyString => EmptyString
  | String c s' => repr_char q c +:+ repr_chars q s'
  end.

Definition repr_str (s : string) : string :=
  let q := if (contains_char s squote && negb (contains_char s dquote))%bool
           then dquote else squote in
  String q (repr_chars q s +:+ String q "").

Fixpoint join_comma (l : list string) : string :=
  match l with
  | [] => ""
  | [x] => x
  | x :: l' => x +:+ ", " +:+ join_comma l'
  end.

(** [repr] of a list of [str], as an f-string prints it. *)
Definition repr_list (l : list string) : string :=
  "[" +:+ join_comma (map repr_str l) +:+ "]".

(** [str(n)] of an [int]. *)
Definition str_int (n : Z) : string := pretty n.

(** The values passed as keyword arguments to the trainer and exporter.  A
    [float] is kept as the decimal fraction written in the source: the
    scripts pass these numbers on and never compute with them. *)
Inductive pyval : Type :=
| VStr (s : string)
| VInt (n : Z)
| VBool (b : bool)
| VFloat (q : Q).

Definition kwargs : Type := list (string * pyval).

(** The value of keyword [k], as the callee sees it. *)
Fixpoint kwarg (k : string) (kw : kwargs) : option pyval :=
  match kw with
  | [] => None
  | (k', v) :: kw' => if decide (k' = k) then Some v else kwarg k kw'
  end.

(** ** Exceptions *)

(** What a call can raise.  [except Exception] catches the instances of
    [Exception] only; [KeyboardInterrupt], [SystemExit] and the like derive
    from [BaseException] directly and pass through it.  The string is
    [str(e)]. *)
Inductive exn : Type :=
| Exception (msg : string)
| BaseException (msg : string).

Inductive outcome (A : Type) : Type :=
| Normal (a : A)
| Raised (e : exn).
Arguments Normal {A} a.
Arguments Raised {A} e.

(** ** External calls *)

(** Objects handed out by the libraries ([Roboflow], workspace, project,
    version, [YOLO] model) are opaque references. *)
Definition ref : Type := nat.

(** The object returned by [download]; the scripts read [.location]. *)
Record Dataset : Type := { location : string }.

Inductive event : Type → Type :=
| environ_get (key : string) : event (option string)
| getcwd : event string
| path_exists (path : string) : event bool
| Roboflow (api_key : string) : event (outcome ref)
| workspace (rf : ref) (name : string) : event (outcome ref)
| project (ws : ref) (name : string) : event (outcome ref)
| version (proj : ref) (number : Z) : event (outcome ref)
| download (ver : ref) (format : string) : event (outcome Dataset)
| YOLO (weights : string) : event (outcome ref)
| train (model : ref) (kw : kwargs) : event (outcome unit)
| export (model : ref) (kw : kwargs) : event (outcome unit).

(** A call together with what it answered, as it appears in a trace. *)
Inductive call : Type :=
| c_environ_get (key : string) (r : option string)
| c_getcwd (r : string)
| c_path_exists (path : string) (r : bool)
| c_Roboflow (api_key : string) (r : outcome ref)
| c_workspace (rf : ref) (name : string) (r : outcome ref)
| c_project (ws : ref) (name : string) (r : outcome ref)
| c_version (proj : ref) (number : Z) (r : outcome ref)
| c_download (ver : ref) (format : string) (r : outcome Dataset)
| c_YOLO (weights : string) (r : outcome ref)
| c_train (model : ref) (kw : kwargs) (r : outcome unit)
| c_export (model : ref) (kw : kwargs) (r : outcome unit).

Definition call_of {X} (e : event X) : X → call :=
  match e in event X return X → call with
  | environ_get key => c_environ_get key
  | getcwd => c_getcwd
  | path_exists p => c_path_exists p
  | Roboflow k => c_Roboflow k
  | workspace rf n => c_workspace rf n
  | project ws n => c_project ws n
  | version p n => c_version p n
  | download v f => c_download v f
  | YOLO w => c_YOLO w
  | train m kw => c_train m kw
  | export m kw => c_export m kw
  end.

Inductive entry : Type :=
| Printed (line : string)
| Called (c : call).

Definition trace : Type := list entry.

(** ** Programs *)

(** A program either ends with a value, prints a line, or makes an external
    call and goes on with its answer. *)
Inductive prog (A : Type) : Type :=
| Ret (a : A)
| Print (line : string) (k : prog A)
| Vis {X : Type} (e : event X) (k : X → prog A).
Arguments Ret {A} a.
Arguments Print {A} line k.
Arguments Vis {A X} e k.

Fixpoint bind {A B} (p : prog A) (f : A → prog B) : prog B :=
  match p with
  | Ret a => f a
  | Print line k => Print line (bind k f)
  | Vis e k => Vis e (λ x, bind (k x) f)
  end.

(** A Python computation: it ends normally with a value or by raising. *)
Definition py (A : Type) : Type := prog (outcome A).

Definition ret {A} (a : A) : py A := Ret (Normal a).
Definition print (line : string) : py unit := Print line (ret tt).
(** A call that cannot raise. *)
Definition ask {X} (e : event X) : py X := Vis e (λ x, ret x).
(** A call that returns or raises. *)
Definition invoke {X} (e : event (outcome X)) : py X := Vis e (λ r, Ret r).

Definition pbind {A B} (p : py A) (f : A → py B) : py B :=
  bind p (λ r, match r with Normal a => f a | Raised e => Ret (Raised e) end).

(** [try: body  except Exception as e: handler] *)
Definition try_except {A} (body : py A) (handler : string → py A) : py A :=
  bind body (λ r, match r with
                  | Raised (Exception msg) => handler msg
                  | _ => Ret r
                  end).

(** [for x in xs: body] *)
Fixpoint for_in {X} (xs : list X) (body : X → py unit) : py unit :=
  match xs with
  | [] => ret tt
  | x :: xs' => pbind (body x) (λ _, for_in xs' body)
  end.

(** Sequencing is written with stdpp's monad notations: [x ← p; q] and
    [p;; q]. *)
#[global] Instance py_ret : MRet py := @ret.
#[global] Instance py_bind : MBind py := λ A B f p, pbind p f.

(** ** Running a program *)

(** The environment answers every external call and may change as it does
    so; printing does not reach it. *)
Definition handler (S : Type) : Type := ∀ X, event X → S → X * S.

Fixpoint run {S A} (h : handler S) (p : prog A) (s : S) : trace * S * A :=
  match p with
  | Ret a => ([], s, a)
  | Print line k =>
      let '(t, s', a) := run h k s in (Printed line :: t, s', a)
  | Vis e k =>
      let '(x, s1) := h _ e s in
      let '(t, s', a) := run h (k x) s1 in
      (Called (call_of e x) :: t, s', a)
  end.

Definition trace_of {S A} (r : trace * S * A) : trace := r.1.1.
Definition state_of {S A} (r : trace * S * A) : S := r.1.2.
Definition result_of {S A} (r : trace * S * A) : A := r.2.

(** The external calls of a trace, without what was printed. *)
Fixpoint calls_of (t : trace) : list call :=
  match t with
  | [] => []
  | Printed _ :: t' => calls_of t'
  | Called c :: t' => c :: calls_of t'
  end.

(** * The three scripts *)

(** ** [lab/train-gpu.py] *)

Module TrainGpu.

(** The module-level names [main] reads. *)
Record globals : Type := {
  API_KEY : string;
  PROJECT_WORKSPACE : string;
  PROJECT_NAME : string;
  VERSION_NUMBER : Z;
  MODEL_SIZES : list string;
  BATCH_CONFIG : gmap string Z
}.

(** Lines 9-30: the values the module gives them, for the credential
    found at import time. *)
Definition module_globals (api_key : string) : globals := {|
  API_KEY := api_key;
  PROJECT_WORKSPACE := "yolo-jpkho";
  PROJECT_NAME := "combined-vegetables-fruits";
  VERSION_NUMBER := 1;
  MODEL_SIZES := ["s"; "m"; "l"];
  BATCH_CONFIG := {[ "s" := 128; "m" := 48; "l" := 32 ]}
|}.

(** Lines 56-60: the body of the [try] statement of the dataset step. *)
Definition download_dataset (G : globals) : py (option string) :=
  rf ← invoke (Roboflow (API_KEY G));
  ws ← invoke (workspace rf (PROJECT_WORKSPACE G));
  project ← invoke (project ws (PROJECT_NAME G));
  ver ← invoke (version project (VERSION_NUMBER G));
  dataset ← invoke (download ver "yolov8");
  let dataset_location := location dataset in
  print ("✅ Dataset downloaded to: " +:+ dataset_location);;
  ret (Some dataset_location).

(** Lines 37-63, "1. Prepare Dataset".  [Some location] when
    [dataset_location] is bound, [None] where [main] executes [return]. *)
Definition prepare_dataset (G : globals) : py (option string) :=
  cwd ← ask getcwd;
  let local_dataset_path := os_path_join cwd "dataset" in
  let data_yaml_path := os_path_join local_dataset_path "data.yaml" in
  found ← ask (path_exists data_yaml_path);
  if (found : bool) then
    print (nl +:+ "📂 Found local dataset at: " +:+ local_dataset_path);;
    ret (Some local_dataset_path)
  else
    print (nl +:+ "📦 Local dataset not found. Downloading from Roboflow...");;
    if decide (API_KEY G = "" ∨ API_KEY G = "YOUR_API_KEY_HERE") then
      print (nl +:+ "❌ Error: No local dataset and no API Key provided.");;
      print "   Option A: Put your dataset in a 'dataset' folder.";;
      print "   Option B: Set your ROBOFLOW_API_KEY to download one.";;
      ret None
    else
      try_except
        (download_dataset G)
        (λ e,
         print (nl +:+ "❌ Error downloading dataset: " +:+ e);;
         ret None).

(** Lines 81-121: the keyword arguments of [model.train]. *)
Definition train_kwargs (dataset_location size : string) (current_batch : Z) : kwargs :=
  [ ("data", VStr (dataset_location +:+ "/data.yaml"));
    ("epochs", VInt 100);
    ("imgsz", VInt 640);
    ("plots", VBool true);
    ("name", VStr ("yolo11" +:+ size +:+ "_fruit"));
    ("device", VInt 0);
    ("workers", VInt 16);
    ("batch", VInt current_batch);
    ("cache", VBool true);
    ("amp", VBool true);
    ("hsv_h", VFloat 0.015);
    ("hsv_s", VFloat 0.7);
    ("hsv_v", VFloat 0.4);
    ("degrees", VFloat 15.0);
    ("translate", VFloat 0.1);
    ("scale", VFloat 0.5);
    ("shear", VFloat 2.0);
    ("perspective", VFloat 0.0001);
    ("flipud", VFloat 0.0);
    ("fliplr", VFloat 0.5);
    ("mosaic", VFloat 1.0);
    ("mixup", VFloat 0.1);
    ("copy_paste", VFloat 0.1);
    ("patience", VInt 20) ].

(** Line 128: the keyword arguments of [model.export]. *)
Definition export_kwargs : kwargs :=
  [ ("format", VStr "coreml"); ("nms", VBool true) ].

(** Lines 67-131: the body of [for size in MODEL_SIZES]. *)
Definition process_size (G : globals) (dataset_location size : string) : py unit :=
  print (nl +:+ nl +:+ "==================================================");;
  print ("   PROCESSING YOLO11-" +:+ upper size +:+ " MODEL (GPU)");;
  print "==================================================";;
  print (nl +:+ "🏋️‍♀️ Training YOLO11" +:+ size +:+ "...");;
  model ← invoke (YOLO ("yolo11" +:+ size +:+ ".pt"));
  let current_batch := default 16 (BATCH_CONFIG G !! size) in
  print ("👉 using batch size: " +:+ str_int current_batch
         +:+ " (Optimized for " +:+ size +:+ "-model on T4)");;
  invoke (train model (train_kwargs dataset_location size current_batch));;
  print ("✅ Training complete for " +:+ size +:+ "!");;
  print (nl +:+ "📱 Exporting YOLO11" +:+ size +:+ " to CoreML...");;
  try_except
    (invoke (export model export_kwargs);;
     print ("✅ Export complete! Look for 'yolo11" +:+ size
            +:+ "_fruit' folder in 'runs/detect'."))
    (λ e, print ("❌ Export failed for " +:+ size +:+ ": " +:+ e)).

(** Lines 65-131, "2. Train and Export Loop". *)
Definition train_and_export_loop (G : globals) (dataset_location : string) : py unit :=
  for_in (MODEL_SIZES G) (process_size G dataset_location).

(** Lines 33-133. *)
Definition main (G : globals) : py unit :=
  print ("🚀 Starting setup for YOLO11 models: " +:+ repr_list (MODEL_SIZES G)
         +:+ " on Colab A100 GPU...");;
  print "ℹ️  Config: Optimized for NVIDIA A100 (40GB VRAM) - High Speed Mode ⚡️";;
  prepared ← prepare_dataset G;
  match prepared with
  | None => ret tt
  | Some dataset_location =>
      train_and_export_loop G dataset_location;;
      print (nl +:+ nl +:+ "🎉 All models processed successfully!")
  end.

(** Line 9 and lines 135-136: the script run as a program. *)
Definition script : py unit :=
  key ← ask (environ_get "ROBOFLOW_API_KEY");
  main (module_globals (default "wrBZSENL1YtFWZHbvACQ" key)).

End TrainGpu.

(** ** [lab/train-gpu-yolo12.py] *)

Module TrainGpuYolo12.

Record globals : Type := {
  API_KEY : string;
  PROJECT_WORKSPACE : string;
  PROJECT_NAME : string;
  VERSION_NUMBER : Z;
  MODEL_SIZES : list string;
  BATCH_CONFIG : gmap string Z
}.

(** Lines 9-30. *)
Definition module_globals (api_key : string) : globals := {|
  API_KEY := api_key;
  PROJECT_WORKSPACE := "yolo-jpkho";
  PROJECT_NAME := "combined-vegetables-fruits";
  VERSION_NUMBER := 1;
  MODEL_SIZES := ["s"; "m"; "l"];
  BATCH_CONFIG := {[ "s" := 32; "m" := 16; "l" := 16 ]}
|}.

(** Lines 57-62: the body of the [try] statement of the dataset step. *)
Definition download_dataset (G : globals) : py (option string) :=
  rf ← invoke (Roboflow (API_KEY G));
  ws ← invoke (workspace rf (PROJECT_WORKSPACE G));
  project ← invoke (project ws (PROJECT_NAME G));
  ver ← invoke (version project (VERSION_NUMBER G));
  dataset ← invoke (download ver "yolov8");
  let dataset_location := location dataset in
  print ("✅ Dataset downloaded to: " +:+ dataset_location);;
  ret (Some dataset_location).

(** Lines 38-65, "1. Prepare Dataset". *)
Definition prepare_dataset (G : globals) : py (option string) :=
  cwd ← ask getcwd;
  let local_dataset_path := os_path_join cwd "dataset" in
  let data_yaml_path := os_path_join local_dataset_path "data.yaml" in
  found ← ask (path_exists data_yaml_path);
  if (found : bool) then
    print (nl +:+ "📂 Found local dataset at: " +:+ local_dataset_path);;
    ret (Some local_dataset_path)
  else
    print (nl +:+ "📦 Local dataset not found. Downloading from Roboflow...");;
    if decide (API_KEY G = "" ∨ API_KEY G = "YOUR_API_KEY_HERE") then
      print (nl +:+ "❌ Error: No local dataset and no API Key provided.");;
      print "   Option A: Put your dataset in a 'dataset' folder.";;
      print "   Option B: Set your ROBOFLOW_API_KEY to download one.";;
      ret None
    else
      try_except
        (download_dataset G)
        (λ e,
         print (nl +:+ "❌ Error downloading dataset: " +:+ e);;
         ret None).

(** Lines 83-97. *)
Definition train_kwargs (dataset_location size : string) (current_batch : Z) : kwargs :=
  [ ("data", VStr (dataset_location +:+ "/data.yaml"));
    ("epochs", VInt 20);
    ("imgsz", VInt 640);
    ("plots", VBool true);
    ("name", VStr ("yolo12" +:+ size +:+ "_fruit"));
    ("device", VInt 0);
    ("workers", VInt 2);
    ("batch", VInt current_batch);
    ("cache", VBool false);
    ("amp", VBool true) ].

(** Line 104. *)
Definition export_kwargs : kwargs :=
  [ ("format", VStr "coreml"); ("nms", VBool true) ].

(** Lines 69-107. *)
Definition process_size (G : globals) (dataset_location size : string) : py unit :=
  print (nl +:+ nl +:+ "==================================================");;
  print ("   PROCESSING YOLO12-" +:+ upper size +:+ " MODEL (GPU)");;
  print "==================================================";;
  print (nl +:+ "🏋️‍♀️ Training YOLO12" +:+ size +:+ "...");;
  model ← invoke (YOLO ("yolo12" +:+ size +:+ ".pt"));
  let current_batch := default 16 (BATCH_CONFIG G !! size) in
  print ("👉 Using batch size: " +:+ str_int current_batch
         +:+ " (Optimized for " +:+ size +:+ "-model on T4)");;
  invoke (train model (train_kwargs dataset_location size current_batch));;
  print ("✅ Training complete for " +:+ size +:+ "!");;
  print (nl +:+ "📱 Exporting YOLO12" +:+ size +:+ " to CoreML...");;
  try_except
    (invoke (export model export_kwargs);;
     print ("✅ Export complete! Look for 'yolo12" +:+ size
            +:+ "_fruit' folder in 'runs/detect'."))
    (λ e, print ("❌ Export failed for " +:+ size +:+ ": " +:+ e)).

(** Lines 67-107, "2. Train and Export Loop". *)
Definition train_and_export_loop (G : globals) (dataset_location : string) : py unit :=
  for_in (MODEL_SIZES G) (process_size G dataset_location).

(** Lines 33-109. *)
Definition main (G : globals) : py unit :=
  print ("🚀 Starting setup for YOLO12 models: " +:+ repr_list (MODEL_SIZES G)
         +:+ " on Colab GPU...");;
  print "ℹ️  YOLO12 (Feb 2025) - Uses attention mechanisms for improved accuracy";;
  print "ℹ️  Detected Config: ~12GB System RAM, ~15GB GPU VRAM (Tesla T4)";;
  prepared ← prepare_dataset G;
  match prepared with
  | None => ret tt
  | Some dataset_location =>
      train_and_export_loop G dataset_location;;
      print (nl +:+ nl +:+ "🎉 All YOLO12 models processed successfully!")
  end.

(** Line 9 and lines 111-112. *)
Definition script : py unit :=
  key ← ask (environ_get "ROBOFLOW_API_KEY");
  main (module_globals (default "wrBZSENL1YtFWZHbvACQ" key)).

End TrainGpuYolo12.

(** ** [lab/train.py] *)

Module Train.

(** This script has no batch-size table. *)
Record globals : Type := {
  API_KEY : string;
  PROJECT_WORKSPACE : string;
  PROJECT_NAME : string;
  VERSION_NUMBER : Z;
  MODEL_SIZES : list string
}.

(** Lines 9-17. *)
Definition module_globals (api_key : string) : globals := {|
  API_KEY := api_key;
  PROJECT_WORKSPACE := "yolo-jpkho";
  PROJECT_NAME := "combined-vegetables-fruits";
  VERSION_NUMBER := 1;
  MODEL_SIZES := ["s"; "m"; "l"]
|}.

(** Lines 42-46: the body of the [try] statement of the dataset step. *)
Definition download_dataset (G : globals) : py (option string) :=
  rf ← invoke (Roboflow (API_KEY G));
  ws ← invoke (workspace rf (PROJECT_WORKSPACE G));
  project ← invoke (project ws (PROJECT_NAME G));
  ver ← invoke (version project (VERSION_NUMBER G));
  dataset ← invoke (download ver "yolov8");
  let dataset_location := location dataset in
  print ("✅ Dataset downloaded to: " +:+ dataset_location);;
  ret (Some dataset_location).

(** Lines 23-49, "1. Prepare Dataset".  The first character printed on
    line 29 is U+FFFD in the file. *)
Definition prepare_dataset (G : globals) : py (option string) :=
  cwd ← ask getcwd;
  let local_dataset_path := os_path_join cwd "dataset" in
  let data_yaml_path := os_path_join local_dataset_path "data.yaml" in
  found ← ask (path_exists data_yaml_path);
  if (found : bool) then
    print (nl +:+ "� Found local dataset at: " +:+ local_dataset_path);;
    ret (Some local_dataset_path)
  else
    print (nl +:+ "📦 Local dataset not found. Downloading from Roboflow...");;
    if decide (API_KEY G = "" ∨ API_KEY G = "YOUR_API_KEY_HERE") then
      print (nl +:+ "❌ Error: No local dataset and no API Key provided.");;
      print "   Option A: Put your dataset in a 'dataset' folder.";;
      print "   Option B: Set your ROBOFLOW_API_KEY to download one.";;
      ret None
    else
      try_except
        (download_dataset G)
        (λ e,
         print (nl +:+ "❌ Error downloading dataset: " +:+ e);;
         ret None).

(** Lines 64-75. *)
Definition train_kwargs (dataset_location size : string) : kwargs :=
  [ ("data", VStr (dataset_location +:+ "/data.yaml"));
    ("epochs", VInt 20);
    ("imgsz", VInt 640);
    ("plots", VBool true);
    ("name", VStr ("yolo11" +:+ size +:+ "_fruit"));
    ("device", VStr "mps");
    ("workers", VInt 8);
    ("batch", VInt 16);
    ("cache", VBool false);
    ("amp", VBool true) ].

(** Line 82. *)
Definition export_kwargs : kwargs :=
  [ ("format", VStr "coreml"); ("nms", VBool true) ].

(** Lines 53-85. *)
Definition process_size (G : globals) (dataset_location size : string) : py unit :=
  print (nl +:+ nl +:+ "==================================================");;
  print ("   PROCESSING YOLO11-" +:+ upper size +:+ " MODEL");;
  print "==================================================";;
  print (nl +:+ "🏋️‍♀️ Training YOLO11" +:+ size +:+ "...");;
  model ← invoke (YOLO ("yolo11" +:+ size +:+ ".pt"));
  invoke (train model (train_kwargs dataset_location size));;
  print ("✅ Training complete for " +:+ size +:+ "!");;
  print (nl +:+ "📱 Exporting YOLO11" +:+ size +:+ " to CoreML...");;
  try_except
    (invoke (export model export_kwargs);;
     print ("✅ Export complete! Look for 'yolo11" +:+ size
            +:+ "_fruit' folder in 'runs/detect'."))
    (λ e, print ("❌ Export failed for " +:+ size +:+ ": " +:+ e)).

(** Lines 51-85, "2. Train and Export Loop". *)
Definition train_and_export_loop (G : globals) (dataset_location : string) : py unit :=
  for_in (MODEL_SIZES G) (process_size G dataset_location).

(** Lines 20-87. *)
Definition main (G : globals) : py unit :=
  print ("🚀 Starting setup for YOLO11 models: " +:+ repr_list (MODEL_SIZES G) +:+ "...");;
  prepared ← prepare_dataset G;
  match prepared with
  | None => ret tt
  | Some dataset_location =>
      train_and_export_loop G dataset_location;;
      print (nl +:+ nl +:+ "🎉 All models processed successfully!")
  end.

(** Line 9 and lines 89-90. *)
Definition script : py unit :=
  key ← ask (environ_get "ROBOFLOW_API_KEY");
  main (module_globals (default "wrBZSENL1YtFWZHbvACQ" key)).

End Train.

(** * What is to be proved *)

(** ** What the loops are expected to do *)

(** The three loops name their runs and word their reports alike.  [family]
    is ["yolo11"] or ["yolo12"]. *)

(** The [name=] of a training run, which is also the folder the success
    message points to. *)
Definition run_name (family size : string) : string := family +:+ size +:+ "_fruit".

(** [format='coreml', nms=True]: Core ML with non-maximum suppression inside
    the model. *)
Definition export_request : kwargs := [ ("format", VStr "coreml"); ("nms", VBool true) ].

Definition success_report (family size : string) : string :=
  "✅ Export complete! Look for '" +:+ family +:+ size
  +:+ "_fruit' folder in 'runs/detect'.".

Definition failure_report (size msg : string) : string :=
  "❌ Export failed for " +:+ size +:+ ": " +:+ msg.

(** A call after which the run cannot go on: loading the weights or training
    raised, or the export raised something that is not an [Exception]. *)
Definition aborting (x : entry) : Prop :=
  match x with
  | Called (c_YOLO _ (Raised _)) => True
  | Called (c_train _ _ (Raised _)) => True
  | Called (c_export _ _ (Raised (BaseException _))) => True
  | _ => False
  end.

#[global] Instance aborting_dec (x : entry) : Decision (aborting x).
Proof. unfold aborting. repeat case_match; apply _. Defined.

(** The [name=] of every [train] call, in the order of the calls. *)
Fixpoint trained (t : trace) : list (option pyval) :=
  match t with
  | [] => []
  | Called (c_train _ kw _) :: t' => kwarg "name" kw :: trained t'
  | _ :: t' => trained t'
  end.

(** Every [train] that returns is followed, after two printed lines, by the
    export of the same model with [export_request]; when that export raises
    an [Exception], the next thing in the trace is the failure message of
    the variant that was trained. *)
Definition exports_after_training (family : string) (sizes : list string) (t : trace) : Prop :=
  ∀ pre m kw u post,
    t = pre ++ Called (c_train m kw (Normal u)) :: post →
    ∃ size l1 l2 a post',
      size ∈ sizes ∧
      kwarg "name" kw = Some (VStr (run_name family size)) ∧
      post = Printed l1 :: Printed l2 :: Called (c_export m export_request a) :: post' ∧
      ∀ msg, a = Raised (Exception msg) →
             ∃ post'', post' = Printed (failure_report size msg) :: post''.

(** As long as no call is [aborting], the loop ends normally and every
    variant has been trained, in the order of the list, whatever the
    exports answered. *)
Definition all_trained_unless_aborted (family : string) (sizes : list string)
    (t : trace) (r : outcome unit) : Prop :=
  Forall (λ x, ¬ aborting x) t →
  r = Normal tt ∧ trained t = map (λ size, Some (VStr (run_name family size))) sizes.

(** A [train] call that raises is the last entry of the trace, and what it
    raised is how the run ends. *)
Definition train_error_ends_run {A} (t : trace) (r : outcome A) : Prop :=
  ∀ pre m kw e post,
    t = pre ++ Called (c_train m kw (Raised e)) :: post →
    post = [] ∧ r = Raised e.

(** The work done on the models, in the order of the calls: which run was
    trained on which model, and which model was exported. *)
Inductive step : Type :=
| trains (name : option pyval) (model : ref)
| exports (model : ref).

Fixpoint steps (t : trace) : list step :=
  match t with
  | [] => []
  | Called (c_train m kw _) :: t' => trains (kwarg "name" kw) m :: steps t'
  | Called (c_export m _ _) :: t' => exports m :: steps t'
  | _ :: t' => steps t'
  end.

(** One train-then-export pair per variant, in the order of the list;
    [models] are the models the variants were loaded into. *)
Definition schedule (family : string) (sizes : list string) (models : list ref) : list step :=
  flat_map (λ p, [trains (Some (VStr (run_name family p.1))) p.2; exports p.2])
           (zip sizes models).

(** The steps of a run are an initial part of the schedule, and the whole
    schedule unless some call was [aborting]. *)
Definition in_declared_order (family : string) (sizes : list string) (t : trace) : Prop :=
  ∃ models,
    length models = length sizes ∧
    steps t `prefix_of` schedule family sizes models ∧
    (Forall (λ x, ¬ aborting x) t → steps t = schedule family sizes models).

(** The [name=] and [batch=] of every [train] call, in the order of the
    calls. *)
Fixpoint train_requests (t : trace) : list (option pyval * option pyval) :=
  match t with
  | [] => []
  | Called (c_train _ kw _) :: t' => (kwarg "name" kw, kwarg "batch" kw) :: train_requests t'
  | _ :: t' => train_requests t'
  end.

(** [batch] is the batch size the table [cfg] gives for [size], or 16 when
    the table has no entry for it. *)
Definition configured_batch (cfg : gmap string Z) (size : string) (batch : Z) : Prop :=
  (∀ b, cfg !! size = Some b → batch = b) ∧ (cfg !! size = None → batch = 16).

(** The train calls made are, in order, those of an initial part of the
    list of variants, each with the batch size configured for its variant;
    unless some call was [aborting], there is one for every variant. *)
Definition batches_as_configured (family : string) (cfg : gmap string Z)
    (sizes : list string) (t : trace) : Prop :=
  ∃ batches,
    Forall2 (configured_batch cfg) sizes batches ∧
    let requests :=
      zip_with (λ size b, (Some (VStr (run_name family size)), Some (VInt b))) sizes batches in
    train_requests t `prefix_of` requests ∧
    (Forall (λ x, ¬ aborting x) t → train_requests t = requests).

(** What every [export] call answered, with the line printed right after
    it. *)
Fixpoint reports (t : trace) : list (outcome unit * string) :=
  match t with
  | [] => []
  | Called (c_export _ _ a) :: t' =>
      match t' with
      | Printed line :: _ => (a, line) :: reports t'
      | _ => reports t'
      end
  | _ :: t' => reports t'
  end.

(** The line reports what the export of [size] answered: the folder of the
    run when it returned, the message of the error when it raised one. *)
Definition reported (family size : string) (report : outcome unit * string) : Prop :=
  (report.1 = Normal tt ∧ report.2 = success_report family size) ∨
  (∃ msg, report.1 = Raised (Exception msg) ∧ report.2 = failure_report size msg).

(** The loop reports on an initial part of the list of variants, one line
    per variant and in the order of the list; on the whole list when it
    returns. *)
Definition reports_in_order (family : string) (sizes : list string)
    (t : trace) (r : outcome unit) : Prop :=
  ∃ finished,
    finished `prefix_of` sizes ∧
    Forall2 (reported family) finished (reports t) ∧
    (r = Normal tt → finished = sizes).

(** The per-variant record of the specification: success with the location
    of the artifact, or failure with the error that was caught. *)
Inductive RunOutcome : Type :=
| Success (variant artifact : string)
| Failure (variant : string) (error : exn).

(** The outcomes of a run, read off what it reported. *)
Definition outcomes (family : string) (sizes : list string) (t : trace) : list RunOutcome :=
  zip_with (λ size report,
              match report.1 with
              | Normal _ => Success size (run_name family size)
              | Raised e => Failure size e
              end)
           sizes (reports t).

(** After an export that raised an [Exception], the failure message of its
    variant is printed and the loop goes on: what follows in the trace is a
    run of the loop over the variants that come after it in the list, and
    the loop ends the way that run ends. *)
Definition goes_on_after_export_error {S} (h : handler S) (body : string → py unit)
    (sizes : list string) (R : trace * S * outcome unit) : Prop :=
  ∀ pre m kw msg post,
    trace_of R = pre ++ Called (c_export m kw (Raised (Exception msg))) :: post →
    ∃ before size after s',
      sizes = before ++ size :: after ∧
      post = Printed (failure_report size msg) :: trace_of (run h (for_in after body) s') ∧
      result_of R = result_of (run h (for_in after body) s').

(** An error of the export stays inside its turn of the loop. *)
Definition export_contained {S} (h : handler S) (body : string → py unit)
    (family : string) (sizes : list string) (R : trace * S * outcome unit) : Prop :=
  exports_after_training family sizes (trace_of R) ∧
  goes_on_after_export_error h body sizes R ∧
  all_trained_unless_aborted family sizes (trace_of R) (result_of R).

(** An error of the training ends the run. *)
Definition stops_at_train_error {S A} (R : trace * S * outcome A) : Prop :=
  train_error_ends_run (trace_of R) (result_of R).

(** ** What the dataset step is expected to do *)

(** Lines 39-40 of [train-gpu.py], 40-41 of [train-gpu-yolo12.py], 25-26 of
    [train.py]. *)
Definition local_dataset_path (cwd : string) : string := os_path_join cwd "dataset".
Definition data_yaml_path (cwd : string) : string :=
  os_path_join (local_dataset_path cwd) "data.yaml".

(** From state [s] the environment answers [cwd] for the working directory
    and then [found] for the existence of the descriptor, which leaves it in
    state [s']. *)
Definition descriptor_check {S} (h : handler S) (s : S) (cwd : string) (found : bool)
    (s' : S) : Prop :=
  ∃ s1, h _ getcwd s = (cwd, s1) ∧ h _ (path_exists (data_yaml_path cwd)) s1 = (found, s').

(** The dataset step settled on the local folder: it made the two calls of
    the check and no other. *)
Definition uses_local_dataset {S} (cwd : string) (s' : S)
    (R : trace * S * outcome (option string)) : Prop :=
  result_of R = Normal (Some (local_dataset_path cwd)) ∧
  calls_of (trace_of R) = [c_getcwd cwd; c_path_exists (data_yaml_path cwd) true] ∧
  state_of R = s'.

(** The guard of line 49 ([train-gpu.py]), 50 ([train-gpu-yolo12.py]), 35
    ([train.py]). *)
Definition no_credential (api_key : string) : Prop :=
  api_key = "" ∨ api_key = "YOUR_API_KEY_HERE".

Definition not_found_line : string :=
  nl +:+ "📦 Local dataset not found. Downloading from Roboflow...".

Definition no_credential_lines : list string :=
  [ nl +:+ "❌ Error: No local dataset and no API Key provided.";
    "   Option A: Put your dataset in a 'dataset' folder.";
    "   Option B: Set your ROBOFLOW_API_KEY to download one." ].

Definition download_error_line (msg : string) : string :=
  nl +:+ "❌ Error downloading dataset: " +:+ msg.

(** The dataset step gave up for want of a credential, and so did [main]:
    the step printed the error and bound no location; in the whole run of
    [main] the only calls are the two of the check, and [main] returns. *)
Definition gives_up_without_credential {S} (cwd : string) (s' : S)
    (prepared : trace * S * outcome (option string))
    (whole : trace * S * outcome unit) : Prop :=
  prepared =
    (Called (c_getcwd cwd) :: Called (c_path_exists (data_yaml_path cwd) false) ::
     Printed not_found_line :: map Printed no_credential_lines,
     s', Normal None) ∧
  calls_of (trace_of whole) = [c_getcwd cwd; c_path_exists (data_yaml_path cwd) false] ∧
  state_of whole = s' ∧
  result_of whole = Normal tt.

(** An entry that is a call on a model: loading, training or exporting. *)
Definition model_entry (x : entry) : Prop :=
  match x with
  | Called (c_YOLO _ _) | Called (c_train _ _ _) | Called (c_export _ _ _) => True
  | _ => False
  end.

(** The download raised the error [msg] after leaving [fetched] in the
    trace: the dataset step printed the message and bound no location;
    [main] printed it last, made no call on a model, and returned. *)
Definition gives_up_after_download_error {S} (cwd : string) (fetched : trace) (msg : string)
    (s' : S) (prepared : trace * S * outcome (option string))
    (whole : trace * S * outcome unit) : Prop :=
  prepared =
    (Called (c_getcwd cwd) :: Called (c_path_exists (data_yaml_path cwd) false) ::
     Printed not_found_line :: fetched ++ [Printed (download_error_line msg)],
     s', Normal None) ∧
  last (trace_of whole) = Some (Printed (download_error_line msg)) ∧
  Forall (λ x, ¬ model_entry x) (trace_of whole) ∧
  state_of whole = s' ∧
  result_of whole = Normal tt.

(** With [ROBOFLOW_API_KEY] unset and no local descriptor, [script] goes
    to the Roboflow client with the key written in the file. *)
Definition fetches_with_embedded_key {S} (h : handler S) (s : S) (script : py unit) : Prop :=
  ∀ s0 cwd s1,
    h _ (environ_get "ROBOFLOW_API_KEY") s = (None, s0) →
    descriptor_check h s0 cwd false s1 →
    ∃ banner a rest,
      trace_of (run h script s) =
        Called (c_environ_get "ROBOFLOW_API_KEY" None) :: map Printed banner ++
        Called (c_getcwd cwd) :: Called (c_path_exists (data_yaml_path cwd) false) ::
        Printed not_found_line ::
        Called (c_Roboflow "wrBZSENL1YtFWZHbvACQ" a) :: rest.

(** The arguments every script passes to the Roboflow client, for the
    credential [api_key]. *)
Definition fetch_arguments (api_key : string) (c : call) : Prop :=
  match c with
  | c_Roboflow k _ => k = api_key
  | c_workspace _ name _ => name = "yolo-jpkho"
  | c_project _ name _ => name = "combined-vegetables-fruits"
  | c_version _ number _ => number = 1
  | c_download _ format _ => format = "yolov8"
  | _ => True
  end.

(** Two runs of a dataset step agree: same calls with the same answers,
    same state left, same location or failure. *)
Definition same_resolution {S} (R1 R2 : trace * S * outcome (option string)) : Prop :=
  calls_of (trace_of R1) = calls_of (trace_of R2) ∧
  state_of R1 = state_of R2 ∧
  result_of R1 = result_of R2.

(** * Devices for the proofs *)

(** ** Properties of every position of a trace *)

(** [each_suffix P t]: at every position of [t], [P] holds of the entry
    there and of the entries that follow it. *)
Fixpoint each_suffix (P : entry → trace → Prop) (t : trace) : Prop :=
  match t with
  | [] => True
  | x :: t' => P x t' ∧ each_suffix P t'
  end.

(** The properties that speak of an entry and of what follows it are proved
    in the form [each_suffix P]; these are the [P]s. *)

Definition train_exported (family : string) (sizes : list string) (x : entry)
    (post : trace) : Prop :=
  match x with
  | Called (c_train m kw (Normal _)) =>
      ∃ size l1 l2 a post',
        size ∈ sizes ∧
        kwarg "name" kw = Some (VStr (run_name family size)) ∧
        post = Printed l1 :: Printed l2 :: Called (c_export m export_request a) :: post' ∧
        ∀ msg, a = Raised (Exception msg) →
               ∃ post'', post' = Printed (failure_report size msg) :: post''
  | _ => True
  end.

Definition train_raise_ends {A} (r : outcome A) (x : entry) (post : trace) : Prop :=
  match x with
  | Called (c_train _ _ (Raised e)) => post = [] ∧ r = Raised e
  | _ => True
  end.

Definition after_export_error {S} (h : handler S) (body : string → py unit)
    (sizes : list string) (r : outcome unit) (x : entry) (post : trace) : Prop :=
  match x with
  | Called (c_export _ _ (Raised (Exception msg))) =>
      ∃ before size after s',
        sizes = before ++ size :: after ∧
        post = Printed (failure_report size msg) :: trace_of (run h (for_in after body) s') ∧
        r = result_of (run h (for_in after body) s')
  | _ => True
  end.

(** ** One turn of the train-and-export loop *)

(** The three loops have the same body up to the texts they print and the
    arguments they pass.  [turn] lists those for one size; [turn_trace] is
    what a turn leaves in the trace, by the way it went. *)
Record turn : Type := {
  before_load : list string;
  weights : string;
  before_train : list string;
  train_kw : kwargs;
  trained_line : string;
  exporting_line : string;
  export_kw : kwargs;
  exported_line : string;
  failed_line : string → string
}.

Inductive went : Type :=
| load_raised (e : exn)
| train_raised (model : ref) (e : exn)
| export_returned (model : ref)
| export_caught (model : ref) (msg : string)
| export_escaped (model : ref) (msg : string).

Definition went_result (w : went) : outcome unit :=
  match w with
  | load_raised e | train_raised _ e => Raised e
  | export_returned _ | export_caught _ _ => Normal tt
  | export_escaped _ msg => Raised (BaseException msg)
  end.

Definition turn_trace (T : turn) (w : went) : trace :=
  map Printed (before_load T) ++
  match w with
  | load_raised e => [Called (c_YOLO (weights T) (Raised e))]
  | train_raised m e =>
      Called (c_YOLO (weights T) (Normal m)) :: map Printed (before_train T) ++
      [Called (c_train m (train_kw T) (Raised e))]
  | export_returned m =>
      Called (c_YOLO (weights T) (Normal m)) :: map Printed (before_train T) ++
      [Called (c_train m (train_kw T) (Normal tt));
       Printed (trained_line T); Printed (exporting_line T);
       Called (c_export m (export_kw T) (Normal tt));
       Printed (exported_line T)]
  | export_caught m msg =>
      Called (c_YOLO (weights T) (Normal m)) :: map Printed (before_train T) ++
      [Called (c_train m (train_kw T) (Normal tt));
       Printed (trained_line T); Printed (exporting_line T);
       Called (c_export m (export_kw T) (Raised (Exception msg)));
       Printed (failed_line T msg)]
  | export_escaped m msg =>
      Called (c_YOLO (weights T) (Normal m)) :: map Printed (before_train T) ++
      [Called (c_train m (train_kw T) (Normal tt));
       Printed (trained_line T); Printed (exporting_line T);
       Called (c_export m (export_kw T) (Raised (BaseException msg)))]
  end.

(** A run of the whole loop: turns that end normally, one after the other,
    up to the end of the list or to the first turn that raises. *)
Inductive loop_run (T : string → turn) : list string → trace → outcome unit → Prop :=
| loop_end :
    loop_run T [] [] (Normal tt)
| loop_next size rest w t r :
    went_result w = Normal tt →
    loop_run T rest t r →
    loop_run T (size :: rest) (turn_trace (T size) w ++ t) r
| loop_abort size rest w e :
    went_result w = Raised e →
    loop_run T (size :: rest) (turn_trace (T size) w) (Raised e).

Definition takes_turns {S} (h : handler S) (body : string → py unit) (T : string → turn) : Prop :=
  ∀ size s, ∃ w s', run h (body size) s = (turn_trace (T size) w, s', went_result w).

(** The turns of a loop follow the conventions of [family]. *)
Record conventions (family : string) (T : string → turn) : Prop := {
  conv_weights : ∀ size, weights (T size) = family +:+ size +:+ ".pt";
  conv_name : ∀ size, kwarg "name" (train_kw (T size)) = Some (VStr (run_name family size));
  conv_export : ∀ size, export_kw (T size) = export_request;
  conv_exported : ∀ size, exported_line (T size) = success_report family size;
  conv_failed : ∀ size msg, failed_line (T size) msg = failure_report size msg
}.

(** ** The turns of the three loops *)

(** What one turn of the loop of [train-gpu.py] prints and passes, for
    [size]: the texts and arguments of [TrainGpu.process_size]. *)
Definition turn_of_train_gpu (G : TrainGpu.globals) (dataset_location size : string) : turn :=
  let current_batch := default 16 (TrainGpu.BATCH_CONFIG G !! size) in {|
    before_load :=
      [ nl +:+ nl +:+ "==================================================";
        "   PROCESSING YOLO11-" +:+ upper size +:+ " MODEL (GPU)";
        "==================================================";
        nl +:+ "🏋️‍♀️ Training YOLO11" +:+ size +:+ "..." ];
    weights := "yolo11" +:+ size +:+ ".pt";
    before_train :=
      [ "👉 using batch size: " +:+ str_int current_batch
        +:+ " (Optimized for " +:+ size +:+ "-model on T4)" ];
    train_kw := TrainGpu.train_kwargs dataset_location size current_batch;
    trained_line := "✅ Training complete for " +:+ size +:+ "!";
    exporting_line := nl +:+ "📱 Exporting YOLO11" +:+ size +:+ " to CoreML...";
    export_kw := TrainGpu.export_kwargs;
    exported_line :=
      "✅ Export complete! Look for 'yolo11" +:+ size
      +:+ "_fruit' folder in 'runs/detect'.";
    failed_line := λ e, "❌ Export failed for " +:+ size +:+ ": " +:+ e
  |}.

(** What one turn of the loop of [train-gpu-yolo12.py] prints and passes,
    for [size]: the texts and arguments of [TrainGpuYolo12.process_size]. *)
Definition turn_of_train_gpu_yolo12 (G : TrainGpuYolo12.globals)
    (dataset_location size : string) : turn :=
  let current_batch := default 16 (TrainGpuYolo12.BATCH_CONFIG G !! size) in {|
    before_load :=
      [ nl +:+ nl +:+ "==================================================";
        "   PROCESSING YOLO12-" +:+ upper size +:+ " MODEL (GPU)";
        "==================================================";
        nl +:+ "🏋️‍♀️ Training YOLO12" +:+ size +:+ "..." ];
    weights := "yolo12" +:+ size +:+ ".pt";
    before_train :=
      [ "👉 Using batch size: " +:+ str_int current_batch
        +:+ " (Optimized for " +:+ size +:+ "-model on T4)" ];
    train_kw := TrainGpuYolo12.train_kwargs dataset_location size current_batch;
    trained_line := "✅ Training complete for " +:+ size +:+ "!";
    exporting_line := nl +:+ "📱 Exporting YOLO12" +:+ size +:+ " to CoreML...";
    export_kw := TrainGpuYolo12.export_kwargs;
    exported_line :=
      "✅ Export complete! Look for 'yolo12" +:+ size
      +:+ "_fruit' folder in 'runs/detect'.";
    failed_line := λ e, "❌ Export failed for " +:+ size +:+ ": " +:+ e
  |}.

(** What one turn of the loop of [train.py] prints and passes, for [size]:
    the texts and arguments of [Train.process_size]. *)
Definition turn_of_train (G : Train.globals) (dataset_location size : string) : turn := {|
  before_load :=
    [ nl +:+ nl +:+ "==================================================";
      "   PROCESSING YOLO11-" +:+ upper size +:+ " MODEL";
      "==================================================";
      nl +:+ "🏋️‍♀️ Training YOLO11" +:+ size +:+ "..." ];
  weights := "yolo11" +:+ size +:+ ".pt";
  before_train := [];
  train_kw := Train.train_kwargs dataset_location size;
  trained_line := "✅ Training complete for " +:+ size +:+ "!";
  exporting_line := nl +:+ "📱 Exporting YOLO11" +:+ size +:+ " to CoreML...";
  export_kw := Train.export_kwargs;
  exported_line :=
    "✅ Export complete! Look for 'yolo11" +:+ size
    +:+ "_fruit' folder in 'runs/detect'.";
  failed_line := λ e, "❌ Export failed for " +:+ size +:+ ": " +:+ e
|}.

(** ** The whole of [main] *)

(** [main] prints its banner, prepares the dataset, and runs the loop from
    the state the dataset step left when that step bound
    [dataset_location]; it prints [final] when the loop returns. *)
Definition whole_run {S} (banner : list string) (final : string)
    (prepared : trace * S * outcome (option string))
    (loop : string → S → trace * S * outcome unit) : trace * S * outcome unit :=
  match prepared with
  | (tp, s1, Normal (Some dataset_location)) =>
      match loop dataset_location s1 with
      | (tl, s2, Normal _) => (map Printed banner ++ tp ++ tl ++ [Printed final], s2, Normal tt)
      | (tl, s2, Raised e) => (map Printed banner ++ tp ++ tl, s2, Raised e)
      end
  | (tp, s1, Normal None) => (map Printed banner ++ tp, s1, Normal tt)
  | (tp, s1, Raised e) => (map Printed banner ++ tp, s1, Raised e)
  end.

(** * Concrete environments *)

(** A small deterministic environment to run the scripts in: a working
    directory, the files that exist, the process environment, what the
    Roboflow download answers, and the models on which training and export
    raise.  Its state is the number of objects handed out so far; a new
    object gets the next number. *)
Record world : Type := {
  w_cwd : string;
  w_files : list string;
  w_environ : gmap string string;
  w_download : outcome Dataset;
  w_train_raises : list (ref * exn);
  w_export_raises : list (ref * exn)
}.

Fixpoint raises (table : list (ref * exn)) (m : ref) : outcome unit :=
  match table with
  | [] => Normal tt
  | (m', e) :: table' => if decide (m' = m) then Raised e else raises table' m
  end.

Definition env (w : world) : handler nat :=
  λ X e,
    match e in event X return nat → X * nat with
    | environ_get key => λ s, (w_environ w !! key, s)
    | getcwd => λ s, (w_cwd w, s)
    | path_exists p => λ s, (bool_decide (p ∈ w_files w), s)
    | Roboflow _ => λ s, (Normal (S s), S s)
    | workspace _ _ => λ s, (Normal (S s), S s)
    | project _ _ => λ s, (Normal (S s), S s)
    | version _ _ => λ s, (Normal (S s), S s)
    | download _ _ => λ s, (w_download w, s)
    | YOLO _ => λ s, (Normal (S s), S s)
    | train m _ => λ s, (raises (w_train_raises w) m, s)
    | export m _ => λ s, (raises (w_export_raises w) m, s)
    end.

(** A Colab machine with the dataset in place and nothing going wrong. *)
Definition colab : world := {|
  w_cwd := "/content";
  w_files := ["/content/dataset/data.yaml"];
  w_environ := ∅;
  w_download := Normal {| location := "/content/combined-vegetables-fruits-1" |};
  w_train_raises := [];
  w_export_raises := []
|}.

(** The same machine without the dataset folder. *)
Definition colab_no_dataset : world := {|
  w_cwd := "/content";
  w_files := [];
  w_environ := ∅;
  w_download := Normal {| location := "/content/combined-vegetables-fruits-1" |};
  w_train_raises := [];
  w_export_raises := []
|}.

(** The download fails. *)
Definition colab_offline : world := {|
  w_cwd := "/content";
  w_files := [];
  w_environ := ∅;
  w_download := Raised (Exception "HTTPSConnectionPool: Max retries exceeded");
  w_train_raises := [];
  w_export_raises := []
|}.

(** The export of the first model loaded raises. *)
Definition colab_export_fails : world := {|
  w_cwd := "/content";
  w_files := ["/content/dataset/data.yaml"];
  w_environ := ∅;
  w_download := Normal {| location := "/content/combined-vegetables-fruits-1" |};
  w_train_raises := [];
  w_export_raises := [(1%nat, Exception "coremltools not installed")]
|}.

(** Training the second model loaded raises. *)
Definition colab_train_fails : world := {|
  w_cwd := "/content";
  w_files := ["/content/dataset/data.yaml"];
  w_environ := ∅;
  w_download := Normal {| location := "/content/combined-vegetables-fruits-1" |};
  w_train_raises := [(2%nat, Exception "CUDA out of memory")];
  w_export_raises := []
|}.

(** Two variants with the batch sizes of [train-gpu.py]. *)
Definition two_sizes : TrainGpu.globals := {|
  TrainGpu.API_KEY := "";
  TrainGpu.PROJECT_WORKSPACE := "yolo-jpkho";
  TrainGpu.PROJECT_NAME := "combined-vegetables-fruits";
  TrainGpu.VERSION_NUMBER := 1;
  TrainGpu.MODEL_SIZES := ["s"; "m"];
  TrainGpu.BATCH_CONFIG := {[ "s" := 128; "m" := 48 ]}
|}.

(** A variant that the batch-size table does not list. *)
Definition with_nano : TrainGpu.globals := {|
  TrainGpu.API_KEY := "";
  TrainGpu.PROJECT_WORKSPACE := "yolo-jpkho";
  TrainGpu.PROJECT_NAME := "combined-vegetables-fruits";
  TrainGpu.VERSION_NUMBER := 1;
  TrainGpu.MODEL_SIZES := ["n"; "s"];
  TrainGpu.BATCH_CONFIG := {[ "s" := 128; "m" := 48; "l" := 32 ]}
|}.

(** * Further properties *)

(** ** Exceptions that are not caught *)

Definition exn_of {A} (r : outcome A) : option exn :=
  match r with
  | Normal _ => None
  | Raised e => Some e
  end.

(** What a call raised, when it raised. *)
Definition raised (c : call) : option exn :=
  match c with
  | c_environ_get _ _ | c_getcwd _ | c_path_exists _ _ => None
  | c_Roboflow _ r | c_workspace _ _ r | c_project _ _ r | c_version _ _ r
  | c_YOLO _ r => exn_of r
  | c_download _ _ r => exn_of r
  | c_train _ _ r | c_export _ _ r => exn_of r
  end.

(** The calls no [except] clause of the scripts covers: [YOLO(...)] and
    [model.train(...)] when they raise anything (lines 74 and 81 of
    [train-gpu.py] stand outside every [try]), and any call that raises
    something that is not an [Exception]. *)
Definition fatal (x : entry) : Prop :=
  match x with
  | Printed _ => False
  | Called (c_YOLO _ (Raised _)) => True
  | Called (c_train _ _ (Raised _)) => True
  | Called c =>
      match raised c with
      | Some (BaseException _) => True
      | _ => False
      end
  end.

#[global] Instance fatal_dec (x : entry) : Decision (fatal x).
Proof. unfold fatal. repeat case_match; apply _. Defined.

(** A [fatal] call is the last entry of the trace, and the run ends with
    what it raised. *)
Definition fatal_call_ends_run {A} (t : trace) (r : outcome A) : Prop :=
  ∀ pre c post,
    t = pre ++ Called c :: post → fatal (Called c) →
    post = [] ∧ ∃ e, raised c = Some e ∧ r = Raised e.

(** A run that ends by raising ends at a [fatal] call, with what that call
    raised. *)
Definition raises_at_fatal_call {A} (t : trace) (r : outcome A) : Prop :=
  ∀ e, r = Raised e →
    ∃ pre c, t = pre ++ [Called c] ∧ fatal (Called c) ∧ raised c = Some e.

(** The two together, in the form the proofs carry along. *)
Definition ended_by {A} (t : trace) (r : outcome A) : Prop :=
  match r with
  | Normal _ => Forall (λ x, ¬ fatal x) t
  | Raised e =>
      ∃ pre c, t = pre ++ [Called c] ∧ Forall (λ x, ¬ fatal x) pre ∧
               fatal (Called c) ∧ raised c = Some e
  end.

(** The download raised [e], which is not an [Exception], after leaving
    [fetched] in the trace: nothing catches it.  The dataset step and [main]
    end there with [e]; no error line is printed and no model is touched. *)
Definition download_interrupt_escapes {S} (cwd : string) (fetched : trace) (msg : string)
    (s' : S) (prepared : trace * S * outcome (option string))
    (whole : trace * S * outcome unit) : Prop :=
  prepared =
    (Called (c_getcwd cwd) :: Called (c_path_exists (data_yaml_path cwd) false) ::
     Printed not_found_line :: fetched,
     s', Raised (BaseException msg)) ∧
  (∃ banner,
     whole =
       (map Printed banner ++
        Called (c_getcwd cwd) :: Called (c_path_exists (data_yaml_path cwd) false) ::
        Printed not_found_line :: fetched,
        s', Raised (BaseException msg))) ∧
  Forall (λ x, ¬ model_entry x) (trace_of whole).

(** ** The download *)

(** From state [s] the Roboflow client answers the five calls of the
    download, each made on what the one before returned, and leaves the
    environment in state [s']. *)
Definition client_answers {S} (h : handler S) (s : S) (key ws name : string) (number : Z)
    (rf w p v : ref) (d : Dataset) (s' : S) : Prop :=
  ∃ s1 s2 s3 s4,
    h _ (Roboflow key) s = (Normal rf, s1) ∧
    h _ (workspace rf ws) s1 = (Normal w, s2) ∧
    h _ (project w name) s2 = (Normal p, s3) ∧
    h _ (version p number) s3 = (Normal v, s4) ∧
    h _ (download v "yolov8") s4 = (Normal d, s').

Definition downloaded_line (dataset_location : string) : string :=
  "✅ Dataset downloaded to: " +:+ dataset_location.

(** The dataset step downloaded the dataset: the check, the five calls in a
    chain, the line that tells where the dataset is; it binds the
    [location] of what [download] returned. *)
Definition binds_download_location {S} (cwd key ws name : string) (number : Z)
    (rf w p v : ref) (d : Dataset) (s' : S)
    (prepared : trace * S * outcome (option string)) : Prop :=
  prepared =
    ([ Called (c_getcwd cwd); Called (c_path_exists (data_yaml_path cwd) false);
       Printed not_found_line;
       Called (c_Roboflow key (Normal rf));
       Called (c_workspace rf ws (Normal w));
       Called (c_project w name (Normal p));
       Called (c_version p number (Normal v));
       Called (c_download v "yolov8" (Normal d));
       Printed (downloaded_line (location d)) ],
     s', Normal (Some (location d))).

(** When the download ends by raising, its trace is a chain of calls that
    returned followed by the call that raised, and nothing else: the calls
    that would come after are not made, and nothing is printed. *)
Definition stops_at_first_error {S} (R : trace * S * outcome (option string)) : Prop :=
  ∀ e, result_of R = Raised e →
    ∃ pre c,
      trace_of R = map Called (pre ++ [c]) ∧
      Forall (λ c', raised c' = None) pre ∧
      raised c = Some e.

(** ** What is passed to the trainer *)

(** Every [train] call of the trace is given [data] as its [data=]. *)
Definition trains_on (data : string) (t : trace) : Prop :=
  ∀ m kw a, Called (c_train m kw a) ∈ t → kwarg "data" kw = Some (VStr data).

(** Any two [train] calls of the trace are given the same value for every
    keyword that is not listed in [varying]. *)
Definition same_settings (varying : list string) (t : trace) : Prop :=
  ∀ m1 kw1 a1 m2 kw2 a2 k,
    Called (c_train m1 kw1 a1) ∈ t → Called (c_train m2 kw2 a2) ∈ t →
    k ∉ varying →
    kwarg k kw1 = kwarg k kw2.

Definition is_train (x : entry) : Prop :=
  match x with
  | Called (c_train _ _ _) => True
  | _ => False
  end.

Definition is_export (x : entry) : Prop :=
  match x with
  | Called (c_export _ _ _) => True
  | _ => False
  end.

(** Every [train] call is on the model that loading the weights of its
    variant has just returned: going back from the call there are only
    printed lines up to the [YOLO] call that returned the model, and the
    [name=] is that of the variant whose weights were loaded. *)
Definition trains_what_it_loaded (family : string) (sizes : list string) (t : trace) : Prop :=
  ∀ pre m kw a post,
    t = pre ++ Called (c_train m kw a) :: post →
    ∃ pre' size lines,
      size ∈ sizes ∧
      pre = pre' ++ Called (c_YOLO (family +:+ size +:+ ".pt") (Normal m)) :: map Printed lines ∧
      kwarg "name" kw = Some (VStr (run_name family size)).

(** Every [export] call asks for CoreML with NMS and is on a model whose
    training has just returned: going back from the call there are two
    printed lines and then the [train] call on that model, which
    returned. *)
Definition exports_what_it_trained (family : string) (sizes : list string) (t : trace) : Prop :=
  ∀ pre m kw a post,
    t = pre ++ Called (c_export m kw a) :: post →
    kw = export_request ∧
    ∃ pre' size kw' l1 l2,
      size ∈ sizes ∧
      pre = pre' ++ [Called (c_train m kw' (Normal tt)); Printed l1; Printed l2] ∧
      kwarg "name" kw' = Some (VStr (run_name family size)).

(** The [train] calls of a loop are those of its turns. *)
Definition train_with (T : string → turn) (sizes : list string) (x : entry) : Prop :=
  match x with
  | Called (c_train _ kw _) => ∃ size, size ∈ sizes ∧ kw = train_kw (T size)
  | _ => True
  end.

(** ** Which weights are loaded *)

(** The weights file of every [YOLO] call, in the order of the calls. *)
Fixpoint loads (t : trace) : list string :=
  match t with
  | [] => []
  | Called (c_YOLO weights_file _) :: t' => weights_file :: loads t'
  | _ :: t' => loads t'
  end.

(** The weights files asked for are those of an initial part of the list
    of variants, one call per variant and in the order of the list; those
    of the whole list unless some call was [aborting]. *)
Definition loads_in_declared_order (family : string) (sizes : list string) (t : trace) : Prop :=
  let files := map (λ size, family +:+ size +:+ ".pt") sizes in
  loads t `prefix_of` files ∧
  (Forall (λ x, ¬ aborting x) t → loads t = files).

(** ** How the run ends and what comes first *)

(** The run ended by printing [line] and returning. *)
Definition announces_success {S} (line : string) (R : trace * S * outcome unit) : Prop :=
  last (trace_of R) = Some (Printed line) ∧ result_of R = Normal tt.

(** A call of the dataset step: on the process environment, the file
    system or the Roboflow client. *)
Definition dataset_entry (x : entry) : Prop :=
  match x with
  | Printed _ => False
  | Called (c_YOLO _ _) | Called (c_train _ _ _) | Called (c_export _ _ _) => False
  | Called _ => True
  end.

(** The trace falls in two parts: no call on a model in the first, no call
    of the dataset step in the second. *)
Definition dataset_then_models (t : trace) : Prop :=
  ∃ t1 t2, t = t1 ++ t2 ∧
           Forall (λ x, ¬ model_entry x) t1 ∧ Forall (λ x, ¬ dataset_entry x) t2.

(** ** The variable [ROBOFLOW_API_KEY] *)

(** With [ROBOFLOW_API_KEY] set to something the guard refuses and no local
    descriptor, [script] reads the variable, checks for the descriptor, and
    returns: the key written in the file is not used. *)
Definition set_variable_disables_download {S} (h : handler S) (s : S) (script : py unit) : Prop :=
  ∀ key s0 cwd s',
    h _ (environ_get "ROBOFLOW_API_KEY") s = (Some key, s0) →
    no_credential key →
    descriptor_check h s0 cwd false s' →
    let R := run h script s in
    calls_of (trace_of R) =
      [ c_environ_get "ROBOFLOW_API_KEY" (Some key); c_getcwd cwd;
        c_path_exists (data_yaml_path cwd) false ] ∧
    state_of R = s' ∧
    result_of R = Normal tt.

(** With [ROBOFLOW_API_KEY] set to a key that passes the guard and no local
    descriptor, [script] goes to the Roboflow client with that key. *)
Definition fetches_with_variable {S} (h : handler S) (s : S) (script : py unit) : Prop :=
  ∀ key s0 cwd s1,
    h _ (environ_get "ROBOFLOW_API_KEY") s = (Some key, s0) →
    ¬ no_credential key →
    descriptor_check h s0 cwd false s1 →
    ∃ banner a rest,
      trace_of (run h script s) =
        Called (c_environ_get "ROBOFLOW_API_KEY" (Some key)) :: map Printed banner ++
        Called (c_getcwd cwd) :: Called (c_path_exists (data_yaml_path cwd) false) ::
        Printed not_found_line ::
        Called (c_Roboflow key a) :: rest.

(** ** More environments *)

(** [env w], except that the weights files listed in [missing] cannot be
    loaded and that the workspaces listed in [unknown] do not exist. *)
Definition env_without (missing unknown : list string) (w : world) : handler nat :=
  λ X e,
    match e in event X return nat → X * nat with
    | YOLO weights_file =>
        λ s, if bool_decide (weights_file ∈ missing)
             then (Raised (Exception "No such file or directory"), s)
             else env w _ (YOLO weights_file) s
    | workspace rf name =>
        λ s, if bool_decide (name ∈ unknown)
             then (Raised (Exception "workspace not found"), s)
             else env w _ (workspace rf name) s
    | e' => env w _ e'
    end.

(** The run is interrupted from the keyboard while the first model is being
    exported. *)
Definition colab_interrupted : world := {|
  w_cwd := "/content";
  w_files := ["/content/dataset/data.yaml"];
  w_environ := ∅;
  w_download := Normal {| location := "/content/combined-vegetables-fruits-1" |};
  w_train_raises := [];
  w_export_raises := [(1%nat, BaseException "KeyboardInterrupt")]
|}.

(** The run is interrupted from the keyboard during the download. *)
Definition colab_download_interrupted : world := {|
  w_cwd := "/content";
  w_files := [];
  w_environ := ∅;
  w_download := Raised (BaseException "KeyboardInterrupt");
  w_train_raises := [];
  w_export_raises := []
|}.

(** Every export fails. *)
Definition colab_no_coreml : world := {|
  w_cwd := "/content";
  w_files := ["/content/dataset/data.yaml"];
  w_environ := ∅;
  w_download := Normal {| location := "/content/combined-vegetables-fruits-1" |};
  w_train_raises := [];
  w_export_raises :=
    [ (1%nat, Exception "coremltools not installed");
      (2%nat, Exception "coremltools not installed");
      (3%nat, Exception "coremltools not installed") ]
|}.

(** No dataset folder; [ROBOFLOW_API_KEY] is set, to [key]. *)
Definition colab_with_key (key : string) : world := {|
  w_cwd := "/content";
  w_files := [];
  w_environ := {[ "ROBOFLOW_API_KEY" := key ]};
  w_download := Normal {| location := "/content/combined-vegetables-fruits-1" |};
  w_train_raises := [];
  w_export_raises := []
|}.

(** * Proofs *)

(** ** How programs run *)

Section Run.
Context {S : Type} (h : handler S).

Lemma run_bind {A B} (p : prog A) (f : A → prog B) (s : S) :
  run h (bind p f) s =
    let '(t1, s1, a) := run h p s in
    let '(t2, s2, b) := run h (f a) s1 in
    (t1 ++ t2, s2, b).
Proof.
  revert s. induction p as [a | line k IH | X e k IH]; intros s; simpl.
  - destruct (run h (f a) s) as [[t2 s2] b]. reflexivity.
  - rewrite IH. destruct (run h k s) as [[t1 s1] a].
    destruct (run h (f a) s1) as [[t2 s2] b]. reflexivity.
  - destruct (h X e s) as [x s0]. rewrite IH.
    destruct (run h (k x) s0) as [[t1 s1] a].
    destruct (run h (f a) s1) as [[t2 s2] b]. reflexivity.
Qed.

(** A statement sequence stops at the first statement that raises. *)
Lemma run_pbind {A B} (p : py A) (f : A → py B) (s : S) :
  run h (pbind p f) s =
    match run h p s with
    | (t1, s1, Normal a) =>
        let '(t2, s2, b) := run h (f a) s1 in (t1 ++ t2, s2, b)
    | (t1, s1, Raised e) => (t1, s1, Raised e)
    end.
Proof.
  unfold pbind. rewrite run_bind.
  destruct (run h p s) as [[t1 s1] [a | e]]; simpl.
  - reflexivity.
  - rewrite app_nil_r. reflexivity.
Qed.

(** One turn of a [for] loop: the body runs on the first element; the
    remaining elements are visited, from the state the body left, exactly
    when the body did not raise. *)
Lemma run_for_in_cons {X} (x : X) (xs : list X) (body : X → py unit) (s : S) :
  run h (for_in (x :: xs) body) s =
    match run h (body x) s with
    | (t1, s1, Normal _) =>
        let '(t2, s2, r) := run h (for_in xs body) s1 in (t1 ++ t2, s2, r)
    | (t1, s1, Raised e) => (t1, s1, Raised e)
    end.
Proof. simpl for_in. apply run_pbind. Qed.

End Run.

Lemma each_suffix_spec (P : entry → trace → Prop) (t : trace) :
  each_suffix P t ↔ ∀ pre x post, t = pre ++ x :: post → P x post.
Proof.
  induction t as [| y t IH]; simpl.
  - split; [| done]. intros _ [|] ??; discriminate.
  - rewrite IH. split.
    + intros [Hy Ht] [| z pre] x post E; simplify_eq/=; eauto.
    + intros H. split.
      * apply (H []). reflexivity.
      * intros pre x post ->. apply (H (y :: pre)). reflexivity.
Qed.

Lemma each_suffix_impl (P Q : entry → trace → Prop) (t : trace) :
  (∀ x post, P x post → Q x post) → each_suffix P t → each_suffix Q t.
Proof. intros HPQ. induction t; simpl; intuition. Qed.

Lemma each_suffix_app (P : entry → trace → Prop) (t1 t2 : trace) :
  Forall (λ x, ∀ post, P x post) t1 → each_suffix P t2 → each_suffix P (t1 ++ t2).
Proof. induction 1; simpl; auto. Qed.

Lemma for_in_loop_run {S} (h : handler S) body T sizes s :
  takes_turns h body T →
  loop_run T sizes (trace_of (run h (for_in sizes body) s))
                   (result_of (run h (for_in sizes body) s)).
Proof.
  intros Hbody. revert s.
  induction sizes as [| size rest IH]; intros s.
  - constructor.
  - rewrite run_for_in_cons.
    destruct (Hbody size s) as (w & s1 & ->).
    destruct (went_result w) as [[] | e] eqn:Hw.
    + specialize (IH s1).
      destruct (run h (for_in rest body) s1) as [[t2 s2] r].
      by apply loop_next.
    + by apply loop_abort.
Qed.

(** Stepping through a program: name the environment's next answer. *)
Ltac answer h :=
  match goal with
  | |- context [h ?X ?e ?s] =>
      let x := fresh "x" in
      let s' := fresh "s" in
      destruct (h X e s) as [x s'] eqn:?
  end.

Ltac stepping :=
  cbn [run bind pbind mbind mret py_bind py_ret print ret invoke ask try_except
       call_of trace_of result_of state_of fst snd].

Lemma TrainGpu_process_size_turn {S} (h : handler S) G loc :
  takes_turns h (TrainGpu.process_size G loc) (turn_of_train_gpu G loc).
Proof.
  intros size s. unfold TrainGpu.process_size. stepping.
  answer h. destruct x as [m | e]; stepping.
  2: { by exists (load_raised e), s0. }
  answer h. destruct x as [[] | e]; stepping.
  2: { by exists (train_raised m e), s1. }
  answer h. destruct x as [[] | [msg | msg]]; stepping.
  - by exists (export_returned m), s2.
  - by exists (export_caught m msg), s2.
  - by exists (export_escaped m msg), s2.
Qed.

Lemma TrainGpuYolo12_process_size_turn {S} (h : handler S) G loc :
  takes_turns h (TrainGpuYolo12.process_size G loc) (turn_of_train_gpu_yolo12 G loc).
Proof.
  intros size s. unfold TrainGpuYolo12.process_size. stepping.
  answer h. destruct x as [m | e]; stepping.
  2: { by exists (load_raised e), s0. }
  answer h. destruct x as [[] | e]; stepping.
  2: { by exists (train_raised m e), s1. }
  answer h. destruct x as [[] | [msg | msg]]; stepping.
  - by exists (export_returned m), s2.
  - by exists (export_caught m msg), s2.
  - by exists (export_escaped m msg), s2.
Qed.

Lemma Train_process_size_turn {S} (h : handler S) G loc :
  takes_turns h (Train.process_size G loc) (turn_of_train G loc).
Proof.
  intros size s. unfold Train.process_size. stepping.
  answer h. destruct x as [m | e]; stepping.
  2: { by exists (load_raised e), s0. }
  answer h. destruct x as [[] | e]; stepping.
  2: { by exists (train_raised m e), s1. }
  answer h. destruct x as [[] | [msg | msg]]; stepping.
  - by exists (export_returned m), s2.
  - by exists (export_caught m msg), s2.
  - by exists (export_escaped m msg), s2.
Qed.

(** ** The loop, from its turns *)

Lemma each_suffix_prints (P : entry → trace → Prop) (lines : list string) (t : trace) :
  (∀ line post, P (Printed line) post) →
  each_suffix P t → each_suffix P (map Printed lines ++ t).
Proof. intros HP Ht. induction lines; simpl; auto. Qed.

Lemma turn_went_on (w : went) :
  went_result w = Normal tt →
  (∃ m, w = export_returned m) ∨ (∃ m msg, w = export_caught m msg).
Proof. destruct w; simpl; intros; simplify_eq; eauto. Qed.

Lemma turn_stopped (w : went) (e : exn) :
  went_result w = Raised e →
  w = load_raised e ∨ (∃ m, w = train_raised m e) ∨
  (∃ m msg, w = export_escaped m msg ∧ e = BaseException msg).
Proof. destruct w; simpl; intros; simplify_eq; eauto 6. Qed.

(** Bring a turn followed by [t] into the form
    [prints ++ call :: prints ++ entry :: ... :: t]. *)
Ltac flatten_turn :=
  unfold turn_trace; rewrite <- ?app_assoc; simpl app;
  rewrite <- ?app_assoc; simpl app.

Section Loop.
Context (family : string) (T : string → turn) (conv : conventions family T).

Lemma loop_run_train_exported sizes t r :
  loop_run T sizes t r → each_suffix (train_exported family sizes) t.
Proof.
  induction 1 as [| size rest w t r Hw _ IH | size rest w e Hw].
  - done.
  - apply (each_suffix_impl _ (train_exported family (size :: rest))) in IH; last first.
    { intros x post. unfold train_exported. repeat case_match; try done.
      intros (sz & l1 & l2 & ans & post' & ? & ? & ? & ?).
      exists sz, l1, l2, ans, post'. set_solver. }
    destruct (turn_went_on w Hw) as [[m ->] | (m & msg & ->)];
      flatten_turn;
      (apply each_suffix_prints; [done |]); simpl; (split; [done |]);
      (apply each_suffix_prints; [done |]); simpl.
    + split; [| done].
      exists size. do 4 eexists. split; [set_solver |].
      rewrite (conv_name _ _ conv), (conv_export _ _ conv).
      split; [done |]. split; [done |]. intros; simplify_eq.
    + split; [| done].
      exists size. do 4 eexists. split; [set_solver |].
      rewrite (conv_name _ _ conv), (conv_export _ _ conv), (conv_failed _ _ conv).
      split; [done |]. split; [done |]. intros; simplify_eq. eauto.
  - destruct (turn_stopped w e Hw) as [-> | [[m ->] | (m & msg & -> & ->)]];
      unfold turn_trace;
      (apply each_suffix_prints; [done |]); simpl; try done;
      (split; [done |]);
      rewrite <- (app_nil_r (_ ++ _)), <- app_assoc;
      (apply each_suffix_prints; [done |]); simpl; try done.
    split; [| done].
    exists size. do 4 eexists. split; [set_solver |].
    rewrite (conv_name _ _ conv), (conv_export _ _ conv).
    split; [done |]. split; [done |]. intros; simplify_eq.
Qed.

Lemma loop_run_exports_after_training sizes t r :
  loop_run T sizes t r → exports_after_training family sizes t.
Proof.
  intros H%loop_run_train_exported pre m kw u post ->.
  rewrite each_suffix_spec in H.
  exact (H pre _ post eq_refl).
Qed.

End Loop.

Lemma trained_prints lines t : trained (map Printed lines ++ t) = trained t.
Proof. induction lines; simpl; auto. Qed.

Lemma steps_prints lines t : steps (map Printed lines ++ t) = steps t.
Proof. induction lines; simpl; auto. Qed.

Lemma train_requests_prints lines t :
  train_requests (map Printed lines ++ t) = train_requests t.
Proof. induction lines; simpl; auto. Qed.

Lemma reports_prints lines t : reports (map Printed lines ++ t) = reports t.
Proof. induction lines; simpl; auto. Qed.

Lemma turn_aborted (T : turn) (w : went) (e : exn) :
  went_result w = Raised e → ¬ Forall (λ x, ¬ aborting x) (turn_trace T w).
Proof.
  intros Hw H. unfold turn_trace in H.
  apply Forall_app in H as [_ H].
  destruct w; simplify_eq/=.
  - apply Forall_cons in H as [H _]. by apply H.
  - apply Forall_cons in H as [_ H]. apply Forall_app in H as [_ H].
    apply Forall_cons in H as [H _]. by apply H.
  - apply Forall_cons in H as [_ H]. apply Forall_app in H as [_ H].
    do 3 apply Forall_cons in H as [_ H].
    apply Forall_cons in H as [H _]. by apply H.
Qed.

Section LoopOrder.
Context (family : string) (T : string → turn) (conv : conventions family T).

Lemma trained_turn size w t :
  trained (turn_trace (T size) w ++ t) =
    match w with
    | load_raised _ => trained t
    | _ => Some (VStr (run_name family size)) :: trained t
    end.
Proof.
  destruct w; flatten_turn; do 3 (rewrite ?trained_prints; simpl);
    rewrite ?(conv_name _ _ conv); done.
Qed.

Lemma steps_turn size w t :
  steps (turn_trace (T size) w ++ t) =
    match w with
    | load_raised _ => steps t
    | train_raised m _ => trains (Some (VStr (run_name family size))) m :: steps t
    | export_returned m | export_caught m _ | export_escaped m _ =>
        trains (Some (VStr (run_name family size))) m :: exports m :: steps t
    end.
Proof.
  destruct w; flatten_turn; do 3 (rewrite ?steps_prints; simpl);
    rewrite ?(conv_name _ _ conv); done.
Qed.

Lemma reports_turn size w t :
  reports (turn_trace (T size) w ++ t) =
    match w with
    | load_raised _ | train_raised _ _ => reports t
    | export_returned _ => (Normal tt, success_report family size) :: reports t
    | export_caught _ msg => (Raised (Exception msg), failure_report size msg) :: reports t
    | export_escaped _ msg =>
        match t with
        | Printed line :: _ => (Raised (BaseException msg), line) :: reports t
        | _ => reports t
        end
    end.
Proof.
  destruct w; flatten_turn; do 3 (rewrite ?reports_prints; simpl);
    rewrite ?(conv_exported _ _ conv), ?(conv_failed _ _ conv); done.
Qed.

Lemma loop_run_all_trained sizes t r :
  loop_run T sizes t r → all_trained_unless_aborted family sizes t r.
Proof.
  induction 1 as [| size rest w t r Hw _ IH | size rest w e Hw]; intros Hok.
  - done.
  - apply Forall_app in Hok as [_ Hok]. destruct (IH Hok) as [-> Ht].
    split; [done |]. rewrite trained_turn, Ht.
    by destruct (turn_went_on w Hw) as [[m ->] | (m & msg & ->)].
  - by apply turn_aborted with (e := e) in Hok.
Qed.

Lemma loop_run_in_declared_order sizes t r :
  loop_run T sizes t r → in_declared_order family sizes t.
Proof.
  induction 1 as [| size rest w t r Hw _ IH | size rest w e Hw].
  - exists []. split; [done |]. split; [apply prefix_nil | done].
  - destruct IH as (models & Hlen & Hpre & Hall).
    destruct (turn_went_on w Hw) as [[m ->] | (m & msg & ->)];
      exists (m :: models); rewrite steps_turn; unfold schedule; simpl;
      (split; [by rewrite Hlen |]);
      (split; [by do 2 apply prefix_cons |]);
      intros [_ Hok]%Forall_app; by rewrite (Hall Hok).
  - pose proof (turn_aborted (T size) w e Hw) as Hno.
    pose proof (steps_turn size w []) as Hsteps. rewrite app_nil_r in Hsteps.
    destruct (turn_stopped w e Hw) as [-> | [[m ->] | (m & msg & -> & ->)]].
    + exists (replicate (S (length rest)) 0%nat).
      rewrite length_replicate, Hsteps. split; [done |]. split; [apply prefix_nil | done].
    + exists (m :: replicate (length rest) 0%nat).
      simpl. rewrite length_replicate, Hsteps. split; [done |]. split; [| done].
      unfold schedule. simpl. apply prefix_cons, prefix_nil.
    + exists (m :: replicate (length rest) 0%nat).
      simpl. rewrite length_replicate, Hsteps. split; [done |]. split; [| done].
      unfold schedule. simpl. do 2 apply prefix_cons. apply prefix_nil.
Qed.

Lemma loop_run_reports_in_order sizes t r :
  loop_run T sizes t r → reports_in_order family sizes t r.
Proof.
  induction 1 as [| size rest w t r Hw _ IH | size rest w e Hw].
  - exists []. split; [done |]. split; [constructor | done].
  - destruct IH as (finished & Hpre & Hrep & Hall).
    exists (size :: finished). rewrite reports_turn.
    split; [by apply prefix_cons |]. split.
    + destruct (turn_went_on w Hw) as [[m ->] | (m & msg & ->)];
        constructor; try done.
      * by left.
      * right. by exists msg.
    + intros Hr. by rewrite (Hall Hr).
  - exists []. rewrite <- (app_nil_r (turn_trace _ _)), reports_turn.
    split; [apply prefix_nil |]. split; [| done].
    destruct (turn_stopped w e Hw) as [-> | [[m ->] | (m & msg & -> & ->)]];
      simpl; constructor.
Qed.

Lemma loop_run_train_raise_ends sizes t r :
  loop_run T sizes t r → each_suffix (train_raise_ends r) t.
Proof.
  induction 1 as [| size rest w t r Hw _ IH | size rest w e Hw].
  - done.
  - destruct (turn_went_on w Hw) as [[m ->] | (m & msg & ->)];
      flatten_turn;
      (apply each_suffix_prints; [done |]); simpl; (split; [done |]);
      (apply each_suffix_prints; [done |]); simpl; done.
  - destruct (turn_stopped w e Hw) as [-> | [[m ->] | (m & msg & -> & ->)]];
      unfold turn_trace;
      (apply each_suffix_prints; [done |]); simpl; try done;
      (split; [done |]);
      rewrite <- (app_nil_r (_ ++ _)), <- app_assoc;
      (apply each_suffix_prints; [done |]); simpl; done.
Qed.

Lemma train_raise_ends_spec {A} (t : trace) (r : outcome A) :
  each_suffix (train_raise_ends r) t → train_error_ends_run t r.
Proof.
  intros H pre m kw e post ->. rewrite each_suffix_spec in H.
  exact (H pre _ post eq_refl).
Qed.

End LoopOrder.

Section LoopBatch.
Context (family : string) (T : string → turn) (conv : conventions family T).
Context (batch_of : string → Z).
Context (conv_batch : ∀ size, kwarg "batch" (train_kw (T size)) = Some (VInt (batch_of size))).

Lemma train_requests_turn size w t :
  train_requests (turn_trace (T size) w ++ t) =
    match w with
    | load_raised _ => train_requests t
    | _ => (Some (VStr (run_name family size)), Some (VInt (batch_of size)))
           :: train_requests t
    end.
Proof.
  destruct w; flatten_turn; do 3 (rewrite ?train_requests_prints; simpl);
    rewrite ?(conv_name _ _ conv), ?conv_batch; done.
Qed.

Lemma loop_run_train_requests sizes t r :
  loop_run T sizes t r →
  let requests :=
    map (λ size, (Some (VStr (run_name family size)), Some (VInt (batch_of size)))) sizes in
  train_requests t `prefix_of` requests ∧
  (Forall (λ x, ¬ aborting x) t → train_requests t = requests).
Proof.
  induction 1 as [| size rest w t r Hw _ IH | size rest w e Hw]; simpl.
  - done.
  - destruct IH as [Hpre Hall]. rewrite train_requests_turn.
    destruct (turn_went_on w Hw) as [[m ->] | (m & msg & ->)];
      (split; [by apply prefix_cons |]);
      intros [_ Hok]%Forall_app; by rewrite (Hall Hok).
  - pose proof (turn_aborted (T size) w e Hw) as Hno.
    pose proof (train_requests_turn size w []) as Hreq. rewrite app_nil_r in Hreq.
    rewrite Hreq.
    destruct (turn_stopped w e Hw) as [-> | [[m ->] | (m & msg & -> & ->)]];
      simpl; (split; [| done]);
      first [apply prefix_nil | apply prefix_cons, prefix_nil].
Qed.

End LoopBatch.

Lemma zip_with_map_r {A B C} (f : A → B → C) (g : A → B) (l : list A) :
  zip_with f l (map g l) = map (λ x, f x (g x)) l.
Proof. induction l; simpl; congruence. Qed.

Lemma configured_batch_default (cfg : gmap string Z) (size : string) :
  configured_batch cfg size (default 16 (cfg !! size)).
Proof. split; [by intros b -> | by intros ->]. Qed.

Lemma loop_run_batches_as_configured family T (cfg : gmap string Z) sizes t r :
  conventions family T →
  (∀ size, kwarg "batch" (train_kw (T size)) = Some (VInt (default 16 (cfg !! size)))) →
  loop_run T sizes t r →
  batches_as_configured family cfg sizes t.
Proof.
  intros conv Hbatch Hrun.
  exists (map (λ size, default 16 (cfg !! size)) sizes). split.
  - apply Forall2_fmap_r, Forall2_same_length_lookup_2; [done |].
    intros i x y Hx Hy. simplify_eq. apply configured_batch_default.
  - cbv zeta. rewrite zip_with_map_r.
    exact (loop_run_train_requests family T conv _ Hbatch sizes t r Hrun).
Qed.

Section LoopGoesOn.
Context {S : Type} (h : handler S) (body : string → py unit).
Context (family : string) (T : string → turn) (conv : conventions family T).
Context (Hbody : takes_turns h body T).

Lemma after_export_error_cons size sizes r x post :
  after_export_error h body sizes r x post →
  after_export_error h body (size :: sizes) r x post.
Proof.
  unfold after_export_error. repeat case_match; try done.
  intros (before & sz & after & s' & -> & ? & ?).
  by exists (size :: before), sz, after, s'.
Qed.

Lemma for_in_after_export_error sizes s :
  let R := run h (for_in sizes body) s in
  each_suffix (after_export_error h body sizes (result_of R)) (trace_of R).
Proof.
  revert s. induction sizes as [| size rest IH]; intros s; [done |].
  cbv zeta. rewrite run_for_in_cons.
  destruct (Hbody size s) as (w & s1 & ->).
  specialize (IH s1). cbv zeta in IH.
  destruct w as [e | m e | m | m msg | m msg]; cbn [went_result].
  - unfold turn_trace. apply each_suffix_prints; [done |]. simpl. done.
  - unfold turn_trace. apply each_suffix_prints; [done |]. simpl. split; [done |].
    rewrite <- (app_nil_r (_ ++ _)), <- app_assoc.
    apply each_suffix_prints; [done |]. simpl. done.
  - destruct (run h (for_in rest body) s1) as [[t2 s2] r2].
    cbn [trace_of result_of fst snd] in *.
    apply (each_suffix_impl _ _ _ (after_export_error_cons size rest r2)) in IH.
    flatten_turn. apply each_suffix_prints; [done |]. simpl. split; [done |].
    apply each_suffix_prints; [done |]. simpl. done.
  - destruct (run h (for_in rest body) s1) as [[t2 s2] r2] eqn:E.
    cbn [trace_of result_of fst snd] in *.
    apply (each_suffix_impl _ _ _ (after_export_error_cons size rest r2)) in IH.
    flatten_turn. apply each_suffix_prints; [done |]. simpl. split; [done |].
    apply each_suffix_prints; [done |]. simpl.
    repeat (split; [done |]). split; [| done].
    exists [], size, rest, s1. rewrite E, (conv_failed _ _ conv). done.
  - unfold turn_trace. apply each_suffix_prints; [done |]. simpl. split; [done |].
    rewrite <- (app_nil_r (_ ++ _)), <- app_assoc.
    apply each_suffix_prints; [done |]. simpl. done.
Qed.

Lemma for_in_goes_on_after_export_error sizes s :
  goes_on_after_export_error h body sizes (run h (for_in sizes body) s).
Proof.
  intros pre m kw msg post E.
  pose proof (for_in_after_export_error sizes s) as H. cbv zeta in H.
  rewrite each_suffix_spec in H. exact (H pre _ post E).
Qed.

End LoopGoesOn.

(** ** The three loops *)

Lemma TrainGpu_conventions G loc : conventions "yolo11" (turn_of_train_gpu G loc).
Proof. split; intros; reflexivity. Qed.

Lemma TrainGpuYolo12_conventions G loc : conventions "yolo12" (turn_of_train_gpu_yolo12 G loc).
Proof. split; intros; reflexivity. Qed.

Lemma Train_conventions G loc : conventions "yolo11" (turn_of_train G loc).
Proof. split; intros; reflexivity. Qed.

Lemma TrainGpu_loop_run {S} (h : handler S) G loc s :
  let R := run h (TrainGpu.train_and_export_loop G loc) s in
  loop_run (turn_of_train_gpu G loc) (TrainGpu.MODEL_SIZES G) (trace_of R) (result_of R).
Proof. apply for_in_loop_run, TrainGpu_process_size_turn. Qed.

Lemma TrainGpuYolo12_loop_run {S} (h : handler S) G loc s :
  let R := run h (TrainGpuYolo12.train_and_export_loop G loc) s in
  loop_run (turn_of_train_gpu_yolo12 G loc) (TrainGpuYolo12.MODEL_SIZES G)
           (trace_of R) (result_of R).
Proof. apply for_in_loop_run, TrainGpuYolo12_process_size_turn. Qed.

Lemma Train_loop_run {S} (h : handler S) G loc s :
  let R := run h (Train.train_and_export_loop G loc) s in
  loop_run (turn_of_train G loc) (Train.MODEL_SIZES G) (trace_of R) (result_of R).
Proof. apply for_in_loop_run, Train_process_size_turn. Qed.

(** ** [main] as a whole *)

Ltac split_main prepared :=
  unfold mbind, py_bind; repeat (rewrite run_pbind; cbn [run print ret]);
  unfold whole_run;
  destruct prepared as [[? ?] [[loc |] | ?]]; cbn [run print ret app map];
  [ rewrite run_pbind;
    match goal with
    | |- context [match run ?h ?p ?s with _ => _ end] =>
        destruct (run h p s) as [[? ?] [[] | ?]]
    end;
    cbn [run print ret app map]; rewrite ?app_nil_r, <- ?app_assoc; reflexivity
  | rewrite ?app_nil_r; reflexivity
  | reflexivity ].

Lemma TrainGpu_run_main {S} (h : handler S) G :
  ∃ banner final, ∀ s,
    run h (TrainGpu.main G) s =
      whole_run banner final (run h (TrainGpu.prepare_dataset G) s)
                (λ loc s1, run h (TrainGpu.train_and_export_loop G loc) s1).
Proof.
  unfold TrainGpu.main. eexists [_; _], _. intros s.
  split_main (run h (TrainGpu.prepare_dataset G) s).
Qed.

Lemma TrainGpuYolo12_run_main {S} (h : handler S) G :
  ∃ banner final, ∀ s,
    run h (TrainGpuYolo12.main G) s =
      whole_run banner final (run h (TrainGpuYolo12.prepare_dataset G) s)
                (λ loc s1, run h (TrainGpuYolo12.train_and_export_loop G loc) s1).
Proof.
  unfold TrainGpuYolo12.main. eexists [_; _; _], _. intros s.
  split_main (run h (TrainGpuYolo12.prepare_dataset G) s).
Qed.

Lemma Train_run_main {S} (h : handler S) G :
  ∃ banner final, ∀ s,
    run h (Train.main G) s =
      whole_run banner final (run h (Train.prepare_dataset G) s)
                (λ loc s1, run h (Train.train_and_export_loop G loc) s1).
Proof.
  unfold Train.main. eexists [_], _. intros s.
  split_main (run h (Train.prepare_dataset G) s).
Qed.

Lemma each_suffix_Forall (P : entry → trace → Prop) (t : trace) :
  Forall (λ x, ∀ post, P x post) t → each_suffix P t.
Proof. intros H. rewrite <- (app_nil_r t). by apply each_suffix_app. Qed.

Lemma no_model_no_train_raise {A} (r : outcome A) (t : trace) :
  Forall (λ x, ¬ model_entry x) t → Forall (λ x, ∀ post, train_raise_ends r x post) t.
Proof.
  intros H. eapply Forall_impl; [exact H |].
  intros x Hx post. unfold train_raise_ends.
  repeat case_match; done.
Qed.

Lemma returned_no_train_raise {A B} (a : A) (r : outcome B) (t : trace) :
  each_suffix (train_raise_ends (Normal a)) t →
  Forall (λ x, ∀ post, train_raise_ends r x post) t.
Proof.
  induction t as [| x t IH]; simpl; [done |].
  intros [Hx Ht]. constructor; [| auto].
  intros post. unfold train_raise_ends in *.
  repeat case_match; try done. by destruct Hx.
Qed.

Lemma whole_run_stops_at_train_error {S} banner final
    (prepared : trace * S * outcome (option string)) loop :
  Forall (λ x, ¬ model_entry x) (trace_of prepared) →
  (∀ loc s1, each_suffix (train_raise_ends (result_of (loop loc s1))) (trace_of (loop loc s1))) →
  stops_at_train_error (whole_run banner final prepared loop).
Proof.
  intros Hprep Hloop. apply train_raise_ends_spec.
  destruct prepared as [[tp s1] [[loc |] | e]]; simpl in *.
  - specialize (Hloop loc s1).
    destruct (loop loc s1) as [[tl s2] [[] | e]]; simpl in *;
      (apply each_suffix_prints; [done |]);
      (apply each_suffix_app; [by apply no_model_no_train_raise |]).
    + apply each_suffix_app; [by eapply returned_no_train_raise | done].
    + done.
  - apply each_suffix_prints; [done |].
    by apply each_suffix_Forall, no_model_no_train_raise.
  - apply each_suffix_prints; [done |].
    by apply each_suffix_Forall, no_model_no_train_raise.
Qed.

(** ** The dataset step *)

Ltac answer_cases h :=
  match goal with
  | |- context [h ?X ?e ?s] =>
      let x := fresh "x" in
      let s' := fresh "s" in
      destruct (h X e s) as [x s'] eqn:?;
      lazymatch type of x with
      | outcome _ => destruct x as [? | [? | ?]]
      | bool => destruct x
      | _ => idtac
      end
  end.

Ltac walk h :=
  stepping;
  repeat (first [ answer_cases h
                | match goal with
                  | |- context [decide ?P] => destruct (decide P)
                  end ];
          stepping).

Ltac no_such_entry :=
  repeat (constructor; [simpl; tauto |]); constructor.

Lemma TrainGpu_download_no_model {S} (h : handler S) G s :
  Forall (λ x, ¬ model_entry x) (trace_of (run h (TrainGpu.download_dataset G) s)).
Proof. unfold TrainGpu.download_dataset. walk h; no_such_entry. Qed.

Lemma TrainGpuYolo12_download_no_model {S} (h : handler S) G s :
  Forall (λ x, ¬ model_entry x) (trace_of (run h (TrainGpuYolo12.download_dataset G) s)).
Proof. unfold TrainGpuYolo12.download_dataset. walk h; no_such_entry. Qed.

Lemma Train_download_no_model {S} (h : handler S) G s :
  Forall (λ x, ¬ model_entry x) (trace_of (run h (Train.download_dataset G) s)).
Proof. unfold Train.download_dataset. walk h; no_such_entry. Qed.

Lemma TrainGpu_prepare_no_model {S} (h : handler S) G s :
  Forall (λ x, ¬ model_entry x) (trace_of (run h (TrainGpu.prepare_dataset G) s)).
Proof.
  unfold TrainGpu.prepare_dataset, TrainGpu.download_dataset. walk h; no_such_entry.
Qed.

Lemma TrainGpuYolo12_prepare_no_model {S} (h : handler S) G s :
  Forall (λ x, ¬ model_entry x) (trace_of (run h (TrainGpuYolo12.prepare_dataset G) s)).
Proof.
  unfold TrainGpuYolo12.prepare_dataset, TrainGpuYolo12.download_dataset.
  walk h; no_such_entry.
Qed.

Lemma Train_prepare_no_model {S} (h : handler S) G s :
  Forall (λ x, ¬ model_entry x) (trace_of (run h (Train.prepare_dataset G) s)).
Proof.
  unfold Train.prepare_dataset, Train.download_dataset. walk h; no_such_entry.
Qed.

Lemma TrainGpu_batch G loc size :
  kwarg "batch" (train_kw (turn_of_train_gpu G loc size)) =
    Some (VInt (default 16 (TrainGpu.BATCH_CONFIG G !! size))).
Proof. reflexivity. Qed.

Lemma TrainGpuYolo12_batch G loc size :
  kwarg "batch" (train_kw (turn_of_train_gpu_yolo12 G loc size)) =
    Some (VInt (default 16 (TrainGpuYolo12.BATCH_CONFIG G !! size))).
Proof. reflexivity. Qed.

Lemma Train_batch G loc size :
  kwarg "batch" (train_kw (turn_of_train G loc size)) =
    Some (VInt (default 16 ((∅ : gmap string Z) !! size))).
Proof. rewrite lookup_empty. reflexivity. Qed.

Lemma calls_of_prints lines t : calls_of (map Printed lines ++ t) = calls_of t.
Proof. induction lines; simpl; auto. Qed.

Ltac check_descriptor Hcwd Hfound :=
  stepping; rewrite Hcwd; stepping;
  unfold data_yaml_path, local_dataset_path in Hfound; rewrite Hfound; stepping.

Lemma prints_no_model lines : Forall (λ x, ¬ model_entry x) (map Printed lines).
Proof. induction lines; constructor; simpl; tauto. Qed.

Lemma whole_run_download_error {S} banner final cwd fetched msg (s' : S) loop :
  Forall (λ x, ¬ model_entry x) fetched →
  let prepared :=
    (Called (c_getcwd cwd) :: Called (c_path_exists (data_yaml_path cwd) false) ::
     Printed not_found_line :: fetched ++ [Printed (download_error_line msg)],
     s', Normal None) in
  gives_up_after_download_error cwd fetched msg s' prepared
    (whole_run banner final prepared loop).
Proof.
  intros Hfetched prepared. split; [done |]. simpl. split; [| split; [| done]].
  - change (?a :: ?b :: ?c :: fetched ++ ?l) with ([a; b; c] ++ fetched ++ l).
    rewrite !app_assoc. apply last_snoc.
  - apply Forall_app. split; [apply prints_no_model |].
    repeat (constructor; [simpl; tauto |]).
    apply Forall_app. split; [done |]. repeat (constructor; [simpl; tauto |]). constructor.
Qed.

Ltac download_error Hcwd Hfound Hkey Hdl :=
  check_descriptor Hcwd Hfound;
  destruct (decide _) as [Hbad | _]; [destruct (Hkey Hbad) |];
  unfold try_except; rewrite run_bind, Hdl; reflexivity.

Ltac reach_roboflow h Henv Hcwd Hfound :=
  stepping; rewrite Henv; stepping;
  check_descriptor Hcwd Hfound;
  destruct (decide _) as [[Hk | Hk] | _]; [discriminate Hk | discriminate Hk |];
  stepping;
  match goal with
  | |- context [h ?X ?e ?s] => destruct (h X e s) as [a ?]
  end;
  match goal with
  | |- context [run h ?p ?s] => destruct (run h p s) as [[rest ?] ?]
  end.

(** * The claims *)

(** C1.  In each of the three loops, for every list of variants and every
    environment: a [train] call that returns is followed (after the two
    progress lines) by [export(format='coreml', nms=True)] on the same
    model; when the export raises an error (an [Exception], which is what
    the [except] clause names), the failure line of that variant, with the
    message of the error, is printed next, and what follows is a run of the
    loop over the remaining variants, whose end is the end of the loop; so,
    as long as loading and training do not raise, every variant of the list
    is trained, in order, and the loop returns, whatever the exports
    answered. *)
Theorem export_errors_are_contained :
  (∀ S (h : handler S) s G loc,
     export_contained h (TrainGpu.process_size G loc) "yolo11" (TrainGpu.MODEL_SIZES G)
       (run h (TrainGpu.train_and_export_loop G loc) s)) ∧
  (∀ S (h : handler S) s G loc,
     export_contained h (TrainGpuYolo12.process_size G loc) "yolo12"
       (TrainGpuYolo12.MODEL_SIZES G)
       (run h (TrainGpuYolo12.train_and_export_loop G loc) s)) ∧
  (∀ S (h : handler S) s G loc,
     export_contained h (Train.process_size G loc) "yolo11" (Train.MODEL_SIZES G)
       (run h (Train.train_and_export_loop G loc) s)).
Proof.
  split; [| split]; intros S h s G loc; (split; [| split]).
  - eapply loop_run_exports_after_training;
      [apply TrainGpu_conventions | apply TrainGpu_loop_run].
  - eapply for_in_goes_on_after_export_error;
      [apply TrainGpu_conventions | apply TrainGpu_process_size_turn].
  - eapply loop_run_all_trained;
      [apply TrainGpu_conventions | apply TrainGpu_loop_run].
  - eapply loop_run_exports_after_training;
      [apply TrainGpuYolo12_conventions | apply TrainGpuYolo12_loop_run].
  - eapply for_in_goes_on_after_export_error;
      [apply TrainGpuYolo12_conventions | apply TrainGpuYolo12_process_size_turn].
  - eapply loop_run_all_trained;
      [apply TrainGpuYolo12_conventions | apply TrainGpuYolo12_loop_run].
  - eapply loop_run_exports_after_training;
      [apply Train_conventions | apply Train_loop_run].
  - eapply for_in_goes_on_after_export_error;
      [apply Train_conventions | apply Train_process_size_turn].
  - eapply loop_run_all_trained;
      [apply Train_conventions | apply Train_loop_run].
Qed.

(** The scenario of the specification: variants s and m, the export of s
    fails.  The failure is printed and m is trained all the same. *)
Lemma export_errors_are_contained_scenario :
  let R := run (env colab_export_fails)
               (TrainGpu.train_and_export_loop two_sizes "/content/dataset") 0%nat in
  reports (trace_of R) =
    [ (Raised (Exception "coremltools not installed"),
       failure_report "s" "coremltools not installed");
      (Normal tt, success_report "yolo11" "m") ] ∧
  result_of R = Normal tt ∧
  trained (trace_of R) = [Some (VStr "yolo11s_fruit"); Some (VStr "yolo11m_fruit")].
Proof.
  intros R.
  destruct export_errors_are_contained as [H _].
  destruct (H nat (env colab_export_fails) 0%nat two_sizes "/content/dataset")
    as (_ & _ & Hall).
  split; [vm_compute; reflexivity |].
  apply Hall.
  apply (bool_decide_unpack _). vm_compute. exact I.
Defined.

(** C2.  In each of the three scripts, in the loop as in the whole of
    [main], for every list of variants and every environment: a [train]
    call that raises is the last entry of the trace, so no later variant is
    loaded, trained or exported, and what it raised is how the loop, and
    [main], end. *)
Theorem train_errors_end_the_run :
  (∀ S (h : handler S) s G,
     (∀ loc, stops_at_train_error (run h (TrainGpu.train_and_export_loop G loc) s)) ∧
     stops_at_train_error (run h (TrainGpu.main G) s)) ∧
  (∀ S (h : handler S) s G,
     (∀ loc, stops_at_train_error (run h (TrainGpuYolo12.train_and_export_loop G loc) s)) ∧
     stops_at_train_error (run h (TrainGpuYolo12.main G) s)) ∧
  (∀ S (h : handler S) s G,
     (∀ loc, stops_at_train_error (run h (Train.train_and_export_loop G loc) s)) ∧
     stops_at_train_error (run h (Train.main G) s)).
Proof.
  split; [| split]; intros S h s G.
  - assert (∀ loc s1, each_suffix
              (train_raise_ends (result_of (run h (TrainGpu.train_and_export_loop G loc) s1)))
              (trace_of (run h (TrainGpu.train_and_export_loop G loc) s1))) as Hloop.
    { intros loc s1. eapply loop_run_train_raise_ends, TrainGpu_loop_run. }
    split.
    + intros loc. apply train_raise_ends_spec, Hloop.
    + destruct (TrainGpu_run_main h G) as (banner & final & ->).
      apply whole_run_stops_at_train_error; [apply TrainGpu_prepare_no_model | done].
  - assert (∀ loc s1, each_suffix
              (train_raise_ends
                 (result_of (run h (TrainGpuYolo12.train_and_export_loop G loc) s1)))
              (trace_of (run h (TrainGpuYolo12.train_and_export_loop G loc) s1))) as Hloop.
    { intros loc s1. eapply loop_run_train_raise_ends, TrainGpuYolo12_loop_run. }
    split.
    + intros loc. apply train_raise_ends_spec, Hloop.
    + destruct (TrainGpuYolo12_run_main h G) as (banner & final & ->).
      apply whole_run_stops_at_train_error; [apply TrainGpuYolo12_prepare_no_model | done].
  - assert (∀ loc s1, each_suffix
              (train_raise_ends (result_of (run h (Train.train_and_export_loop G loc) s1)))
              (trace_of (run h (Train.train_and_export_loop G loc) s1))) as Hloop.
    { intros loc s1. eapply loop_run_train_raise_ends, Train_loop_run. }
    split.
    + intros loc. apply train_raise_ends_spec, Hloop.
    + destruct (Train_run_main h G) as (banner & final & ->).
      apply whole_run_stops_at_train_error; [apply Train_prepare_no_model | done].
Qed.

(** The scenario of the specification: variants s, m and l, training m
    raises.  The run of [train-gpu.py] ends with that error; s has been
    trained and exported, l is never touched. *)
Lemma train_errors_end_the_run_scenario :
  let R := run (env colab_train_fails) TrainGpu.script 0%nat in
  steps (trace_of R) =
    [ trains (Some (VStr "yolo11s_fruit")) 1%nat; exports 1%nat;
      trains (Some (VStr "yolo11m_fruit")) 2%nat ] ∧
  last (trace_of R) =
    Some (Called (c_train 2%nat (TrainGpu.train_kwargs "/content/dataset" "m" 48)
                          (Raised (Exception "CUDA out of memory")))) ∧
  result_of R = Raised (Exception "CUDA out of memory").
Proof.
  intros R. split; [vm_compute; reflexivity |].
  split; [vm_compute; reflexivity |].
  pose (G := TrainGpu.module_globals "wrBZSENL1YtFWZHbvACQ").
  destruct train_errors_end_the_run as [H _].
  destruct (H nat (env colab_train_fails) 0%nat G) as [_ Hmain].
  assert (run (env colab_train_fails) (TrainGpu.main G) 0%nat =
          (tail (trace_of R), state_of R, result_of R)) as E
    by (vm_compute; reflexivity).
  rewrite E in Hmain.
  apply (Hmain (removelast (tail (trace_of R))) 2%nat
               (TrainGpu.train_kwargs "/content/dataset" "m" 48)
               (Exception "CUDA out of memory") []).
  vm_compute. reflexivity.
Defined.

(** C8.  In each of the three loops, for every list of variants and every
    environment: the train and export calls made are an initial part of
    [train v1, export v1, train v2, export v2, ...] for the variants in the
    order of the list, each export on the model just trained; they are the
    whole of it unless loading or training raised (or an export raised
    something that is not an [Exception]), so an export error never removes
    or moves a variant. *)
Theorem variants_in_declared_order :
  (∀ S (h : handler S) s G loc,
     in_declared_order "yolo11" (TrainGpu.MODEL_SIZES G)
       (trace_of (run h (TrainGpu.train_and_export_loop G loc) s))) ∧
  (∀ S (h : handler S) s G loc,
     in_declared_order "yolo12" (TrainGpuYolo12.MODEL_SIZES G)
       (trace_of (run h (TrainGpuYolo12.train_and_export_loop G loc) s))) ∧
  (∀ S (h : handler S) s G loc,
     in_declared_order "yolo11" (Train.MODEL_SIZES G)
       (trace_of (run h (Train.train_and_export_loop G loc) s))).
Proof.
  split; [| split]; intros S h s G loc.
  - eapply loop_run_in_declared_order;
      [apply TrainGpu_conventions | apply TrainGpu_loop_run].
  - eapply loop_run_in_declared_order;
      [apply TrainGpuYolo12_conventions | apply TrainGpuYolo12_loop_run].
  - eapply loop_run_in_declared_order;
      [apply Train_conventions | apply Train_loop_run].
Qed.

(** With the export of s failing, the steps are still s then m, each
    trained and then exported. *)
Lemma variants_in_declared_order_scenario :
  let R := run (env colab_export_fails)
               (TrainGpu.train_and_export_loop two_sizes "/content/dataset") 0%nat in
  ∃ models, steps (trace_of R) = schedule "yolo11" ["s"; "m"] models.
Proof.
  intros R.
  destruct variants_in_declared_order as [H _].
  destruct (H nat (env colab_export_fails) 0%nat two_sizes "/content/dataset")
    as (models & _ & _ & Hall).
  exists models. apply Hall.
  apply (bool_decide_unpack _). vm_compute. exact I.
Defined.

(** C3, as stated, fails: the loop returns [None] whatever happened, so the
    value it returns cannot be the sequence of outcomes.  Here two runs on
    the same variants, one where every export succeeds and one where the
    export of s fails, return the same value. *)
Lemma loop_returns_no_outcomes :
  ¬ ∃ decode : outcome unit → list RunOutcome,
      let R1 := run (env colab)
                    (TrainGpu.train_and_export_loop two_sizes "/content/dataset") 0%nat in
      let R2 := run (env colab_export_fails)
                    (TrainGpu.train_and_export_loop two_sizes "/content/dataset") 0%nat in
      decode (result_of R1) = outcomes "yolo11" ["s"; "m"] (trace_of R1) ∧
      decode (result_of R2) = outcomes "yolo11" ["s"; "m"] (trace_of R2).
Proof.
  intros (decode & H1 & H2).
  vm_compute in H1. vm_compute in H2.
  rewrite H1 in H2. discriminate H2.
Qed.

(** C3, amended.  The loops return no value; they report by printing.  In
    each of the three loops, for every list of variants and every
    environment: the lines printed right after the export calls report, one
    line per variant and in the order of the list, on an initial part of
    the list -- the folder of the run, named after the variant, when the
    export returned, and the message of the error when it raised an
    [Exception] -- and on the whole list when the loop returns. *)
Theorem outcomes_are_printed_in_order :
  (∀ S (h : handler S) s G loc,
     let R := run h (TrainGpu.train_and_export_loop G loc) s in
     reports_in_order "yolo11" (TrainGpu.MODEL_SIZES G) (trace_of R) (result_of R)) ∧
  (∀ S (h : handler S) s G loc,
     let R := run h (TrainGpuYolo12.train_and_export_loop G loc) s in
     reports_in_order "yolo12" (TrainGpuYolo12.MODEL_SIZES G) (trace_of R) (result_of R)) ∧
  (∀ S (h : handler S) s G loc,
     let R := run h (Train.train_and_export_loop G loc) s in
     reports_in_order "yolo11" (Train.MODEL_SIZES G) (trace_of R) (result_of R)).
Proof.
  split; [| split]; intros S h s G loc.
  - eapply loop_run_reports_in_order;
      [apply TrainGpu_conventions | apply TrainGpu_loop_run].
  - eapply loop_run_reports_in_order;
      [apply TrainGpuYolo12_conventions | apply TrainGpuYolo12_loop_run].
  - eapply loop_run_reports_in_order;
      [apply Train_conventions | apply Train_loop_run].
Qed.

(** Variants s and m, the export of s fails: one line for s, then one for
    m. *)
Lemma outcomes_are_printed_in_order_scenario :
  let R := run (env colab_export_fails)
               (TrainGpu.train_and_export_loop two_sizes "/content/dataset") 0%nat in
  Forall2 (reported "yolo11") ["s"; "m"] (reports (trace_of R)).
Proof.
  intros R.
  destruct outcomes_are_printed_in_order as [H _].
  destruct (H nat (env colab_export_fails) 0%nat two_sizes "/content/dataset")
    as (finished & _ & Hrep & Hall).
  rewrite Hall in Hrep; [exact Hrep |].
  vm_compute. reflexivity.
Defined.

(** C4.  In the loops of [train-gpu.py] and [train-gpu-yolo12.py], for
    every table [BATCH_CONFIG], every list of variants and every
    environment: the train calls made are, in order, those of an initial
    part of the list (all of it unless a call was aborting), and the
    [batch=] of each is the entry of the table for its variant when there
    is one, and 16 when there is none.  [train.py] has no table and passes
    16 for every variant. *)
Theorem batch_size_is_looked_up :
  (∀ S (h : handler S) s G loc,
     batches_as_configured "yolo11" (TrainGpu.BATCH_CONFIG G) (TrainGpu.MODEL_SIZES G)
       (trace_of (run h (TrainGpu.train_and_export_loop G loc) s))) ∧
  (∀ S (h : handler S) s G loc,
     batches_as_configured "yolo12" (TrainGpuYolo12.BATCH_CONFIG G)
       (TrainGpuYolo12.MODEL_SIZES G)
       (trace_of (run h (TrainGpuYolo12.train_and_export_loop G loc) s))) ∧
  (∀ S (h : handler S) s G loc,
     batches_as_configured "yolo11" ∅ (Train.MODEL_SIZES G)
       (trace_of (run h (Train.train_and_export_loop G loc) s))).
Proof.
  split; [| split]; intros S h s G loc.
  - eapply loop_run_batches_as_configured;
      [apply TrainGpu_conventions | apply TrainGpu_batch | apply TrainGpu_loop_run].
  - eapply loop_run_batches_as_configured;
      [apply TrainGpuYolo12_conventions | apply TrainGpuYolo12_batch
      | apply TrainGpuYolo12_loop_run].
  - eapply loop_run_batches_as_configured;
      [apply Train_conventions | apply Train_batch | apply Train_loop_run].
Qed.

(** Variants n and s with the table of [train-gpu.py], which lists s, m and
    l: n is trained with 16, s with 128. *)
Lemma batch_size_is_looked_up_scenario :
  let R := run (env colab)
               (TrainGpu.train_and_export_loop with_nano "/content/dataset") 0%nat in
  train_requests (trace_of R) =
    [ (Some (VStr "yolo11n_fruit"), Some (VInt 16));
      (Some (VStr "yolo11s_fruit"), Some (VInt 128)) ].
Proof.
  intros R.
  destruct batch_size_is_looked_up as [H _].
  destruct (H nat (env colab) 0%nat with_nano "/content/dataset")
    as (batches & Hb & _ & Hall).
  apply Forall2_cons_inv_l in Hb as (b1 & rest1 & [_ Hn] & Hb & ->).
  apply Forall2_cons_inv_l in Hb as (b2 & rest2 & [Hs _] & Hb & ->).
  apply Forall2_nil_inv_l in Hb as ->.
  rewrite (Hn eq_refl), (Hs 128 eq_refl) in Hall.
  apply Hall.
  apply (bool_decide_unpack _). vm_compute. exact I.
Defined.

(** C5.  In each of the three scripts, for every credential and every
    environment in which the descriptor [dataset/data.yaml] under the
    working directory exists: the dataset step binds [dataset_location] to
    the local [dataset] folder, and the two calls of the existence check are
    the only calls it makes, so nothing is fetched. *)
Theorem local_dataset_is_used :
  (∀ S (h : handler S) s G cwd s',
     descriptor_check h s cwd true s' →
     uses_local_dataset cwd s' (run h (TrainGpu.prepare_dataset G) s)) ∧
  (∀ S (h : handler S) s G cwd s',
     descriptor_check h s cwd true s' →
     uses_local_dataset cwd s' (run h (TrainGpuYolo12.prepare_dataset G) s)) ∧
  (∀ S (h : handler S) s G cwd s',
     descriptor_check h s cwd true s' →
     uses_local_dataset cwd s' (run h (Train.prepare_dataset G) s)).
Proof.
  split; [| split]; intros S h s G cwd s' (s1 & Hcwd & Hfound).
  - unfold TrainGpu.prepare_dataset. stepping. rewrite Hcwd. stepping.
    unfold data_yaml_path, local_dataset_path in Hfound. rewrite Hfound. stepping.
    done.
  - unfold TrainGpuYolo12.prepare_dataset. stepping. rewrite Hcwd. stepping.
    unfold data_yaml_path, local_dataset_path in Hfound. rewrite Hfound. stepping.
    done.
  - unfold Train.prepare_dataset. stepping. rewrite Hcwd. stepping.
    unfold data_yaml_path, local_dataset_path in Hfound. rewrite Hfound. stepping.
    done.
Qed.

(** On the machine that has the dataset, [train.py] settles on
    [/content/dataset] even with the placeholder as credential. *)
Lemma local_dataset_is_used_scenario :
  uses_local_dataset "/content" 0%nat
    (run (env colab) (Train.prepare_dataset (Train.module_globals "YOUR_API_KEY_HERE")) 0%nat).
Proof.
  destruct local_dataset_is_used as (_ & _ & H).
  apply H. exists 0%nat. split; reflexivity.
Defined.

(** C6.  In each of the three scripts, for every environment in which the
    descriptor does not exist, when the credential is empty or is the
    placeholder: the dataset step prints the missing-credential error and
    binds no location, without any call on the Roboflow client; [main]
    returns at once, so in the whole run the two calls of the existence
    check are the only calls made: nothing is fetched and nothing is
    trained. *)
Theorem no_credential_no_fetch :
  (∀ S (h : handler S) s G cwd s',
     descriptor_check h s cwd false s' →
     no_credential (TrainGpu.API_KEY G) →
     gives_up_without_credential cwd s'
       (run h (TrainGpu.prepare_dataset G) s) (run h (TrainGpu.main G) s)) ∧
  (∀ S (h : handler S) s G cwd s',
     descriptor_check h s cwd false s' →
     no_credential (TrainGpuYolo12.API_KEY G) →
     gives_up_without_credential cwd s'
       (run h (TrainGpuYolo12.prepare_dataset G) s) (run h (TrainGpuYolo12.main G) s)) ∧
  (∀ S (h : handler S) s G cwd s',
     descriptor_check h s cwd false s' →
     no_credential (Train.API_KEY G) →
     gives_up_without_credential cwd s'
       (run h (Train.prepare_dataset G) s) (run h (Train.main G) s)).
Proof.
  split; [| split]; intros S h s G cwd s' (s1 & Hcwd & Hfound) Hkey.
  - assert (run h (TrainGpu.prepare_dataset G) s =
            (Called (c_getcwd cwd) :: Called (c_path_exists (data_yaml_path cwd) false) ::
             Printed not_found_line :: map Printed no_credential_lines,
             s', Normal None)) as E.
    { unfold TrainGpu.prepare_dataset. check_descriptor Hcwd Hfound.
      destruct (decide _) as [_ | []]; [| exact Hkey]. reflexivity. }
    split; [exact E |].
    destruct (TrainGpu_run_main h G) as (banner & final & ->). rewrite E.
    cbn. rewrite calls_of_prints. done.
  - assert (run h (TrainGpuYolo12.prepare_dataset G) s =
            (Called (c_getcwd cwd) :: Called (c_path_exists (data_yaml_path cwd) false) ::
             Printed not_found_line :: map Printed no_credential_lines,
             s', Normal None)) as E.
    { unfold TrainGpuYolo12.prepare_dataset. check_descriptor Hcwd Hfound.
      destruct (decide _) as [_ | []]; [| exact Hkey]. reflexivity. }
    split; [exact E |].
    destruct (TrainGpuYolo12_run_main h G) as (banner & final & ->). rewrite E.
    cbn. rewrite calls_of_prints. done.
  - assert (run h (Train.prepare_dataset G) s =
            (Called (c_getcwd cwd) :: Called (c_path_exists (data_yaml_path cwd) false) ::
             Printed not_found_line :: map Printed no_credential_lines,
             s', Normal None)) as E.
    { unfold Train.prepare_dataset. check_descriptor Hcwd Hfound.
      destruct (decide _) as [_ | []]; [| exact Hkey]. reflexivity. }
    split; [exact E |].
    destruct (Train_run_main h G) as (banner & final & ->). rewrite E.
    cbn. rewrite calls_of_prints. done.
Qed.

(** No dataset folder and an empty credential: [train-gpu.py] prints the
    error and stops. *)
Lemma no_credential_no_fetch_scenario :
  gives_up_without_credential "/content" 0%nat
    (run (env colab_no_dataset) (TrainGpu.prepare_dataset two_sizes) 0%nat)
    (run (env colab_no_dataset) (TrainGpu.main two_sizes) 0%nat).
Proof.
  destruct no_credential_no_fetch as (H & _ & _).
  apply H.
  - exists 0%nat. split; reflexivity.
  - left. reflexivity.
Defined.

(** C7.  In each of the three scripts, for every environment in which the
    descriptor does not exist, with a credential that passes the guard:
    when the download (the body of the [try]) raises an [Exception] with
    message [msg], the dataset step prints the download error with [msg]
    and binds no location; that line is the last thing [main] does: it
    makes no call on a model (no train, no export) and returns normally. *)
Theorem download_error_is_fatal :
  (∀ S (h : handler S) s G cwd s1 fetched msg s',
     descriptor_check h s cwd false s1 →
     ¬ no_credential (TrainGpu.API_KEY G) →
     run h (TrainGpu.download_dataset G) s1 = (fetched, s', Raised (Exception msg)) →
     gives_up_after_download_error cwd fetched msg s'
       (run h (TrainGpu.prepare_dataset G) s) (run h (TrainGpu.main G) s)) ∧
  (∀ S (h : handler S) s G cwd s1 fetched msg s',
     descriptor_check h s cwd false s1 →
     ¬ no_credential (TrainGpuYolo12.API_KEY G) →
     run h (TrainGpuYolo12.download_dataset G) s1 = (fetched, s', Raised (Exception msg)) →
     gives_up_after_download_error cwd fetched msg s'
       (run h (TrainGpuYolo12.prepare_dataset G) s) (run h (TrainGpuYolo12.main G) s)) ∧
  (∀ S (h : handler S) s G cwd s1 fetched msg s',
     descriptor_check h s cwd false s1 →
     ¬ no_credential (Train.API_KEY G) →
     run h (Train.download_dataset G) s1 = (fetched, s', Raised (Exception msg)) →
     gives_up_after_download_error cwd fetched msg s'
       (run h (Train.prepare_dataset G) s) (run h (Train.main G) s)).
Proof.
  split; [| split]; intros S h s G cwd s1 fetched msg s' (s0 & Hcwd & Hfound) Hkey Hdl.
  - destruct (TrainGpu_run_main h G) as (banner & final & ->).
    pose proof (TrainGpu_download_no_model h G s1) as Hno. rewrite Hdl in Hno.
    replace (run h (TrainGpu.prepare_dataset G) s) with
      (Called (c_getcwd cwd) :: Called (c_path_exists (data_yaml_path cwd) false) ::
       Printed not_found_line :: fetched ++ [Printed (download_error_line msg)],
       s', @Normal (option string) None).
    { by apply whole_run_download_error. }
    unfold TrainGpu.prepare_dataset. download_error Hcwd Hfound Hkey Hdl.
  - destruct (TrainGpuYolo12_run_main h G) as (banner & final & ->).
    pose proof (TrainGpuYolo12_download_no_model h G s1) as Hno. rewrite Hdl in Hno.
    replace (run h (TrainGpuYolo12.prepare_dataset G) s) with
      (Called (c_getcwd cwd) :: Called (c_path_exists (data_yaml_path cwd) false) ::
       Printed not_found_line :: fetched ++ [Printed (download_error_line msg)],
       s', @Normal (option string) None).
    { by apply whole_run_download_error. }
    unfold TrainGpuYolo12.prepare_dataset. download_error Hcwd Hfound Hkey Hdl.
  - destruct (Train_run_main h G) as (banner & final & ->).
    pose proof (Train_download_no_model h G s1) as Hno. rewrite Hdl in Hno.
    replace (run h (Train.prepare_dataset G) s) with
      (Called (c_getcwd cwd) :: Called (c_path_exists (data_yaml_path cwd) false) ::
       Printed not_found_line :: fetched ++ [Printed (download_error_line msg)],
       s', @Normal (option string) None).
    { by apply whole_run_download_error. }
    unfold Train.prepare_dataset. download_error Hcwd Hfound Hkey Hdl.
Qed.

(** No dataset folder and no network: [train-gpu-yolo12.py] reaches the
    download, which raises; the script prints the error and stops. *)
Lemma download_error_is_fatal_scenario :
  let G := TrainGpuYolo12.module_globals "wrBZSENL1YtFWZHbvACQ" in
  let fetched := trace_of (run (env colab_offline) (TrainGpuYolo12.download_dataset G) 0%nat) in
  gives_up_after_download_error "/content" fetched
    "HTTPSConnectionPool: Max retries exceeded" 4%nat
    (run (env colab_offline) (TrainGpuYolo12.prepare_dataset G) 0%nat)
    (run (env colab_offline) (TrainGpuYolo12.main G) 0%nat).
Proof.
  intros G fetched.
  destruct download_error_is_fatal as (_ & H & _).
  apply (H nat (env colab_offline) 0%nat G "/content" 0%nat).
  - exists 0%nat. split; reflexivity.
  - intros [Hk | Hk]; discriminate Hk.
  - vm_compute. reflexivity.
Defined.

(** C9.  The key written in the three files is neither empty nor the
    placeholder, so it passes the guard; and in each of the three scripts,
    for every environment in which [ROBOFLOW_API_KEY] is unset and the
    descriptor does not exist, the script goes on, right after the
    "not found" line, to call the Roboflow client with that key. *)
Theorem embedded_key_is_used :
  ¬ no_credential "wrBZSENL1YtFWZHbvACQ" ∧
  (∀ S (h : handler S) s, fetches_with_embedded_key h s TrainGpu.script) ∧
  (∀ S (h : handler S) s, fetches_with_embedded_key h s TrainGpuYolo12.script) ∧
  (∀ S (h : handler S) s, fetches_with_embedded_key h s Train.script).
Proof.
  split; [intros [Hk | Hk]; discriminate Hk |].
  split; [| split]; intros S h s s0 cwd s1 Henv (s2 & Hcwd & Hfound).
  - unfold TrainGpu.script, TrainGpu.main, TrainGpu.prepare_dataset,
      TrainGpu.download_dataset.
    reach_roboflow h Henv Hcwd Hfound. by eexists [_; _], a, rest.
  - unfold TrainGpuYolo12.script, TrainGpuYolo12.main, TrainGpuYolo12.prepare_dataset,
      TrainGpuYolo12.download_dataset.
    reach_roboflow h Henv Hcwd Hfound. by eexists [_; _; _], a, rest.
  - unfold Train.script, Train.main, Train.prepare_dataset, Train.download_dataset.
    reach_roboflow h Henv Hcwd Hfound. by eexists [_], a, rest.
Qed.

(** On a machine without the dataset folder and without the variable,
    [train.py] calls [Roboflow] with the key of the file. *)
Lemma embedded_key_is_used_scenario :
  ∃ banner a rest,
    trace_of (run (env colab_no_dataset) Train.script 0%nat) =
      Called (c_environ_get "ROBOFLOW_API_KEY" None) :: map Printed banner ++
      Called (c_getcwd "/content") ::
      Called (c_path_exists (data_yaml_path "/content") false) ::
      Printed not_found_line ::
      Called (c_Roboflow "wrBZSENL1YtFWZHbvACQ" a) :: rest.
Proof.
  destruct embedded_key_is_used as (_ & _ & _ & H).
  apply (H nat (env colab_no_dataset) 0%nat 0%nat "/content" 0%nat).
  - reflexivity.
  - exists 0%nat. split; reflexivity.
Defined.

(** C10.  For every credential and every environment, the dataset steps of
    the three scripts run alike from the same state: those of
    [train-gpu.py] and [train-gpu-yolo12.py] leave the same trace, state and
    result; that of [train.py] makes the same calls with the same answers
    and leaves the same state and the same result (it differs in one
    character of one printed line).  The calls on the Roboflow client carry
    the credential, the workspace "yolo-jpkho", the project
    "combined-vegetables-fruits", the version 1 and the format "yolov8". *)
Theorem dataset_steps_agree :
  ∀ S (h : handler S) s key,
    let R1 := run h (TrainGpu.prepare_dataset (TrainGpu.module_globals key)) s in
    let R2 := run h (TrainGpuYolo12.prepare_dataset (TrainGpuYolo12.module_globals key)) s in
    let R3 := run h (Train.prepare_dataset (Train.module_globals key)) s in
    R1 = R2 ∧
    same_resolution R1 R3 ∧
    Forall (fetch_arguments key) (calls_of (trace_of R1)).
Proof.
  intros S h s key.
  unfold TrainGpu.prepare_dataset, TrainGpu.download_dataset,
    TrainGpuYolo12.prepare_dataset, TrainGpuYolo12.download_dataset,
    Train.prepare_dataset, Train.download_dataset, same_resolution.
  cbn [TrainGpu.module_globals TrainGpu.API_KEY TrainGpu.PROJECT_WORKSPACE
       TrainGpu.PROJECT_NAME TrainGpu.VERSION_NUMBER
       TrainGpuYolo12.module_globals TrainGpuYolo12.API_KEY
       TrainGpuYolo12.PROJECT_WORKSPACE TrainGpuYolo12.PROJECT_NAME
       TrainGpuYolo12.VERSION_NUMBER
       Train.module_globals Train.API_KEY Train.PROJECT_WORKSPACE
       Train.PROJECT_NAME Train.VERSION_NUMBER].
  walk h; (split; [reflexivity |]); (split; [done |]);
    cbn [calls_of]; repeat (constructor; [done |]); constructor.
Qed.

(** * Further properties of the scripts *)

(** ** Exceptions that are not caught *)

Lemma prints_not_fatal lines : Forall (λ x, ¬ fatal x) (map Printed lines).
Proof. induction lines; constructor; simpl; tauto. Qed.

Lemma ended_by_app_l {A} (t1 t2 : trace) (r : outcome A) :
  Forall (λ x, ¬ fatal x) t1 → ended_by t2 r → ended_by (t1 ++ t2) r.
Proof.
  intros H1. destruct r as [a | e]; simpl.
  - intros H2. by apply Forall_app.
  - intros (pre & c & -> & Hpre & Hc & He).
    exists (t1 ++ pre), c. rewrite app_assoc.
    split; [done |]. split; [by apply Forall_app | done].
Qed.

Lemma ended_by_returned {A B} (t : trace) (a : A) (b : B) :
  ended_by t (Normal a) → ended_by t (Normal b).
Proof. done. Qed.

Lemma ended_by_raised {A B} (t : trace) (e : exn) :
  ended_by t (Raised e : outcome A) → ended_by t (Raised e : outcome B).
Proof. done. Qed.

(** Where an entry that satisfies [P] can stand in a list whose entries,
    but the last, do not. *)
Lemma only_last (P : entry → Prop) (pre : trace) (x : entry) pre' y post :
  Forall (λ z, ¬ P z) pre → P y →
  pre ++ [x] = pre' ++ y :: post → post = [] ∧ y = x.
Proof.
  intros Hpre Hy. revert pre'.
  induction Hpre as [| z pre Hz _ IH]; intros [| z' pre'] E; simplify_eq/=.
  - done.
  - by destruct pre'.
  - done.
  - eauto.
Qed.

Lemma ended_by_fatal_call_ends_run {A} (t : trace) (r : outcome A) :
  ended_by t r → fatal_call_ends_run t r.
Proof.
  intros H pre c post -> Hc. destruct r as [a | e]; simpl in H.
  - apply Forall_app in H as [_ H]. apply Forall_cons in H as [H _]. by destruct H.
  - destruct H as (pre0 & c0 & E & Hpre & _ & He).
    destruct (only_last fatal pre0 (Called c0) pre (Called c) post Hpre Hc) as [-> [= ->]].
    { by symmetry. }
    eauto.
Qed.

Lemma ended_by_raises_at_fatal_call {A} (t : trace) (r : outcome A) :
  ended_by t r → raises_at_fatal_call t r.
Proof.
  intros H e ->. destruct H as (pre & c & -> & _ & Hc & He). eauto.
Qed.

Lemma turn_ended_by (T : turn) (w : went) : ended_by (turn_trace T w) (went_result w).
Proof.
  pose proof (prints_not_fatal (before_load T)) as Hb.
  pose proof (prints_not_fatal (before_train T)) as Hm.
  destruct w as [e | m e | m | m msg | m msg]; unfold turn_trace; cbn [went_result].
  - apply ended_by_app_l; [done |]. by exists [], (c_YOLO (weights T) (Raised e)).
  - apply ended_by_app_l; [done |].
    exists (Called (c_YOLO (weights T) (Normal m)) :: map Printed (before_train T)),
           (c_train m (train_kw T) (Raised e)).
    split; [done |]. split; [| done]. constructor; [simpl; tauto | done].
  - apply Forall_app. split; [done |]. constructor; [simpl; tauto |].
    apply Forall_app. split; [done |]. repeat (constructor; [simpl; tauto |]). constructor.
  - apply Forall_app. split; [done |]. constructor; [simpl; tauto |].
    apply Forall_app. split; [done |]. repeat (constructor; [simpl; tauto |]). constructor.
  - apply ended_by_app_l; [done |].
    exists (Called (c_YOLO (weights T) (Normal m)) :: map Printed (before_train T) ++
            [Called (c_train m (train_kw T) (Normal tt));
             Printed (trained_line T); Printed (exporting_line T)]),
           (c_export m (export_kw T) (Raised (BaseException msg))).
    split; [simpl; by rewrite <- app_assoc |]. split; [| done].
    constructor; [simpl; tauto |]. apply Forall_app. split; [done |].
    repeat (constructor; [simpl; tauto |]). constructor.
Qed.

Lemma loop_run_ended_by (T : string → turn) sizes t r :
  loop_run T sizes t r → ended_by t r.
Proof.
  induction 1 as [| size rest w t r Hw _ IH | size rest w e Hw].
  - constructor.
  - pose proof (turn_ended_by (T size) w) as Hturn. rewrite Hw in Hturn.
    by apply ended_by_app_l.
  - pose proof (turn_ended_by (T size) w) as Hturn. by rewrite Hw in Hturn.
Qed.

Lemma whole_run_ended_by {S} banner final
    (prepared : trace * S * outcome (option string)) loop :
  ended_by (trace_of prepared) (result_of prepared) →
  (∀ loc s1, ended_by (trace_of (loop loc s1)) (result_of (loop loc s1))) →
  let whole := whole_run banner final prepared loop in
  ended_by (trace_of whole) (result_of whole).
Proof.
  intros Hprep Hloop.
  destruct prepared as [[tp s1] [[loc |] | e]]; cbn [whole_run trace_of result_of fst snd] in *.
  - specialize (Hloop loc s1).
    destruct (loop loc s1) as [[tl s2] [[] | e]]; cbn [trace_of result_of fst snd] in *.
    + apply Forall_app. split; [apply prints_not_fatal |].
      apply Forall_app. split; [done |].
      apply Forall_app. split; [done |]. constructor; [simpl; tauto | constructor].
    + apply ended_by_app_l; [apply prints_not_fatal |]. by apply ended_by_app_l.
  - apply Forall_app. split; [apply prints_not_fatal | done].
  - apply ended_by_app_l; [apply prints_not_fatal | done].
Qed.

Ltac ended_here :=
  lazymatch goal with
  | |- ended_by ?t (Normal _) =>
      cbn [ended_by]; repeat (constructor; [simpl; tauto |]); constructor
  | |- ended_by ?t (Raised _) =>
      cbn [ended_by]; exists (removelast t); eexists;
      split; [reflexivity |];
      split; [cbn [removelast]; repeat (constructor; [simpl; tauto |]); constructor |];
      split; [simpl; tauto | reflexivity]
  end.

Lemma TrainGpu_prepare_ended_by {S} (h : handler S) G s :
  let R := run h (TrainGpu.prepare_dataset G) s in ended_by (trace_of R) (result_of R).
Proof.
  unfold TrainGpu.prepare_dataset, TrainGpu.download_dataset. walk h; ended_here.
Qed.

Lemma TrainGpuYolo12_prepare_ended_by {S} (h : handler S) G s :
  let R := run h (TrainGpuYolo12.prepare_dataset G) s in
  ended_by (trace_of R) (result_of R).
Proof.
  unfold TrainGpuYolo12.prepare_dataset, TrainGpuYolo12.download_dataset.
  walk h; ended_here.
Qed.

Lemma Train_prepare_ended_by {S} (h : handler S) G s :
  let R := run h (Train.prepare_dataset G) s in ended_by (trace_of R) (result_of R).
Proof.
  unfold Train.prepare_dataset, Train.download_dataset. walk h; ended_here.
Qed.

Lemma TrainGpu_main_ended_by {S} (h : handler S) G s :
  let R := run h (TrainGpu.main G) s in ended_by (trace_of R) (result_of R).
Proof.
  destruct (TrainGpu_run_main h G) as (banner & final & ->).
  apply whole_run_ended_by; [apply TrainGpu_prepare_ended_by |].
  intros loc s1. eapply loop_run_ended_by, TrainGpu_loop_run.
Qed.

Lemma TrainGpuYolo12_main_ended_by {S} (h : handler S) G s :
  let R := run h (TrainGpuYolo12.main G) s in ended_by (trace_of R) (result_of R).
Proof.
  destruct (TrainGpuYolo12_run_main h G) as (banner & final & ->).
  apply whole_run_ended_by; [apply TrainGpuYolo12_prepare_ended_by |].
  intros loc s1. eapply loop_run_ended_by, TrainGpuYolo12_loop_run.
Qed.

Lemma Train_main_ended_by {S} (h : handler S) G s :
  let R := run h (Train.main G) s in ended_by (trace_of R) (result_of R).
Proof.
  destruct (Train_run_main h G) as (banner & final & ->).
  apply whole_run_ended_by; [apply Train_prepare_ended_by |].
  intros loc s1. eapply loop_run_ended_by, Train_loop_run.
Qed.

(** X1.  In each of the three scripts, for every list of variants and every
    environment: a call that no [except] clause covers -- loading the
    weights or training when they raise anything, and any call (export and
    the Roboflow calls included) when it raises something that is not an
    [Exception] -- is the last entry of the trace of [main]: nothing is
    printed or called after it, and [main] ends with what it raised. *)
Theorem uncaught_exceptions_end_main :
  (∀ S (h : handler S) s G,
     let R := run h (TrainGpu.main G) s in
     fatal_call_ends_run (trace_of R) (result_of R)) ∧
  (∀ S (h : handler S) s G,
     let R := run h (TrainGpuYolo12.main G) s in
     fatal_call_ends_run (trace_of R) (result_of R)) ∧
  (∀ S (h : handler S) s G,
     let R := run h (Train.main G) s in
     fatal_call_ends_run (trace_of R) (result_of R)).
Proof.
  split; [| split]; intros S h s G R; apply ended_by_fatal_call_ends_run.
  - apply TrainGpu_main_ended_by.
  - apply TrainGpuYolo12_main_ended_by.
  - apply Train_main_ended_by.
Qed.

(** The weights of the medium model cannot be loaded: [train-gpu.py] ends
    there, after s has been trained and exported. *)
Lemma uncaught_exceptions_end_main_scenario :
  let R := run (env_without ["yolo11m.pt"] [] colab)
               (TrainGpu.main (TrainGpu.module_globals "")) 0%nat in
  steps (trace_of R) = [trains (Some (VStr "yolo11s_fruit")) 1%nat; exports 1%nat] ∧
  result_of R = Raised (Exception "No such file or directory").
Proof.
  intros R. split; [vm_compute; reflexivity |].
  destruct uncaught_exceptions_end_main as [H _].
  destruct (H nat (env_without ["yolo11m.pt"] [] colab) 0%nat (TrainGpu.module_globals "")
              (removelast (trace_of R))
              (c_YOLO "yolo11m.pt" (Raised (Exception "No such file or directory"))) [])
    as (_ & e & He & Hr).
  - vm_compute. reflexivity.
  - exact I.
  - injection He as <-. exact Hr.
Defined.

(** X2.  In each of the three scripts, for every list of variants and every
    environment: when [main] ends by raising, the last entry of its trace
    is a call that no [except] clause covers, and what [main] raises is what
    that call raised.  With X1: [main] raises exactly when such a call
    occurs; an [Exception] from an export or from a Roboflow call never
    makes [main] raise. *)
Theorem main_raises_only_at_a_fatal_call :
  (∀ S (h : handler S) s G,
     let R := run h (TrainGpu.main G) s in
     raises_at_fatal_call (trace_of R) (result_of R)) ∧
  (∀ S (h : handler S) s G,
     let R := run h (TrainGpuYolo12.main G) s in
     raises_at_fatal_call (trace_of R) (result_of R)) ∧
  (∀ S (h : handler S) s G,
     let R := run h (Train.main G) s in
     raises_at_fatal_call (trace_of R) (result_of R)).
Proof.
  split; [| split]; intros S h s G R; apply ended_by_raises_at_fatal_call.
  - apply TrainGpu_main_ended_by.
  - apply TrainGpuYolo12_main_ended_by.
  - apply Train_main_ended_by.
Qed.

(** [train.py] is interrupted during the first export: what it raises is
    what that export call raised. *)
Lemma main_raises_only_at_a_fatal_call_scenario :
  let R := run (env colab_interrupted) (Train.main (Train.module_globals "")) 0%nat in
  ∃ pre c,
    trace_of R = pre ++ [Called c] ∧ fatal (Called c) ∧
    raised c = Some (BaseException "KeyboardInterrupt").
Proof.
  intros R.
  destruct main_raises_only_at_a_fatal_call as (_ & _ & H).
  apply (H nat (env colab_interrupted) 0%nat (Train.module_globals "")).
  vm_compute. reflexivity.
Defined.

Ltac download_interrupt Hcwd Hfound Hkey Hdl :=
  check_descriptor Hcwd Hfound;
  destruct (decide _) as [Hbad | _]; [destruct (Hkey Hbad) |];
  unfold try_except; rewrite run_bind, Hdl; cbn [run]; rewrite app_nil_r; reflexivity.

Lemma whole_run_download_interrupt {S} banner final cwd fetched msg (s' : S) loop :
  Forall (λ x, ¬ model_entry x) fetched →
  let prepared :=
    (Called (c_getcwd cwd) :: Called (c_path_exists (data_yaml_path cwd) false) ::
     Printed not_found_line :: fetched,
     s', @Raised (option string) (BaseException msg)) in
  download_interrupt_escapes cwd fetched msg s' prepared
    (whole_run banner final prepared loop).
Proof.
  intros Hfetched prepared. split; [done |]. split; [by exists banner |].
  simpl. apply Forall_app. split; [apply prints_no_model |].
  repeat (constructor; [simpl; tauto |]). done.
Qed.

(** X3.  In each of the three scripts, for every environment in which the
    descriptor does not exist, with a credential that passes the guard:
    when the download (the body of the [try]) raises something that is not
    an [Exception] -- an interrupt from the keyboard, [SystemExit] -- the
    [except Exception] clause does not catch it: the dataset step and [main]
    end there with it, the download-error line is not printed, and no model
    is loaded, trained or exported. *)
Theorem download_interrupt_is_not_caught :
  (∀ S (h : handler S) s G cwd s1 fetched msg s',
     descriptor_check h s cwd false s1 →
     ¬ no_credential (TrainGpu.API_KEY G) →
     run h (TrainGpu.download_dataset G) s1 = (fetched, s', Raised (BaseException msg)) →
     download_interrupt_escapes cwd fetched msg s'
       (run h (TrainGpu.prepare_dataset G) s) (run h (TrainGpu.main G) s)) ∧
  (∀ S (h : handler S) s G cwd s1 fetched msg s',
     descriptor_check h s cwd false s1 →
     ¬ no_credential (TrainGpuYolo12.API_KEY G) →
     run h (TrainGpuYolo12.download_dataset G) s1
       = (fetched, s', Raised (BaseException msg)) →
     download_interrupt_escapes cwd fetched msg s'
       (run h (TrainGpuYolo12.prepare_dataset G) s) (run h (TrainGpuYolo12.main G) s)) ∧
  (∀ S (h : handler S) s G cwd s1 fetched msg s',
     descriptor_check h s cwd false s1 →
     ¬ no_credential (Train.API_KEY G) →
     run h (Train.download_dataset G) s1 = (fetched, s', Raised (BaseException msg)) →
     download_interrupt_escapes cwd fetched msg s'
       (run h (Train.prepare_dataset G) s) (run h (Train.main G) s)).
Proof.
  split; [| split]; intros S h s G cwd s1 fetched msg s' (s0 & Hcwd & Hfound) Hkey Hdl.
  - destruct (TrainGpu_run_main h G) as (banner & final & ->).
    pose proof (TrainGpu_download_no_model h G s1) as Hno. rewrite Hdl in Hno.
    replace (run h (TrainGpu.prepare_dataset G) s) with
      (Called (c_getcwd cwd) :: Called (c_path_exists (data_yaml_path cwd) false) ::
       Printed not_found_line :: fetched,
       s', @Raised (option string) (BaseException msg)).
    { by apply whole_run_download_interrupt. }
    unfold TrainGpu.prepare_dataset. download_interrupt Hcwd Hfound Hkey Hdl.
  - destruct (TrainGpuYolo12_run_main h G) as (banner & final & ->).
    pose proof (TrainGpuYolo12_download_no_model h G s1) as Hno. rewrite Hdl in Hno.
    replace (run h (TrainGpuYolo12.prepare_dataset G) s) with
      (Called (c_getcwd cwd) :: Called (c_path_exists (data_yaml_path cwd) false) ::
       Printed not_found_line :: fetched,
       s', @Raised (option string) (BaseException msg)).
    { by apply whole_run_download_interrupt. }
    unfold TrainGpuYolo12.prepare_dataset. download_interrupt Hcwd Hfound Hkey Hdl.
  - destruct (Train_run_main h G) as (banner & final & ->).
    pose proof (Train_download_no_model h G s1) as Hno. rewrite Hdl in Hno.
    replace (run h (Train.prepare_dataset G) s) with
      (Called (c_getcwd cwd) :: Called (c_path_exists (data_yaml_path cwd) false) ::
       Printed not_found_line :: fetched,
       s', @Raised (option string) (BaseException msg)).
    { by apply whole_run_download_interrupt. }
    unfold Train.prepare_dataset. download_interrupt Hcwd Hfound Hkey Hdl.
Qed.

(** No dataset folder, and the download of [train-gpu.py] is interrupted:
    the script ends with the interrupt. *)
Lemma download_interrupt_is_not_caught_scenario :
  let G := TrainGpu.module_globals "wrBZSENL1YtFWZHbvACQ" in
  let fetched :=
    trace_of (run (env colab_download_interrupted) (TrainGpu.download_dataset G) 0%nat) in
  download_interrupt_escapes "/content" fetched "KeyboardInterrupt" 4%nat
    (run (env colab_download_interrupted) (TrainGpu.prepare_dataset G) 0%nat)
    (run (env colab_download_interrupted) (TrainGpu.main G) 0%nat).
Proof.
  intros G fetched.
  destruct download_interrupt_is_not_caught as (H & _ & _).
  apply (H nat (env colab_download_interrupted) 0%nat G "/content" 0%nat).
  - exists 0%nat. split; reflexivity.
  - intros [Hk | Hk]; discriminate Hk.
  - vm_compute. reflexivity.
Defined.

(** ** The download *)

Ltac chain_of_calls H :=
  destruct H as (? & ? & ? & ? & H1 & H2 & H3 & H4 & H5);
  stepping; rewrite H1; stepping; rewrite H2; stepping; rewrite H3; stepping;
  rewrite H4; stepping; rewrite H5; stepping.

(** X4.  In each of the three scripts, for every environment in which the
    descriptor does not exist, with a credential that passes the guard:
    when the five calls on the Roboflow client return, the dataset step
    makes them in a chain -- [Roboflow] with the credential, [workspace] on
    what it returned, [project] on that workspace, [version] on that
    project, [download("yolov8")] on that version --, prints where the
    dataset is, and binds [dataset_location] to the [location] of what
    [download] returned. *)
Theorem download_binds_its_location :
  (∀ S (h : handler S) s G cwd s0 rf w p v d s',
     descriptor_check h s cwd false s0 →
     ¬ no_credential (TrainGpu.API_KEY G) →
     client_answers h s0 (TrainGpu.API_KEY G) (TrainGpu.PROJECT_WORKSPACE G)
       (TrainGpu.PROJECT_NAME G) (TrainGpu.VERSION_NUMBER G) rf w p v d s' →
     binds_download_location cwd (TrainGpu.API_KEY G) (TrainGpu.PROJECT_WORKSPACE G)
       (TrainGpu.PROJECT_NAME G) (TrainGpu.VERSION_NUMBER G) rf w p v d s'
       (run h (TrainGpu.prepare_dataset G) s)) ∧
  (∀ S (h : handler S) s G cwd s0 rf w p v d s',
     descriptor_check h s cwd false s0 →
     ¬ no_credential (TrainGpuYolo12.API_KEY G) →
     client_answers h s0 (TrainGpuYolo12.API_KEY G) (TrainGpuYolo12.PROJECT_WORKSPACE G)
       (TrainGpuYolo12.PROJECT_NAME G) (TrainGpuYolo12.VERSION_NUMBER G) rf w p v d s' →
     binds_download_location cwd (TrainGpuYolo12.API_KEY G)
       (TrainGpuYolo12.PROJECT_WORKSPACE G) (TrainGpuYolo12.PROJECT_NAME G)
       (TrainGpuYolo12.VERSION_NUMBER G) rf w p v d s'
       (run h (TrainGpuYolo12.prepare_dataset G) s)) ∧
  (∀ S (h : handler S) s G cwd s0 rf w p v d s',
     descriptor_check h s cwd false s0 →
     ¬ no_credential (Train.API_KEY G) →
     client_answers h s0 (Train.API_KEY G) (Train.PROJECT_WORKSPACE G)
       (Train.PROJECT_NAME G) (Train.VERSION_NUMBER G) rf w p v d s' →
     binds_download_location cwd (Train.API_KEY G) (Train.PROJECT_WORKSPACE G)
       (Train.PROJECT_NAME G) (Train.VERSION_NUMBER G) rf w p v d s'
       (run h (Train.prepare_dataset G) s)).
Proof.
  split; [| split]; intros S h s G cwd s0 rf w p v d s' (s1 & Hcwd & Hfound) Hkey Hclient.
  - unfold TrainGpu.prepare_dataset, TrainGpu.download_dataset.
    check_descriptor Hcwd Hfound.
    destruct (decide _) as [Hbad | _]; [destruct (Hkey Hbad) |].
    chain_of_calls Hclient. reflexivity.
  - unfold TrainGpuYolo12.prepare_dataset, TrainGpuYolo12.download_dataset.
    check_descriptor Hcwd Hfound.
    destruct (decide _) as [Hbad | _]; [destruct (Hkey Hbad) |].
    chain_of_calls Hclient. reflexivity.
  - unfold Train.prepare_dataset, Train.download_dataset.
    check_descriptor Hcwd Hfound.
    destruct (decide _) as [Hbad | _]; [destruct (Hkey Hbad) |].
    chain_of_calls Hclient. reflexivity.
Qed.

(** No dataset folder, a key in the environment and a working network:
    [train-gpu-yolo12.py] binds the folder the download reports. *)
Lemma download_binds_its_location_scenario :
  binds_download_location "/content" "my-key" "yolo-jpkho" "combined-vegetables-fruits" 1
    1%nat 2%nat 3%nat 4%nat {| location := "/content/combined-vegetables-fruits-1" |} 4%nat
    (run (env (colab_with_key "my-key"))
         (TrainGpuYolo12.prepare_dataset (TrainGpuYolo12.module_globals "my-key")) 0%nat).
Proof.
  destruct download_binds_its_location as (_ & H & _).
  apply (H nat (env (colab_with_key "my-key")) 0%nat
           (TrainGpuYolo12.module_globals "my-key") "/content" 0%nat).
  - exists 0%nat. split; reflexivity.
  - intros [Hk | Hk]; discriminate Hk.
  - exists 1%nat, 2%nat, 3%nat, 4%nat. repeat split; reflexivity.
Defined.

Ltac first_error :=
  lazymatch goal with
  | |- ∀ e, Normal _ = Raised e → _ => intros e He; discriminate He
  | |- ∀ e, Raised _ = Raised e → ∃ pre c, ?t = _ ∧ _ =>
      intros e He; injection He as <-;
      exists (removelast (calls_of t)); eexists;
      split; [reflexivity |];
      split; [cbn [calls_of removelast]; repeat constructor | reflexivity]
  end.

(** X5.  In each of the three scripts, for every credential and every
    environment: when the body of the [try] of the dataset step ends by
    raising, its trace consists of the Roboflow calls that returned followed
    by the one that raised: the calls that come after it in the chain are not
    made, and the "downloaded" line is not printed. *)
Theorem download_stops_at_first_error :
  (∀ S (h : handler S) s G, stops_at_first_error (run h (TrainGpu.download_dataset G) s)) ∧
  (∀ S (h : handler S) s G,
     stops_at_first_error (run h (TrainGpuYolo12.download_dataset G) s)) ∧
  (∀ S (h : handler S) s G, stops_at_first_error (run h (Train.download_dataset G) s)).
Proof.
  split; [| split]; intros S h s G; unfold stops_at_first_error.
  - unfold TrainGpu.download_dataset. walk h; first_error.
  - unfold TrainGpuYolo12.download_dataset. walk h; first_error.
  - unfold Train.download_dataset. walk h; first_error.
Qed.

(** The workspace does not exist: [train.py] asks for the client and for
    the workspace, and for nothing more. *)
Lemma download_stops_at_first_error_scenario :
  let R := run (env_without [] ["yolo-jpkho"] colab_no_dataset)
               (Train.download_dataset (Train.module_globals "my-key")) 0%nat in
  ∃ pre c,
    trace_of R = map Called (pre ++ [c]) ∧
    Forall (λ c', raised c' = None) pre ∧
    raised c = Some (Exception "workspace not found").
Proof.
  intros R.
  destruct download_stops_at_first_error as (_ & _ & H).
  apply (H nat (env_without [] ["yolo-jpkho"] colab_no_dataset) 0%nat
           (Train.module_globals "my-key")).
  vm_compute. reflexivity.
Defined.

(** ** What is passed to the trainer *)

Lemma Forall_prints (P : entry → Prop) lines :
  (∀ line, P (Printed line)) → Forall P (map Printed lines).
Proof. intros HP. induction lines; constructor; auto. Qed.

Lemma loop_run_train_with (T : string → turn) sizes t r :
  loop_run T sizes t r → Forall (train_with T sizes) t.
Proof.
  assert (∀ size rest w, Forall (train_with T (size :: rest)) (turn_trace (T size) w)) as Hturn.
  { intros size rest w.
    assert (train_with T (size :: rest) (Called (c_train 0%nat (train_kw (T size)) (Normal tt))))
      as Htrain by (exists size; split; [left | done]).
    destruct w; unfold turn_trace;
      (apply Forall_app; split; [by apply Forall_prints |]);
      (constructor; [done |]); try constructor;
      (apply Forall_app; split; [by apply Forall_prints |]);
      repeat (constructor; [first [done | exact Htrain] |]); constructor. }
  induction 1 as [| size rest w t r Hw _ IH | size rest w e Hw].
  - constructor.
  - apply Forall_app. split; [apply Hturn |].
    eapply Forall_impl; [exact IH |].
    intros x. unfold train_with. repeat case_match; try done.
    intros (sz & ? & ?). exists sz. split; [by right | done].
  - apply Hturn.
Qed.

Lemma not_printed c lines : Called c ∉ map Printed lines.
Proof. induction lines; simpl; [apply not_elem_of_nil |]. by apply not_elem_of_cons. Qed.

(** The [train] calls of [main] are those of its loop. *)
Lemma whole_run_train_calls {S} banner final tp (s1 : S) loc loop m kw a :
  Forall (λ x, ¬ model_entry x) tp →
  Called (c_train m kw a)
    ∈ trace_of (whole_run banner final (tp, s1, Normal (Some loc)) loop) →
  Called (c_train m kw a) ∈ trace_of (loop loc s1).
Proof.
  intros Hprep. cbn [whole_run].
  assert (Called (c_train m kw a) ∉ tp) as Htp.
  { intros Hin. rewrite Forall_forall in Hprep. by apply (Hprep _ Hin). }
  pose proof (not_printed (c_train m kw a) banner) as Hbanner.
  destruct (loop loc s1) as [[tl s2] [[] | e]]; cbn [trace_of fst];
    rewrite !elem_of_app; intros [? | [? | Hin]]; try done.
  destruct Hin as [? | Hin]; [done |].
  apply list_elem_of_singleton in Hin. discriminate Hin.
Qed.

Lemma loop_train_calls (T : string → turn) sizes t r m kw a :
  loop_run T sizes t r → Called (c_train m kw a) ∈ t →
  ∃ size, size ∈ sizes ∧ kw = train_kw (T size).
Proof.
  intros Hrun%loop_run_train_with Hin. rewrite Forall_forall in Hrun.
  exact (Hrun _ Hin).
Qed.

Lemma TrainGpu_main_trains_on {S} (h : handler S) s G tp s1 loc :
  run h (TrainGpu.prepare_dataset G) s = (tp, s1, Normal (Some loc)) →
  trains_on (loc +:+ "/data.yaml") (trace_of (run h (TrainGpu.main G) s)).
Proof.
  intros Hprep m kw a Hin.
  destruct (TrainGpu_run_main h G) as (banner & final & E). rewrite E, Hprep in Hin.
  apply whole_run_train_calls in Hin.
  - destruct (loop_train_calls _ _ _ _ _ _ _ (TrainGpu_loop_run h G loc s1) Hin)
      as (size & _ & ->). reflexivity.
  - pose proof (TrainGpu_prepare_no_model h G s) as H. by rewrite Hprep in H.
Qed.

Lemma TrainGpuYolo12_main_trains_on {S} (h : handler S) s G tp s1 loc :
  run h (TrainGpuYolo12.prepare_dataset G) s = (tp, s1, Normal (Some loc)) →
  trains_on (loc +:+ "/data.yaml") (trace_of (run h (TrainGpuYolo12.main G) s)).
Proof.
  intros Hprep m kw a Hin.
  destruct (TrainGpuYolo12_run_main h G) as (banner & final & E). rewrite E, Hprep in Hin.
  apply whole_run_train_calls in Hin.
  - destruct (loop_train_calls _ _ _ _ _ _ _ (TrainGpuYolo12_loop_run h G loc s1) Hin)
      as (size & _ & ->). reflexivity.
  - pose proof (TrainGpuYolo12_prepare_no_model h G s) as H. by rewrite Hprep in H.
Qed.

Lemma Train_main_trains_on {S} (h : handler S) s G tp s1 loc :
  run h (Train.prepare_dataset G) s = (tp, s1, Normal (Some loc)) →
  trains_on (loc +:+ "/data.yaml") (trace_of (run h (Train.main G) s)).
Proof.
  intros Hprep m kw a Hin.
  destruct (Train_run_main h G) as (banner & final & E). rewrite E, Hprep in Hin.
  apply whole_run_train_calls in Hin.
  - destruct (loop_train_calls _ _ _ _ _ _ _ (Train_loop_run h G loc s1) Hin)
      as (size & _ & ->). reflexivity.
  - pose proof (Train_prepare_no_model h G s) as H. by rewrite Hprep in H.
Qed.

(** X6.  In each of the three scripts, for every list of variants and every
    environment: when the dataset step binds [dataset_location], the [data=]
    of every [train] call of [main] is that location followed by
    [/data.yaml], whether the location is the local folder or the one the
    download reported. *)
Theorem training_uses_the_resolved_dataset :
  (∀ S (h : handler S) s G tp s1 loc,
     run h (TrainGpu.prepare_dataset G) s = (tp, s1, Normal (Some loc)) →
     trains_on (loc +:+ "/data.yaml") (trace_of (run h (TrainGpu.main G) s))) ∧
  (∀ S (h : handler S) s G tp s1 loc,
     run h (TrainGpuYolo12.prepare_dataset G) s = (tp, s1, Normal (Some loc)) →
     trains_on (loc +:+ "/data.yaml") (trace_of (run h (TrainGpuYolo12.main G) s))) ∧
  (∀ S (h : handler S) s G tp s1 loc,
     run h (Train.prepare_dataset G) s = (tp, s1, Normal (Some loc)) →
     trains_on (loc +:+ "/data.yaml") (trace_of (run h (Train.main G) s))).
Proof.
  split; [| split]; intros S h s G tp s1 loc.
  - apply TrainGpu_main_trains_on.
  - apply TrainGpuYolo12_main_trains_on.
  - apply Train_main_trains_on.
Qed.

(** After a download, the first model of [train-gpu.py] is trained on the
    descriptor of the downloaded folder. *)
Lemma training_uses_the_resolved_dataset_scenario :
  let G := TrainGpu.module_globals "my-key" in
  let R := run (env (colab_with_key "my-key")) (TrainGpu.main G) 0%nat in
  ∃ kw a,
    trace_of R !! 17%nat = Some (Called (c_train 5%nat kw a)) ∧
    kwarg "data" kw = Some (VStr "/content/combined-vegetables-fruits-1/data.yaml").
Proof.
  intros G R.
  exists (TrainGpu.train_kwargs "/content/combined-vegetables-fruits-1" "s" 128), (Normal tt).
  assert (trace_of R !! 17%nat =
          Some (Called (c_train 5%nat
                  (TrainGpu.train_kwargs "/content/combined-vegetables-fruits-1" "s" 128)
                  (Normal tt)))) as Hat by (vm_compute; reflexivity).
  split; [exact Hat |].
  destruct training_uses_the_resolved_dataset as (H & _ & _).
  eapply (H nat (env (colab_with_key "my-key")) 0%nat G
            (trace_of (run (env (colab_with_key "my-key")) (TrainGpu.prepare_dataset G) 0%nat))
            4%nat "/content/combined-vegetables-fruits-1").
  - vm_compute. reflexivity.
  - eapply list_elem_of_lookup_2. exact Hat.
Defined.

Lemma endswith_char_app (x : string) (c : ascii) (s : string) (q : ascii) :
  endswith_char (x +:+ String c s) q = endswith_char (String c s) q.
Proof.
  induction x as [| c' x IH]; [done |].
  rewrite <- IH. by destruct x.
Qed.

Lemma append_not_empty (x : string) (c : ascii) (s : string) : x +:+ String c s ≠ "".
Proof. by destruct x. Qed.

(** The path that is checked is the path that is passed on: the local
    folder never ends in a slash. *)
Lemma data_yaml_path_eq (cwd : string) :
  data_yaml_path cwd = local_dataset_path cwd +:+ "/data.yaml".
Proof.
  unfold data_yaml_path.
  assert (∃ c s, local_dataset_path cwd = cwd +:+ String c s
                 ∧ endswith_char (String c s) "/" = false) as (c & suffix & -> & Hend).
  { unfold local_dataset_path, os_path_join. cbn [startswith_char].
    destruct (decide ("d"%char = "/"%char)) as [[=] | _].
    destruct (if decide (cwd = "") then true else endswith_char cwd "/");
      do 2 eexists; (split; [reflexivity | reflexivity]). }
  unfold os_path_join. cbn [startswith_char].
  destruct (decide ("d"%char = "/"%char)) as [[=] | _].
  destruct (decide (cwd +:+ String c suffix = "")) as [E | _].
  { by apply append_not_empty in E. }
  by rewrite endswith_char_app, Hend.
Qed.

(** X7.  In each of the three scripts, for every list of variants and every
    environment in which the local descriptor exists: the [data=] of every
    [train] call of [main] is the very path whose existence was checked,
    [os.path.join(os.path.join(cwd, "dataset"), "data.yaml")], although the
    script builds it a second time, with an f-string. *)
Theorem checked_descriptor_is_trained_on :
  (∀ S (h : handler S) s G cwd s',
     descriptor_check h s cwd true s' →
     trains_on (data_yaml_path cwd) (trace_of (run h (TrainGpu.main G) s))) ∧
  (∀ S (h : handler S) s G cwd s',
     descriptor_check h s cwd true s' →
     trains_on (data_yaml_path cwd) (trace_of (run h (TrainGpuYolo12.main G) s))) ∧
  (∀ S (h : handler S) s G cwd s',
     descriptor_check h s cwd true s' →
     trains_on (data_yaml_path cwd) (trace_of (run h (Train.main G) s))).
Proof.
  split; [| split]; intros S h s G cwd s' (s1 & Hcwd & Hfound); rewrite data_yaml_path_eq.
  - eapply TrainGpu_main_trains_on.
    unfold TrainGpu.prepare_dataset. check_descriptor Hcwd Hfound. reflexivity.
  - eapply TrainGpuYolo12_main_trains_on.
    unfold TrainGpuYolo12.prepare_dataset. check_descriptor Hcwd Hfound. reflexivity.
  - eapply Train_main_trains_on.
    unfold Train.prepare_dataset. check_descriptor Hcwd Hfound. reflexivity.
Qed.

(** With the working directory [/content/] (written with its slash),
    [train.py] checks [/content/dataset/data.yaml] and trains on it. *)
Lemma checked_descriptor_is_trained_on_scenario :
  let w := {| w_cwd := "/content/"; w_files := ["/content/dataset/data.yaml"];
              w_environ := ∅; w_download := Raised (Exception "offline");
              w_train_raises := []; w_export_raises := [] |} in
  let R := run (env w) (Train.main (Train.module_globals "")) 0%nat in
  ∃ kw a,
    trace_of R !! 9%nat = Some (Called (c_train 1%nat kw a)) ∧
    kwarg "data" kw = Some (VStr "/content/dataset/data.yaml").
Proof.
  intros w R.
  exists (Train.train_kwargs "/content/dataset" "s"), (Normal tt).
  assert (trace_of R !! 9%nat =
          Some (Called (c_train 1%nat (Train.train_kwargs "/content/dataset" "s") (Normal tt))))
    as Hat by (vm_compute; reflexivity).
  split; [exact Hat |].
  destruct checked_descriptor_is_trained_on as (_ & _ & H).
  eapply (H nat (env w) 0%nat (Train.module_globals "") "/content/" 0%nat).
  - exists 0%nat. split; reflexivity.
  - eapply list_elem_of_lookup_2. exact Hat.
Defined.

(** ** What the variants have in common *)

Lemma loop_run_same_settings (T : string → turn) varying sizes t r :
  (∀ size1 size2 k, k ∉ varying →
     kwarg k (train_kw (T size1)) = kwarg k (train_kw (T size2))) →
  loop_run T sizes t r → same_settings varying t.
Proof.
  intros HT Hrun m1 kw1 a1 m2 kw2 a2 k Hin1 Hin2 Hk.
  destruct (loop_train_calls _ _ _ _ _ _ _ Hrun Hin1) as (size1 & _ & ->).
  destruct (loop_train_calls _ _ _ _ _ _ _ Hrun Hin2) as (size2 & _ & ->).
  by apply HT.
Qed.

Ltac other_keyword Hk :=
  repeat (destruct (decide _) as [<- | _];
          [first [reflexivity | exfalso; apply Hk; set_solver] |]);
  reflexivity.

(** X8.  In each of the three loops, for every list of variants, every
    batch table and every environment: any two [train] calls of a run are
    given the same value for every keyword except [name] and, in the two
    GPU scripts, [batch]; in [train.py] the batch size is the same for all
    variants too. *)
Theorem variants_share_settings :
  (∀ S (h : handler S) s G loc,
     same_settings ["name"; "batch"]
       (trace_of (run h (TrainGpu.train_and_export_loop G loc) s))) ∧
  (∀ S (h : handler S) s G loc,
     same_settings ["name"; "batch"]
       (trace_of (run h (TrainGpuYolo12.train_and_export_loop G loc) s))) ∧
  (∀ S (h : handler S) s G loc,
     same_settings ["name"]
       (trace_of (run h (Train.train_and_export_loop G loc) s))).
Proof.
  split; [| split]; intros S h s G loc.
  - eapply loop_run_same_settings; [| apply (TrainGpu_loop_run h G loc s)].
    intros size1 size2 k Hk. cbn [turn_of_train_gpu train_kw].
    unfold TrainGpu.train_kwargs. cbn [kwarg]. other_keyword Hk.
  - eapply loop_run_same_settings; [| apply (TrainGpuYolo12_loop_run h G loc s)].
    intros size1 size2 k Hk. cbn [turn_of_train_gpu_yolo12 train_kw].
    unfold TrainGpuYolo12.train_kwargs. cbn [kwarg]. other_keyword Hk.
  - eapply loop_run_same_settings; [| apply (Train_loop_run h G loc s)].
    intros size1 size2 k Hk. cbn [turn_of_train train_kw].
    unfold Train.train_kwargs. cbn [kwarg]. other_keyword Hk.
Qed.

(** The two variants of [two_sizes] are trained for the same number of
    epochs and with different batch sizes. *)
Lemma variants_share_settings_scenario :
  let t := trace_of (run (env colab)
                       (TrainGpu.train_and_export_loop two_sizes "/content/dataset") 0%nat) in
  ∃ kw1 kw2,
    t !! 6%nat = Some (Called (c_train 1%nat kw1 (Normal tt))) ∧
    t !! 17%nat = Some (Called (c_train 2%nat kw2 (Normal tt))) ∧
    kwarg "epochs" kw1 = kwarg "epochs" kw2 ∧
    kwarg "batch" kw1 ≠ kwarg "batch" kw2.
Proof.
  intros t.
  exists (TrainGpu.train_kwargs "/content/dataset" "s" 128),
         (TrainGpu.train_kwargs "/content/dataset" "m" 48).
  assert (t !! 6%nat = Some (Called (c_train 1%nat
            (TrainGpu.train_kwargs "/content/dataset" "s" 128) (Normal tt)))) as H1
    by (vm_compute; reflexivity).
  assert (t !! 17%nat = Some (Called (c_train 2%nat
            (TrainGpu.train_kwargs "/content/dataset" "m" 48) (Normal tt)))) as H2
    by (vm_compute; reflexivity).
  split; [exact H1 |]. split; [exact H2 |]. split; [| intros [=]].
  destruct variants_share_settings as (H & _ & _).
  eapply (H nat (env colab) 0%nat two_sizes "/content/dataset").
  - eapply list_elem_of_lookup_2. exact H1.
  - eapply list_elem_of_lookup_2. exact H2.
  - apply (bool_decide_unpack _). vm_compute. exact I.
Defined.

(** ** Which model is trained and exported *)

Lemma split_app {A} (l1 l2 pre : list A) (x : A) (post : list A) :
  l1 ++ l2 = pre ++ x :: post →
  (∃ k, l1 = pre ++ x :: k ∧ post = k ++ l2) ∨ (∃ k, pre = l1 ++ k ∧ l2 = k ++ x :: post).
Proof.
  revert pre. induction l1 as [| y l1 IH]; intros pre E.
  - right. by exists pre.
  - destruct pre as [| z pre]; simpl in E.
    + injection E as -> <-. left. by eexists.
    + injection E as -> E.
      destruct (IH _ E) as [(k & -> & ->) | (k & -> & ->)]; [left | right]; by eexists.
Qed.

Lemma unique_split (P : entry → Prop) (pre : trace) x post pre' y post' :
  Forall (λ z, ¬ P z) pre → Forall (λ z, ¬ P z) post → P y →
  pre ++ x :: post = pre' ++ y :: post' → pre' = pre ∧ y = x ∧ post' = post.
Proof.
  intros Hpre Hpost Hy. revert pre'.
  induction Hpre as [| z pre Hz _ IH]; intros [| z' pre'] E; simpl in E.
  - by injection E as -> ->.
  - injection E as -> ->.
    apply Forall_app in Hpost as [_ Hpost]. by apply Forall_cons in Hpost as [? _].
  - by injection E as -> _.
  - injection E as -> E. by destruct (IH _ E) as (-> & -> & ->).
Qed.

Lemma no_split (P : entry → Prop) (t pre : trace) y post :
  Forall (λ z, ¬ P z) t → P y → t ≠ pre ++ y :: post.
Proof.
  intros Ht Hy ->. apply Forall_app in Ht as [_ Ht]. by apply Forall_cons in Ht as [? _].
Qed.

Ltac none_such :=
  repeat first
    [ apply Forall_nil_2
    | apply Forall_cons; split; [simpl; tauto |]
    | apply Forall_app; split
    | apply Forall_prints; intros ?; simpl; tauto ].

(** The [train] call of a turn comes right after the loading of the weights
    and the lines printed before training. *)
Lemma turn_train_split (T : turn) (w : went) pre m kw a post :
  turn_trace T w = pre ++ Called (c_train m kw a) :: post →
  pre = map Printed (before_load T) ++
        Called (c_YOLO (weights T) (Normal m)) :: map Printed (before_train T) ∧
  kw = train_kw T.
Proof.
  destruct w; unfold turn_trace; intros E.
  1: { exfalso. revert E. apply (no_split is_train); [none_such | exact I]. }
  all: rewrite app_comm_cons, app_assoc in E;
    apply (unique_split is_train) in E as (-> & [= -> -> ->] & ->);
    [done | none_such | none_such | exact I].
Qed.

(** The [export] call of a turn comes right after the training, which
    returned, and the two lines printed in between. *)
Lemma turn_export_split (T : turn) (w : went) pre m kw a post :
  turn_trace T w = pre ++ Called (c_export m kw a) :: post →
  kw = export_kw T ∧
  ∃ pre', pre = pre' ++ [Called (c_train m (train_kw T) (Normal tt));
                         Printed (trained_line T); Printed (exporting_line T)].
Proof.
  destruct w; unfold turn_trace; intros E.
  1, 2: exfalso; revert E; apply (no_split is_export); [none_such | exact I].
  all: rewrite app_comm_cons, app_assoc in E;
    change (?l ++ [?x1; ?x2; ?x3; ?x4; ?x5]) with (l ++ [x1; x2; x3] ++ x4 :: [x5]) in E ||
    change (?l ++ [?x1; ?x2; ?x3; ?x4]) with (l ++ [x1; x2; x3] ++ x4 :: []) in E.
  all: rewrite app_assoc in E;
    apply (unique_split is_export) in E as (-> & [= -> -> ->] & ->);
    [split; [done |]; by eexists | none_such | none_such | exact I].
Qed.

Section LoopModels.
Context {family : string} {T : string → turn} (conv : conventions family T).

Lemma loop_run_trains_what_it_loaded sizes t r :
  loop_run T sizes t r → trains_what_it_loaded family sizes t.
Proof.
  induction 1 as [| size rest w t r Hw _ IH | size rest w e Hw]; intros pre m kw a post E.
  - by destruct pre.
  - apply split_app in E as [(k & E & ->) | (k & -> & E)].
    + apply turn_train_split in E as [-> ->].
      exists (map Printed (before_load (T size))), size, (before_train (T size)).
      split; [left |]. split; [by rewrite (conv_weights _ _ conv) | apply (conv_name _ _ conv)].
    + destruct (IH _ _ _ _ _ E) as (pre' & sz & lines & Hin & -> & Hname).
      exists (turn_trace (T size) w ++ pre'), sz, lines.
      split; [by right |]. split; [by rewrite <- app_assoc | done].
  - apply turn_train_split in E as [-> ->].
    exists (map Printed (before_load (T size))), size, (before_train (T size)).
    split; [left |]. split; [by rewrite (conv_weights _ _ conv) | apply (conv_name _ _ conv)].
Qed.

Lemma loop_run_exports_what_it_trained sizes t r :
  loop_run T sizes t r → exports_what_it_trained family sizes t.
Proof.
  induction 1 as [| size rest w t r Hw _ IH | size rest w e Hw]; intros pre m kw a post E.
  - by destruct pre.
  - apply split_app in E as [(k & E & ->) | (k & -> & E)].
    + apply turn_export_split in E as (-> & pre' & ->).
      split; [apply (conv_export _ _ conv) |].
      exists pre', size, (train_kw (T size)), (trained_line (T size)), (exporting_line (T size)).
      split; [left |]. split; [done | apply (conv_name _ _ conv)].
    + destruct (IH _ _ _ _ _ E) as (-> & pre' & sz & kw' & l1 & l2 & Hin & -> & Hname).
      split; [done |].
      exists (turn_trace (T size) w ++ pre'), sz, kw', l1, l2.
      split; [by right |]. split; [by rewrite <- app_assoc | done].
  - apply turn_export_split in E as (-> & pre' & ->).
    split; [apply (conv_export _ _ conv) |].
    exists pre', size, (train_kw (T size)), (trained_line (T size)), (exporting_line (T size)).
    split; [left |]. split; [done | apply (conv_name _ _ conv)].
Qed.

End LoopModels.

(** X9.  In each of the three loops, for every list of variants and every
    environment: every [train] call is made on the model that the [YOLO]
    call for the weights file of its variant has just returned (only
    printed lines lie between the two calls), and its [name=] is the run
    name of that variant.  No model is trained that was not loaded in the
    same turn. *)
Theorem training_follows_loading :
  (∀ S (h : handler S) s G loc,
     trains_what_it_loaded "yolo11" (TrainGpu.MODEL_SIZES G)
       (trace_of (run h (TrainGpu.train_and_export_loop G loc) s))) ∧
  (∀ S (h : handler S) s G loc,
     trains_what_it_loaded "yolo12" (TrainGpuYolo12.MODEL_SIZES G)
       (trace_of (run h (TrainGpuYolo12.train_and_export_loop G loc) s))) ∧
  (∀ S (h : handler S) s G loc,
     trains_what_it_loaded "yolo11" (Train.MODEL_SIZES G)
       (trace_of (run h (Train.train_and_export_loop G loc) s))).
Proof.
  split; [| split]; intros S h s G loc.
  - eapply (loop_run_trains_what_it_loaded (TrainGpu_conventions G loc)), TrainGpu_loop_run.
  - eapply (loop_run_trains_what_it_loaded (TrainGpuYolo12_conventions G loc)),
      TrainGpuYolo12_loop_run.
  - eapply (loop_run_trains_what_it_loaded (Train_conventions G loc)), Train_loop_run.
Qed.

(** The second [train] call of [train-gpu.py] on [two_sizes] is on the
    model that [YOLO("yolo11m.pt")] returned. *)
Lemma training_follows_loading_scenario :
  let t := trace_of (run (env colab)
                       (TrainGpu.train_and_export_loop two_sizes "/content/dataset") 0%nat) in
  ∃ pre' lines kw a post,
    t = (pre' ++ Called (c_YOLO "yolo11m.pt" (Normal 2%nat)) :: map Printed lines)
        ++ Called (c_train 2%nat kw a) :: post.
Proof.
  intros t.
  assert (t = take 17 t ++ Called (c_train 2%nat
                (TrainGpu.train_kwargs "/content/dataset" "m" 48) (Normal tt)) :: drop 18 t)
    as E by (vm_compute; reflexivity).
  destruct training_follows_loading as (H & _ & _).
  destruct (H nat (env colab) 0%nat two_sizes "/content/dataset" _ _ _ _ _ E)
    as (pre' & size & lines & Hin & Epre & Hname).
  assert (size = "m") as ->.
  { cbn [TrainGpu.MODEL_SIZES two_sizes] in Hin.
    apply elem_of_cons in Hin as [-> | Hin]; [discriminate Hname |].
    by apply list_elem_of_singleton in Hin. }
  exists pre', lines, (TrainGpu.train_kwargs "/content/dataset" "m" 48), (Normal tt),
    (drop 18 t).
  etransitivity; [exact E |]. apply (f_equal (λ l, l ++ _)). exact Epre.
Defined.

(** X10.  In each of the three loops, for every list of variants and every
    environment: every [export] call asks for [format='coreml', nms=True]
    and is made on a model whose [train] call has just returned (two
    printed lines lie between the two calls).  No model is exported that
    was not trained in the same turn, and none after a training that
    raised. *)
Theorem export_follows_training :
  (∀ S (h : handler S) s G loc,
     exports_what_it_trained "yolo11" (TrainGpu.MODEL_SIZES G)
       (trace_of (run h (TrainGpu.train_and_export_loop G loc) s))) ∧
  (∀ S (h : handler S) s G loc,
     exports_what_it_trained "yolo12" (TrainGpuYolo12.MODEL_SIZES G)
       (trace_of (run h (TrainGpuYolo12.train_and_export_loop G loc) s))) ∧
  (∀ S (h : handler S) s G loc,
     exports_what_it_trained "yolo11" (Train.MODEL_SIZES G)
       (trace_of (run h (Train.train_and_export_loop G loc) s))).
Proof.
  split; [| split]; intros S h s G loc.
  - eapply (loop_run_exports_what_it_trained (TrainGpu_conventions G loc)), TrainGpu_loop_run.
  - eapply (loop_run_exports_what_it_trained (TrainGpuYolo12_conventions G loc)),
      TrainGpuYolo12_loop_run.
  - eapply (loop_run_exports_what_it_trained (Train_conventions G loc)), Train_loop_run.
Qed.

(** The export that fails in [colab_export_fails] is the export of the model
    that was trained just before. *)
Lemma export_follows_training_scenario :
  let t := trace_of (run (env colab_export_fails)
                       (TrainGpu.train_and_export_loop two_sizes "/content/dataset") 0%nat) in
  ∃ pre' kw' l1 l2 post,
    t = (pre' ++ [Called (c_train 1%nat kw' (Normal tt)); Printed l1; Printed l2])
        ++ Called (c_export 1%nat export_request
                     (Raised (Exception "coremltools not installed"))) :: post.
Proof.
  intros t.
  assert (t = take 9 t ++ Called (c_export 1%nat export_request
                (Raised (Exception "coremltools not installed"))) :: drop 10 t)
    as E by (vm_compute; reflexivity).
  destruct export_follows_training as (H & _ & _).
  destruct (H nat (env colab_export_fails) 0%nat two_sizes "/content/dataset" _ _ _ _ _ E)
    as (_ & pre' & size & kw' & l1 & l2 & _ & Epre & _).
  exists pre', kw', l1, l2, (drop 10 t).
  etransitivity; [exact E |]. apply (f_equal (λ l, l ++ _)). exact Epre.
Defined.

(** ** How the run ends and what comes first *)

Lemma TrainGpu_run_main_final {S} (h : handler S) G :
  ∃ banner, ∀ s,
    run h (TrainGpu.main G) s =
      whole_run banner (nl +:+ nl +:+ "🎉 All models processed successfully!")
                (run h (TrainGpu.prepare_dataset G) s)
                (λ loc s1, run h (TrainGpu.train_and_export_loop G loc) s1).
Proof.
  unfold TrainGpu.main. eexists [_; _]. intros s.
  split_main (run h (TrainGpu.prepare_dataset G) s).
Qed.

Lemma TrainGpuYolo12_run_main_final {S} (h : handler S) G :
  ∃ banner, ∀ s,
    run h (TrainGpuYolo12.main G) s =
      whole_run banner (nl +:+ nl +:+ "🎉 All YOLO12 models processed successfully!")
                (run h (TrainGpuYolo12.prepare_dataset G) s)
                (λ loc s1, run h (TrainGpuYolo12.train_and_export_loop G loc) s1).
Proof.
  unfold TrainGpuYolo12.main. eexists [_; _; _]. intros s.
  split_main (run h (TrainGpuYolo12.prepare_dataset G) s).
Qed.

Lemma Train_run_main_final {S} (h : handler S) G :
  ∃ banner, ∀ s,
    run h (Train.main G) s =
      whole_run banner (nl +:+ nl +:+ "🎉 All models processed successfully!")
                (run h (Train.prepare_dataset G) s)
                (λ loc s1, run h (Train.train_and_export_loop G loc) s1).
Proof.
  unfold Train.main. eexists [_]. intros s.
  split_main (run h (Train.prepare_dataset G) s).
Qed.

Lemma whole_run_announces {S} banner final tp (s1 : S) loc loop :
  result_of (loop loc s1) = Normal tt →
  announces_success final (whole_run banner final (tp, s1, Normal (Some loc)) loop).
Proof.
  cbn [whole_run]. destruct (loop loc s1) as [[tl s2] [[] | e]]; intros [=].
  split; [| done]. cbn [trace_of fst]. rewrite !app_assoc. apply last_snoc.
Qed.

Lemma loop_run_returns (family : string) (T : string → turn) sizes t r :
  conventions family T → loop_run T sizes t r →
  Forall (λ x, ¬ aborting x) t → r = Normal tt.
Proof. intros conv Hrun Hok. by destruct (loop_run_all_trained family T conv _ _ _ Hrun Hok). Qed.

(** X11.  In each of the three scripts, for every list of variants and
    every environment: when the dataset step binds [dataset_location] and
    no [YOLO] or [train] call raises and no [export] call raises anything
    but an [Exception], [main] returns and the last thing it prints is the
    line "All models processed successfully!" ("All YOLO12 models ..." in
    [train-gpu-yolo12.py]), however many exports failed. *)
Theorem success_is_announced_whatever_the_exports :
  (∀ S (h : handler S) s G tp s1 loc,
     run h (TrainGpu.prepare_dataset G) s = (tp, s1, Normal (Some loc)) →
     Forall (λ x, ¬ aborting x) (trace_of (run h (TrainGpu.train_and_export_loop G loc) s1)) →
     announces_success (nl +:+ nl +:+ "🎉 All models processed successfully!")
       (run h (TrainGpu.main G) s)) ∧
  (∀ S (h : handler S) s G tp s1 loc,
     run h (TrainGpuYolo12.prepare_dataset G) s = (tp, s1, Normal (Some loc)) →
     Forall (λ x, ¬ aborting x)
       (trace_of (run h (TrainGpuYolo12.train_and_export_loop G loc) s1)) →
     announces_success (nl +:+ nl +:+ "🎉 All YOLO12 models processed successfully!")
       (run h (TrainGpuYolo12.main G) s)) ∧
  (∀ S (h : handler S) s G tp s1 loc,
     run h (Train.prepare_dataset G) s = (tp, s1, Normal (Some loc)) →
     Forall (λ x, ¬ aborting x) (trace_of (run h (Train.train_and_export_loop G loc) s1)) →
     announces_success (nl +:+ nl +:+ "🎉 All models processed successfully!")
       (run h (Train.main G) s)).
Proof.
  split; [| split]; intros S h s G tp s1 loc Hprep Hok.
  - destruct (TrainGpu_run_main_final h G) as (banner & ->). rewrite Hprep.
    apply whole_run_announces.
    exact (loop_run_returns _ _ _ _ _ (TrainGpu_conventions G loc)
             (TrainGpu_loop_run h G loc s1) Hok).
  - destruct (TrainGpuYolo12_run_main_final h G) as (banner & ->). rewrite Hprep.
    apply whole_run_announces.
    exact (loop_run_returns _ _ _ _ _ (TrainGpuYolo12_conventions G loc)
             (TrainGpuYolo12_loop_run h G loc s1) Hok).
  - destruct (Train_run_main_final h G) as (banner & ->). rewrite Hprep.
    apply whole_run_announces.
    exact (loop_run_returns _ _ _ _ _ (Train_conventions G loc)
             (Train_loop_run h G loc s1) Hok).
Qed.

(** Every export fails, and [train.py] still ends on the success line. *)
Lemma success_is_announced_whatever_the_exports_scenario :
  let R := run (env colab_no_coreml) (Train.main (Train.module_globals "")) 0%nat in
  map fst (reports (trace_of R)) =
    replicate 3 (Raised (Exception "coremltools not installed")) ∧
  announces_success (nl +:+ nl +:+ "🎉 All models processed successfully!") R.
Proof.
  intros R. split; [vm_compute; reflexivity |].
  destruct success_is_announced_whatever_the_exports as (_ & _ & H).
  eapply (H nat (env colab_no_coreml) 0%nat (Train.module_globals "")).
  - vm_compute. reflexivity.
  - apply (bool_decide_unpack _). vm_compute. exact I.
Defined.

Lemma turn_no_dataset_entry (T : turn) (w : went) :
  Forall (λ x, ¬ dataset_entry x) (turn_trace T w).
Proof. destruct w; unfold turn_trace; none_such. Qed.

Lemma loop_run_no_dataset_entry (T : string → turn) sizes t r :
  loop_run T sizes t r → Forall (λ x, ¬ dataset_entry x) t.
Proof.
  induction 1 as [| size rest w t r Hw _ IH | size rest w e Hw].
  - constructor.
  - apply Forall_app. split; [apply turn_no_dataset_entry | exact IH].
  - apply turn_no_dataset_entry.
Qed.

Lemma whole_run_dataset_then_models {S} banner final
    (prepared : trace * S * outcome (option string)) loop :
  Forall (λ x, ¬ model_entry x) (trace_of prepared) →
  (∀ loc s1, Forall (λ x, ¬ dataset_entry x) (trace_of (loop loc s1))) →
  dataset_then_models (trace_of (whole_run banner final prepared loop)).
Proof.
  intros Hprep Hloop. destruct prepared as [[tp s1] [[loc |] | e]]; cbn [whole_run].
  - specialize (Hloop loc s1). cbn [trace_of fst] in Hprep.
    destruct (loop loc s1) as [[tl s2] [[] | e]]; cbn [trace_of fst] in *.
    + exists (map Printed banner ++ tp), (tl ++ [Printed final]).
      split; [by rewrite <- app_assoc |]. split.
      * apply Forall_app. split; [apply prints_no_model | exact Hprep].
      * apply Forall_app. split; [exact Hloop | none_such].
    + exists (map Printed banner ++ tp), tl.
      split; [by rewrite <- app_assoc |]. split; [| exact Hloop].
      apply Forall_app. split; [apply prints_no_model | exact Hprep].
  - exists (map Printed banner ++ tp), []. cbn [trace_of fst] in *.
    split; [by rewrite app_nil_r |]. split; [| constructor].
    apply Forall_app. split; [apply prints_no_model | exact Hprep].
  - exists (map Printed banner ++ tp), []. cbn [trace_of fst] in *.
    split; [by rewrite app_nil_r |]. split; [| constructor].
    apply Forall_app. split; [apply prints_no_model | exact Hprep].
Qed.

(** X12.  In each of the three scripts, for every list of variants and
    every environment: the trace of [main] falls in two parts, the first
    without any call on a model and the second without any call on the
    process environment, the file system or the Roboflow client.  Once the
    first weights file is asked for, the dataset is not touched again. *)
Theorem dataset_comes_before_models :
  (∀ S (h : handler S) s G, dataset_then_models (trace_of (run h (TrainGpu.main G) s))) ∧
  (∀ S (h : handler S) s G, dataset_then_models (trace_of (run h (TrainGpuYolo12.main G) s))) ∧
  (∀ S (h : handler S) s G, dataset_then_models (trace_of (run h (Train.main G) s))).
Proof.
  split; [| split]; intros S h s G.
  - destruct (TrainGpu_run_main h G) as (banner & final & ->).
    apply whole_run_dataset_then_models; [apply TrainGpu_prepare_no_model |].
    intros loc s1. eapply loop_run_no_dataset_entry, TrainGpu_loop_run.
  - destruct (TrainGpuYolo12_run_main h G) as (banner & final & ->).
    apply whole_run_dataset_then_models; [apply TrainGpuYolo12_prepare_no_model |].
    intros loc s1. eapply loop_run_no_dataset_entry, TrainGpuYolo12_loop_run.
  - destruct (Train_run_main h G) as (banner & final & ->).
    apply whole_run_dataset_then_models; [apply Train_prepare_no_model |].
    intros loc s1. eapply loop_run_no_dataset_entry, Train_loop_run.
Qed.

(** ** The variable [ROBOFLOW_API_KEY] *)

Lemma run_script {S} (h : handler S) (main : string → py unit) s key s0 :
  h _ (environ_get "ROBOFLOW_API_KEY") s = (key, s0) →
  run h (key ← ask (environ_get "ROBOFLOW_API_KEY");
         main (default "wrBZSENL1YtFWZHbvACQ" key)) s =
    let R := run h (main (default "wrBZSENL1YtFWZHbvACQ" key)) s0 in
    (Called (c_environ_get "ROBOFLOW_API_KEY" key) :: trace_of R, state_of R, result_of R).
Proof.
  intros Henv. stepping. rewrite Henv. stepping.
  by destruct (run h (main _) s0) as [[t s'] r].
Qed.

Lemma whole_run_without_credential {S} banner final cwd (s' : S) loop :
  let prepared :=
    (Called (c_getcwd cwd) :: Called (c_path_exists (data_yaml_path cwd) false) ::
     Printed not_found_line :: map Printed no_credential_lines, s', Normal None) in
  let whole := whole_run banner final prepared loop in
  calls_of (trace_of whole) = [c_getcwd cwd; c_path_exists (data_yaml_path cwd) false] ∧
  state_of whole = s' ∧ result_of whole = Normal tt.
Proof. cbn. rewrite calls_of_prints. done. Qed.

Ltac refused_key Hcwd Hfound Hkey :=
  check_descriptor Hcwd Hfound;
  destruct (decide _) as [_ | []]; [| exact Hkey]; reflexivity.

(** X13.  In each of the three scripts, for every environment in which
    [ROBOFLOW_API_KEY] is set to the empty string or to the placeholder and
    the descriptor does not exist: the script reads the variable, checks for
    the descriptor and returns; these three calls are the only ones it
    makes.  The key written in the file stands in for an unset variable
    only, not for an empty one. *)
Theorem empty_variable_disables_download :
  (∀ S (h : handler S) s, set_variable_disables_download h s TrainGpu.script) ∧
  (∀ S (h : handler S) s, set_variable_disables_download h s TrainGpuYolo12.script) ∧
  (∀ S (h : handler S) s, set_variable_disables_download h s Train.script).
Proof.
  split; [| split]; intros S h s key s0 cwd s' Henv Hkey (s1 & Hcwd & Hfound).
  - unfold TrainGpu.script.
    rewrite (run_script h (λ k, TrainGpu.main (TrainGpu.module_globals k)) _ _ _ Henv).
    cbn [default from_option id].
    destruct (TrainGpu_run_main h (TrainGpu.module_globals key)) as (banner & final & ->).
    assert (run h (TrainGpu.prepare_dataset (TrainGpu.module_globals key)) s0 =
            (Called (c_getcwd cwd) :: Called (c_path_exists (data_yaml_path cwd) false) ::
             Printed not_found_line :: map Printed no_credential_lines,
             s', Normal None)) as ->.
    { unfold TrainGpu.prepare_dataset. refused_key Hcwd Hfound Hkey. }
    destruct (whole_run_without_credential banner final cwd s'
                (λ loc s1, run h (TrainGpu.train_and_export_loop
                                    (TrainGpu.module_globals key) loc) s1))
      as (Hcalls & Hstate & Hresult).
    cbn zeta. cbn [trace_of state_of result_of fst snd calls_of call_of].
    fold (@trace_of S (outcome unit)). fold (@state_of S (outcome unit)).
    fold (@result_of S (outcome unit)).
    by rewrite Hcalls, Hstate, Hresult.
  - unfold TrainGpuYolo12.script.
    rewrite (run_script h (λ k, TrainGpuYolo12.main (TrainGpuYolo12.module_globals k))
               _ _ _ Henv).
    cbn [default from_option id].
    destruct (TrainGpuYolo12_run_main h (TrainGpuYolo12.module_globals key))
      as (banner & final & ->).
    assert (run h (TrainGpuYolo12.prepare_dataset (TrainGpuYolo12.module_globals key)) s0 =
            (Called (c_getcwd cwd) :: Called (c_path_exists (data_yaml_path cwd) false) ::
             Printed not_found_line :: map Printed no_credential_lines,
             s', Normal None)) as ->.
    { unfold TrainGpuYolo12.prepare_dataset. refused_key Hcwd Hfound Hkey. }
    destruct (whole_run_without_credential banner final cwd s'
                (λ loc s1, run h (TrainGpuYolo12.train_and_export_loop
                                    (TrainGpuYolo12.module_globals key) loc) s1))
      as (Hcalls & Hstate & Hresult).
    cbn zeta. cbn [trace_of state_of result_of fst snd calls_of call_of].
    fold (@trace_of S (outcome unit)). fold (@state_of S (outcome unit)).
    fold (@result_of S (outcome unit)).
    by rewrite Hcalls, Hstate, Hresult.
  - unfold Train.script.
    rewrite (run_script h (λ k, Train.main (Train.module_globals k)) _ _ _ Henv).
    cbn [default from_option id].
    destruct (Train_run_main h (Train.module_globals key)) as (banner & final & ->).
    assert (run h (Train.prepare_dataset (Train.module_globals key)) s0 =
            (Called (c_getcwd cwd) :: Called (c_path_exists (data_yaml_path cwd) false) ::
             Printed not_found_line :: map Printed no_credential_lines,
             s', Normal None)) as ->.
    { unfold Train.prepare_dataset. refused_key Hcwd Hfound Hkey. }
    destruct (whole_run_without_credential banner final cwd s'
                (λ loc s1, run h (Train.train_and_export_loop
                                    (Train.module_globals key) loc) s1))
      as (Hcalls & Hstate & Hresult).
    cbn zeta. cbn [trace_of state_of result_of fst snd calls_of call_of].
    fold (@trace_of S (outcome unit)). fold (@state_of S (outcome unit)).
    fold (@result_of S (outcome unit)).
    by rewrite Hcalls, Hstate, Hresult.
Qed.

(** [ROBOFLOW_API_KEY] is set to the empty string: [train.py] stops after
    the check for the descriptor, although the file holds a key. *)
Lemma empty_variable_disables_download_scenario :
  let R := run (env (colab_with_key "")) Train.script 0%nat in
  calls_of (trace_of R) =
    [ c_environ_get "ROBOFLOW_API_KEY" (Some ""); c_getcwd "/content";
      c_path_exists (data_yaml_path "/content") false ] ∧
  state_of R = 0%nat ∧
  result_of R = Normal tt.
Proof.
  destruct empty_variable_disables_download as (_ & _ & H).
  apply (H nat (env (colab_with_key "")) 0%nat "" 0%nat "/content" 0%nat).
  - vm_compute. reflexivity.
  - left. reflexivity.
  - exists 0%nat. split; reflexivity.
Defined.

Ltac reach_roboflow_with h Henv Hcwd Hfound Hkey :=
  stepping; rewrite Henv; stepping;
  check_descriptor Hcwd Hfound;
  destruct (decide _) as [Hk | _]; [exfalso; apply Hkey; exact Hk |];
  stepping;
  match goal with
  | |- context [h ?X ?e ?s] => destruct (h X e s) as [a ?]
  end;
  match goal with
  | |- context [run h ?p ?s] => destruct (run h p s) as [[rest ?] ?]
  end.

(** X14.  In each of the three scripts, for every environment in which
    [ROBOFLOW_API_KEY] is set to a key that passes the guard and the
    descriptor does not exist: right after the "not found" line the script
    calls the Roboflow client with the key of the variable, not with the
    key written in the file. *)
Theorem variable_overrides_embedded_key :
  (∀ S (h : handler S) s, fetches_with_variable h s TrainGpu.script) ∧
  (∀ S (h : handler S) s, fetches_with_variable h s TrainGpuYolo12.script) ∧
  (∀ S (h : handler S) s, fetches_with_variable h s Train.script).
Proof.
  split; [| split]; intros S h s key s0 cwd s1 Henv Hkey (s2 & Hcwd & Hfound).
  - unfold TrainGpu.script, TrainGpu.main, TrainGpu.prepare_dataset,
      TrainGpu.download_dataset.
    reach_roboflow_with h Henv Hcwd Hfound Hkey. by eexists [_; _], a, rest.
  - unfold TrainGpuYolo12.script, TrainGpuYolo12.main, TrainGpuYolo12.prepare_dataset,
      TrainGpuYolo12.download_dataset.
    reach_roboflow_with h Henv Hcwd Hfound Hkey. by eexists [_; _; _], a, rest.
  - unfold Train.script, Train.main, Train.prepare_dataset, Train.download_dataset.
    reach_roboflow_with h Henv Hcwd Hfound Hkey. by eexists [_], a, rest.
Qed.

(** With [ROBOFLOW_API_KEY=my-key], [train-gpu-yolo12.py] calls [Roboflow]
    with [my-key]. *)
Lemma variable_overrides_embedded_key_scenario :
  ∃ banner a rest,
    trace_of (run (env (colab_with_key "my-key")) TrainGpuYolo12.script 0%nat) =
      Called (c_environ_get "ROBOFLOW_API_KEY" (Some "my-key")) :: map Printed banner ++
      Called (c_getcwd "/content") ::
      Called (c_path_exists (data_yaml_path "/content") false) ::
      Printed not_found_line ::
      Called (c_Roboflow "my-key" a) :: rest.
Proof.
  destruct variable_overrides_embedded_key as (_ & H & _).
  apply (H nat (env (colab_with_key "my-key")) 0%nat "my-key" 0%nat "/content" 0%nat).
  - vm_compute. reflexivity.
  - intros [Hk | Hk]; discriminate Hk.
  - exists 0%nat. split; reflexivity.
Defined.

(** ** Which weights are loaded *)

Lemma loads_prints lines t : loads (map Printed lines ++ t) = loads t.
Proof. induction lines; simpl; auto. Qed.

Lemma loads_turn (T : turn) (w : went) (t : trace) :
  loads (turn_trace T w ++ t) = weights T :: loads t.
Proof. destruct w; flatten_turn; do 2 (rewrite ?loads_prints; simpl); done. Qed.

Lemma loop_run_loads family (T : string → turn) sizes t r :
  conventions family T → loop_run T sizes t r → loads_in_declared_order family sizes t.
Proof.
  intros conv. unfold loads_in_declared_order.
  induction 1 as [| size rest w t r Hw _ IH | size rest w e Hw].
  - split; [apply prefix_nil | done].
  - destruct IH as [Hpre Hall]. rewrite loads_turn, (conv_weights _ _ conv). simpl.
    split; [by apply prefix_cons |].
    intros [_ Hok]%Forall_app. by rewrite (Hall Hok).
  - pose proof (loads_turn (T size) w []) as Hloads. rewrite app_nil_r in Hloads.
    rewrite Hloads, (conv_weights _ _ conv). simpl.
    split; [apply prefix_cons, prefix_nil |].
    intros Hok. by apply (turn_aborted _ _ _ Hw) in Hok.
Qed.

(** X15.  In each of the three loops, for every list of variants and every
    environment: the weights files passed to [YOLO] are, in order,
    [yolo11<size>.pt] ([yolo12<size>.pt] in [train-gpu-yolo12.py]) for an
    initial part of [MODEL_SIZES], one call per variant; for the whole list
    unless a [YOLO] or [train] call raised or an [export] call raised
    something that is not an [Exception]. *)
Theorem weights_are_loaded_in_declared_order :
  (∀ S (h : handler S) s G loc,
     loads_in_declared_order "yolo11" (TrainGpu.MODEL_SIZES G)
       (trace_of (run h (TrainGpu.train_and_export_loop G loc) s))) ∧
  (∀ S (h : handler S) s G loc,
     loads_in_declared_order "yolo12" (TrainGpuYolo12.MODEL_SIZES G)
       (trace_of (run h (TrainGpuYolo12.train_and_export_loop G loc) s))) ∧
  (∀ S (h : handler S) s G loc,
     loads_in_declared_order "yolo11" (Train.MODEL_SIZES G)
       (trace_of (run h (Train.train_and_export_loop G loc) s))).
Proof.
  split; [| split]; intros S h s G loc.
  - eapply loop_run_loads; [apply (TrainGpu_conventions G loc) | apply TrainGpu_loop_run].
  - eapply loop_run_loads;
      [apply (TrainGpuYolo12_conventions G loc) | apply TrainGpuYolo12_loop_run].
  - eapply loop_run_loads; [apply (Train_conventions G loc) | apply Train_loop_run].
Qed.

(** Every export fails, and [train-gpu-yolo12.py] still loads the weights
    of its three variants. *)
Lemma weights_are_loaded_in_declared_order_scenario :
  loads (trace_of (run (env colab_no_coreml)
                     (TrainGpuYolo12.train_and_export_loop
                        (TrainGpuYolo12.module_globals "") "/content/dataset") 0%nat)) =
    ["yolo12s.pt"; "yolo12m.pt"; "yolo12l.pt"].
Proof.
  destruct weights_are_loaded_in_declared_order as (_ & H & _).
  destruct (H nat (env colab_no_coreml) 0%nat (TrainGpuYolo12.module_globals "")
              "/content/dataset") as [_ Hall].
  apply Hall. apply (bool_decide_unpack _). vm_compute. exact I.
Defined.
